(** * Entertainment AI Agent: a shallow embedding of [main.py]

    The development follows the classes of [main.py] in their order:
    the item classes and their [to_dict], [UserProfile],
    [EntertainmentDatabase] with its JSON persistence,
    [RecommendationEngine] and the facade [EntertainmentAIAgent].

    Modelling conventions.
    - A Python [float] is a binary64 number ([float], with the arithmetic
      of IEEE 754 in the rounding to nearest, ties to even), a Python [int]
      is a [Z].  Where an [int] meets a [float] in an operation it is
      converted first, which raises [OverflowError] when it is too large.
    - A [str] is a [string] holding its UTF-8 bytes; text with a lone
      surrogate, which has no such form, is outside the embedding.
    - A Python [dict] is an association list that keeps insertion order and
      has at most one binding per key ([dict_set] overwrites in place).
    - The objects follow the type annotations of the source, but for a
      rating, annotated [float], which is an [int] when the JSON file or the
      caller gives one.  Values that the source annotates
      [Union[str, int, float]] are [pyval]s.
    - A raised exception is the outcome [Raise]; where the source would go on
      with an object that lies outside its own annotations (a JSON file whose
      fields have other types), the outcome is [Untyped]: the embedding does
      not follow the program any further there. *)

From Stdlib Require Import List String Ascii Bool ZArith Lia.
From Stdlib Require Import Floats.
From Stdlib Require Import Permutation Sorted DecimalString.
From Stdlib Require Import DecimalNat.
Import ListNotations.

Set Warnings "-register-all".
Set Warnings "-inexact-float".

Local Open Scope string_scope.
Local Open Scope Z_scope.
Local Open Scope list_scope.

(** ** Outcomes *)

Inductive exn : Type :=
| KeyError
| TypeError
| AttributeError
| OverflowError.

Inductive res (A : Type) : Type :=
| Ok (a : A)
| Raise (e : exn)
| Untyped.

Arguments Ok {A} a.
Arguments Raise {A} e.
Arguments Untyped {A}.

Definition bind {A B : Type} (m : res A) (k : A -> res B) : res B :=
  match m with
  | Ok a => k a
  | Raise e => Raise e
  | Untyped => Untyped
  end.

Notation "x <- m ;; k" := (bind m (fun x => k))
  (at level 61, m at next level, right associativity).

Notation "' p <- m ;; k" := (bind m (fun p => k))
  (at level 61, p pattern, m at next level, right associativity).

Fixpoint mapM {A B : Type} (f : A -> res B) (l : list A) : res (list B) :=
  match l with
  | [] => Ok []
  | x :: xs => y <- f x ;; ys <- mapM f xs ;; Ok (y :: ys)
  end.

(** ** Python dictionaries with string keys *)

Definition dict (V : Type) : Type := list (string * V).

Fixpoint dict_get {V : Type} (k : string) (d : dict V) : option V :=
  match d with
  | [] => None
  | (k', v) :: d' => if String.eqb k k' then Some v else dict_get k d'
  end.

Definition dict_mem {V : Type} (k : string) (d : dict V) : bool :=
  match dict_get k d with
  | Some _ => true
  | None => false
  end.

(** [d[k] = v]: an existing key keeps its place, a new key goes last. *)
Fixpoint dict_set {V : Type} (k : string) (v : V) (d : dict V) : dict V :=
  match d with
  | [] => [(k, v)]
  | (k', v') :: d' =>
      if String.eqb k k' then (k', v) :: d' else (k', v') :: dict_set k v d'
  end.

Definition dict_keys {V : Type} (d : dict V) : list string := map fst d.
Definition dict_values {V : Type} (d : dict V) : list V := map snd d.

(** [d[k]], which raises [KeyError] on a missing key. *)
Definition dict_index {V : Type} (d : dict V) (k : string) : res V :=
  match dict_get k d with
  | Some v => Ok v
  | None => Raise KeyError
  end.

(** ** Numbers *)

(** [float(z)]: the nearest binary64 number, [OverflowError] when that is
    not finite. *)
Definition float_of_int (z : Z) : res float :=
  match binary_normalize prec emax z 0 false with
  | S754_infinity _ => Raise OverflowError
  | x => Ok (SF2Prim x)
  end.

(** [z == f] between an [int] and a [float] compares the two numbers
    exactly: [f] is [m * 2 ^ e] up to its sign. *)
Definition int_eqb_float (z : Z) (f : float) : bool :=
  match Prim2SF f with
  | S754_zero _ => Z.eqb z 0
  | S754_finite s m e =>
      let v := if s then Z.neg m else Z.pos m in
      if (0 <=? e)%Z then Z.eqb z (v * 2 ^ e) else Z.eqb (z * 2 ^ (- e)) v
  | _ => false
  end.

(** A value that is an [int] or a [float], as a rating is. *)
Inductive pynum : Type :=
| NInt (z : Z)
| NFloat (f : float).

(** The operand of a float operation. *)
Definition to_float (n : pynum) : res float :=
  match n with
  | NInt z => float_of_int z
  | NFloat f => Ok f
  end.

(** ** Values of type [Union[str, int, float]] *)

Inductive pyval : Type :=
| VStr (s : string)
| VInt (z : Z)
| VFloat (f : float).

(** The test that [in] makes for each element of a list: the element is the
    object looked for or is [==] to it.  Numbers compare by value, a string
    is never equal to a number.  Objects have no identity here: a float is
    taken to be the same object as a float of the same value, which adds to
    [==] the case of NaN only. *)
Definition pyval_eqb (a b : pyval) : bool :=
  match a, b with
  | VStr s, VStr t => String.eqb s t
  | VInt x, VInt y => Z.eqb x y
  | VInt x, VFloat q => int_eqb_float x q
  | VFloat q, VInt y => int_eqb_float y q
  | VFloat p, VFloat q => (p =? q)%float || (is_nan p && is_nan q)
  | _, _ => false
  end.

(** [v in l] *)
Definition py_in (v : pyval) (l : list pyval) : bool :=
  existsb (pyval_eqb v) l.

Definition str_in (s : string) (l : list string) : bool :=
  existsb (String.eqb s) l.

(** ** JSON documents *)

Inductive json : Type :=
| JNull
| JBool (b : bool)
| JInt (z : Z)
| JFloat (f : float)
| JStr (s : string)
| JArr (l : list json)
| JObj (o : list (string * json)).

Definition json_of_pyval (v : pyval) : json :=
  match v with
  | VStr s => JStr s
  | VInt z => JInt z
  | VFloat f => JFloat f
  end.

Definition json_of_pynum (n : pynum) : json :=
  match n with
  | NInt z => JInt z
  | NFloat f => JFloat f
  end.

Definition json_strs (l : list string) : json := JArr (map JStr l).

(** ** Entertainment items *)

Record EntertainmentItem : Type := mkItem {
  item_id : string;
  title : string;
  genre : list string;
  year : Z;
  rating : pynum
}.

Record Movie : Type := mkMovie {
  movie_base : EntertainmentItem;
  director : string;
  actors : list string;
  movie_duration : Z
}.

Record Music : Type := mkMusic {
  music_base : EntertainmentItem;
  artist : string;
  album : option string;
  music_duration : option Z
}.

Record Book : Type := mkBook {
  book_base : EntertainmentItem;
  author : string;
  pages : Z;
  publisher : string
}.

Record Game : Type := mkGame {
  game_base : EntertainmentItem;
  developer : string;
  platforms : list string;
  multiplayer : bool
}.

(** An object of one of the four subclasses. *)
Inductive Item : Type :=
| IMovie (m : Movie)
| IMusic (m : Music)
| IBook (b : Book)
| IGame (g : Game).

Definition base (i : Item) : EntertainmentItem :=
  match i with
  | IMovie m => movie_base m
  | IMusic m => music_base m
  | IBook b => book_base b
  | IGame g => game_base g
  end.

Definition base_to_dict (e : EntertainmentItem) : list (string * json) :=
  [ ("id", JStr (item_id e));
    ("title", JStr (title e));
    ("genre", json_strs (genre e));
    ("year", JInt (year e));
    ("rating", json_of_pynum (rating e)) ].

Definition json_opt_str (o : option string) : json :=
  match o with Some s => JStr s | None => JNull end.

Definition json_opt_int (o : option Z) : json :=
  match o with Some z => JInt z | None => JNull end.

Definition movie_to_dict (m : Movie) : json :=
  JObj (base_to_dict (movie_base m) ++
        [ ("director", JStr (director m));
          ("actors", json_strs (actors m));
          ("duration", JInt (movie_duration m));
          ("type", JStr "movie") ]).

Definition music_to_dict (m : Music) : json :=
  JObj (base_to_dict (music_base m) ++
        [ ("artist", JStr (artist m));
          ("album", json_opt_str (album m));
          ("duration", json_opt_int (music_duration m));
          ("type", JStr "music") ]).

Definition book_to_dict (b : Book) : json :=
  JObj (base_to_dict (book_base b) ++
        [ ("author", JStr (author b));
          ("pages", JInt (pages b));
          ("publisher", JStr (publisher b));
          ("type", JStr "book") ]).

Definition game_to_dict (g : Game) : json :=
  JObj (base_to_dict (game_base g) ++
        [ ("developer", JStr (developer g));
          ("platforms", json_strs (platforms g));
          ("multiplayer", JBool (multiplayer g));
          ("type", JStr "game") ]).

Definition to_dict (i : Item) : json :=
  match i with
  | IMovie m => movie_to_dict m
  | IMusic m => music_to_dict m
  | IBook b => book_to_dict b
  | IGame g => game_to_dict g
  end.

(** ** User profiles *)

Record UserProfile : Type := mkUser {
  user_id : string;
  name : string;
  preferences : dict (dict (list pyval));
  history : dict (list string)
}.

(** [UserProfile.__init__] *)
Definition new_profile (uid nm : string) : UserProfile :=
  mkUser uid nm
    [ ("movie", [("genres", []); ("actors", []); ("directors", []);
                 ("years", []); ("ratings", [])]);
      ("music", [("genres", []); ("artists", []); ("years", []);
                 ("ratings", [])]);
      ("book", [("genres", []); ("authors", []); ("years", []);
                ("ratings", [])]);
      ("game", [("genres", []); ("developers", []); ("platforms", []);
                ("years", []); ("ratings", [])]) ]
    [ ("movie", []); ("music", []); ("book", []); ("game", []) ].

Definition add_preference (u : UserProfile) (media_type category : string)
    (value : pyval) : UserProfile :=
  match dict_get media_type (preferences u) with
  | Some cats =>
      match dict_get category cats with
      | Some vals =>
          if py_in value vals then u
          else mkUser (user_id u) (name u)
                 (dict_set media_type
                    (dict_set category (vals ++ [value]) cats)
                    (preferences u))
                 (history u)
      | None => u
      end
  | None => u
  end.

Definition add_to_history (u : UserProfile) (media_type iid : string)
    : UserProfile :=
  match dict_get media_type (history u) with
  | Some seen =>
      if str_in iid seen then u
      else mkUser (user_id u) (name u) (preferences u)
             (dict_set media_type (seen ++ [iid]) (history u))
  | None => u
  end.

(** ** The database *)

Record EntertainmentDatabase : Type := mkDb {
  movies : dict Movie;
  music : dict Music;
  books : dict Book;
  games : dict Game
}.

Definition empty_db : EntertainmentDatabase := mkDb [] [] [] [].

Definition add_movie (d : EntertainmentDatabase) (m : Movie) :=
  mkDb (dict_set (item_id (movie_base m)) m (movies d))
       (music d) (books d) (games d).

Definition add_music (d : EntertainmentDatabase) (m : Music) :=
  mkDb (movies d) (dict_set (item_id (music_base m)) m (music d))
       (books d) (games d).

Definition add_book (d : EntertainmentDatabase) (b : Book) :=
  mkDb (movies d) (music d)
       (dict_set (item_id (book_base b)) b (books d)) (games d).

Definition add_game (d : EntertainmentDatabase) (g : Game) :=
  mkDb (movies d) (music d) (books d)
       (dict_set (item_id (game_base g)) g (games d)).

Definition get_movies (d : EntertainmentDatabase) : list Movie :=
  dict_values (movies d).
Definition get_music (d : EntertainmentDatabase) : list Music :=
  dict_values (music d).
Definition get_books (d : EntertainmentDatabase) : list Book :=
  dict_values (books d).
Definition get_games (d : EntertainmentDatabase) : list Game :=
  dict_values (games d).

Definition get_movie_by_id (d : EntertainmentDatabase) (k : string) :=
  dict_get k (movies d).
Definition get_music_by_id (d : EntertainmentDatabase) (k : string) :=
  dict_get k (music d).
Definition get_book_by_id (d : EntertainmentDatabase) (k : string) :=
  dict_get k (books d).
Definition get_game_by_id (d : EntertainmentDatabase) (k : string) :=
  dict_get k (games d).

(** [_load_sample_data], run by the constructor of the database. *)
Definition sample_movies : list Movie :=
  [ mkMovie (mkItem "m1" "The Shawshank Redemption" ["Drama"] 1994 (NFloat 9.3))
      "Frank Darabont" ["Tim Robbins"; "Morgan Freeman"] 142;
    mkMovie (mkItem "m2" "The Godfather" ["Crime"; "Drama"] 1972 (NFloat 9.2))
      "Francis Ford Coppola" ["Marlon Brando"; "Al Pacino"] 175;
    mkMovie (mkItem "m3" "Inception" ["Action"; "Sci-Fi"] 2010 (NFloat 8.8))
      "Christopher Nolan" ["Leonardo DiCaprio"; "Joseph Gordon-Levitt"] 148;
    mkMovie (mkItem "m4" "Parasite" ["Drama"; "Thriller"] 2019 (NFloat 8.6))
      "Bong Joon Ho" ["Song Kang-ho"; "Lee Sun-kyun"] 132;
    mkMovie (mkItem "m5" "Avengers: Endgame" ["Action"; "Adventure"; "Sci-Fi"]
               2019 (NFloat 8.4))
      "Anthony Russo, Joe Russo" ["Robert Downey Jr."; "Chris Evans"] 181 ].

Definition sample_music : list Music :=
  [ mkMusic (mkItem "mu1" "Bohemian Rhapsody" ["Rock"] 1975 (NFloat 9.5))
      "Queen" (Some "A Night at the Opera") (Some 354);
    mkMusic (mkItem "mu2" "Thriller" ["Pop"; "R&B"] 1982 (NFloat 9.4))
      "Michael Jackson" (Some "Thriller") (Some 293);
    mkMusic (mkItem "mu3" "Back in Black" ["Rock"; "Hard Rock"] 1980 (NFloat 9.0))
      "AC/DC" (Some "Back in Black") (Some 255);
    mkMusic (mkItem "mu4" "After Hours" ["R&B"; "Pop"] 2020 (NFloat 8.7))
      "The Weeknd" (Some "After Hours") (Some 214);
    mkMusic (mkItem "mu5" "folklore" ["Alternative"; "Pop"] 2020 (NFloat 8.9))
      "Taylor Swift" (Some "folklore") (Some 246) ].

Definition sample_books : list Book :=
  [ mkBook (mkItem "b1" "To Kill a Mockingbird" ["Fiction"; "Classic"] 1960
              (NFloat 9.2))
      "Harper Lee" 281 "J. B. Lippincott & Co.";
    mkBook (mkItem "b2" "1984" ["Dystopian"; "Science Fiction"] 1949 (NFloat 9.1))
      "George Orwell" 328 "Secker & Warburg";
    mkBook (mkItem "b3" "The Lord of the Rings" ["Fantasy"; "Adventure"] 1954
              (NFloat 9.3))
      "J.R.R. Tolkien" 1178 "Allen & Unwin";
    mkBook (mkItem "b4" "The Hunger Games"
              ["Dystopian"; "Science Fiction"; "Young Adult"] 2008 (NFloat 8.6))
      "Suzanne Collins" 374 "Scholastic";
    mkBook (mkItem "b5" "Educated" ["Memoir"; "Biography"] 2018 (NFloat 8.9))
      "Tara Westover" 334 "Random House" ].

Definition sample_games : list Game :=
  [ mkGame (mkItem "g1" "The Legend of Zelda: Breath of the Wild"
              ["Action"; "Adventure"] 2017 (NFloat 9.5))
      "Nintendo" ["Nintendo Switch"; "Wii U"] false;
    mkGame (mkItem "g2" "The Witcher 3: Wild Hunt" ["Action"; "RPG"] 2015
              (NFloat 9.4))
      "CD Projekt Red" ["PC"; "PlayStation 4"; "Xbox One"; "Nintendo Switch"]
      false;
    mkGame (mkItem "g3" "Fortnite" ["Battle Royale"; "Survival"] 2017 (NFloat 8.8))
      "Epic Games" ["PC"; "PlayStation"; "Xbox"; "Nintendo Switch"; "Mobile"]
      true;
    mkGame (mkItem "g4" "Red Dead Redemption 2" ["Action"; "Adventure"] 2018
              (NFloat 9.7))
      "Rockstar Games" ["PlayStation 4"; "Xbox One"; "PC"] true;
    mkGame (mkItem "g5" "Minecraft" ["Sandbox"; "Survival"] 2011 (NFloat 9.3))
      "Mojang" ["PC"; "Console"; "Mobile"] true ].

Definition load_sample_data (d : EntertainmentDatabase) :=
  fold_left add_game sample_games
    (fold_left add_book sample_books
       (fold_left add_music sample_music
          (fold_left add_movie sample_movies d))).

(** [EntertainmentDatabase.__init__] *)
Definition new_db : EntertainmentDatabase := load_sample_data empty_db.

(** ** The recommendation engine *)

Local Open Scope float_scope.

(** [user.preferences[media_type][category]] *)
Definition pref (u : UserProfile) (media_type category : string)
    : res (list pyval) :=
  cats <- dict_index (preferences u) media_type ;;
  dict_index cats category.

(** Attribute accesses that only one subclass supports. *)
Definition get_director (i : Item) : res string :=
  match i with IMovie m => Ok (director m) | _ => Raise AttributeError end.
Definition get_actors (i : Item) : res (list string) :=
  match i with IMovie m => Ok (actors m) | _ => Raise AttributeError end.
Definition get_artist (i : Item) : res string :=
  match i with IMusic m => Ok (artist m) | _ => Raise AttributeError end.
Definition get_author (i : Item) : res string :=
  match i with IBook b => Ok (author b) | _ => Raise AttributeError end.
Definition get_developer (i : Item) : res string :=
  match i with IGame g => Ok (developer g) | _ => Raise AttributeError end.
Definition get_platforms (i : Item) : res (list string) :=
  match i with IGame g => Ok (platforms g) | _ => Raise AttributeError end.

(** [for genre in item.genre: if genre in user_genres: score += 0.3] *)
Fixpoint genre_loop (user_genres : list pyval) (gs : list string)
    (score : float) : float :=
  match gs with
  | [] => score
  | g :: gs' =>
      genre_loop user_genres gs'
        (if py_in (VStr g) user_genres then score + 0.3 else score)
  end.

(** [abs(item.year - year) <= 5] for one preferred year.  Two ints are
    subtracted exactly; with a float the int is converted first and the
    difference is rounded; subtracting a string from an int raises
    [TypeError]. *)
Definition within5 (y : Z) (v : pyval) : res bool :=
  match v with
  | VInt z => Ok (Z.abs (y - z) <=? 5)%Z
  | VFloat f => yf <- float_of_int y ;; Ok (abs (yf - f) <=? 5)
  | VStr _ => Raise TypeError
  end.

(** [any(abs(item.year - year) <= 5 for year in user_years)]: the generator
    is consumed up to the first true element only. *)
Fixpoint any_within5 (y : Z) (user_years : list pyval) : res bool :=
  match user_years with
  | [] => Ok false
  | v :: vs =>
      b <- within5 y v ;;
      if b then Ok true else any_within5 y vs
  end.

(** [for actor in item.actors:
       if actor in user.preferences["movie"]["actors"]: score += 0.15] *)
Fixpoint actor_loop (u : UserProfile) (acts : list string) (score : float)
    : res float :=
  match acts with
  | [] => Ok score
  | a :: acts' =>
      liked <- pref u "movie" "actors" ;;
      actor_loop u acts'
        (if py_in (VStr a) liked then score + 0.15 else score)
  end.

(** [for platform in item.platforms:
       if platform in user.preferences["game"]["platforms"]:
           score += 0.2
           break] *)
Fixpoint platform_loop (u : UserProfile) (ps : list string) (score : float)
    : res float :=
  match ps with
  | [] => Ok score
  | p :: ps' =>
      liked <- pref u "game" "platforms" ;;
      if py_in (VStr p) liked then Ok (score + 0.2)
      else platform_loop u ps' score
  end.

Definition calculate_match_score (item : Item) (user : UserProfile)
    (media_type : string) : res float :=
  let score := 0 in
  r <- to_float (rating (base item)) ;;
  let score := score + r / 10 in
  user_genres <- pref user media_type "genres" ;;
  let score := genre_loop user_genres (genre (base item)) score in
  user_years <- pref user media_type "years" ;;
  score <-
    (if py_in (VInt (year (base item))) user_years
     then Ok (score + 0.2)
     else
       near <- any_within5 (year (base item)) user_years ;;
       if near then Ok (score + 0.1) else Ok score) ;;
  score <-
    (if String.eqb media_type "movie" then
       d <- get_director item ;;
       directors <- pref user "movie" "directors" ;;
       let score := if py_in (VStr d) directors
                    then score + 0.2 else score in
       acts <- get_actors item ;;
       actor_loop user acts score
     else if String.eqb media_type "music" then
       a <- get_artist item ;;
       artists <- pref user "music" "artists" ;;
       Ok (if py_in (VStr a) artists then score + 0.4 else score)
     else if String.eqb media_type "book" then
       a <- get_author item ;;
       authors <- pref user "book" "authors" ;;
       Ok (if py_in (VStr a) authors then score + 0.4 else score)
     else if String.eqb media_type "game" then
       d <- get_developer item ;;
       developers <- pref user "game" "developers" ;;
       let score := if py_in (VStr d) developers
                    then score + 0.2 else score in
       ps <- get_platforms item ;;
       platform_loop user ps score
     else Ok score) ;;
  seen <- dict_index (history user) media_type ;;
  Ok (if str_in (item_id (base item)) seen then score - 1 else score).

(** [list.sort(key=..., reverse=True)]: the stable sort in descending order
    of the key, which compares keys with [<] only.  [insert_desc] puts [x]
    in front of the first element whose key is not above its own, so that
    [x], which comes from the left of the elements already placed, stays
    before the ones it ties with.  (With a NaN among the keys [<] is no
    order and the outcome of [list.sort] depends on the comparisons it
    happens to make; the statements below are about keys without NaN.) *)
Fixpoint insert_desc {A : Type} (key : A -> float) (x : A) (l : list A)
    : list A :=
  match l with
  | [] => [x]
  | y :: ys =>
      if key x <? key y then y :: insert_desc key x ys
      else x :: y :: ys
  end.

Fixpoint sort_desc {A : Type} (key : A -> float) (l : list A) : list A :=
  match l with
  | [] => []
  | x :: xs => insert_desc key x (sort_desc key xs)
  end.

(** The stop index of the slice [l[:count]] of a list of length [len]. *)
Definition slice_stop (len count : Z) : Z :=
  (if count <? 0 then
     (if count + len <? 0 then 0 else count + len)
   else
     (if len <=? count then len else count))%Z.

(** [l[:count]] *)
Definition slice_to {A : Type} (l : list A) (count : Z) : list A :=
  firstn (Z.to_nat (slice_stop (Z.of_nat (List.length l)) count)) l.

(** The list [all_items] that [get_recommendations] starts from. *)
Definition all_items (d : EntertainmentDatabase) (media_type : string)
    : list Item :=
  if String.eqb media_type "movie" then map IMovie (get_movies d)
  else if String.eqb media_type "music" then map IMusic (get_music d)
  else if String.eqb media_type "book" then map IBook (get_books d)
  else if String.eqb media_type "game" then map IGame (get_games d)
  else [].

(** [[(item, calculate_match_score(item, user, media_type)) for item in ...]] *)
Definition score_items (items : list Item) (user : UserProfile)
    (media_type : string) : res (list (Item * float)) :=
  mapM (fun item =>
          s <- calculate_match_score item user media_type ;;
          Ok (item, s)) items.

(** [RecommendationEngine.get_recommendations] *)
Definition get_recommendations (d : EntertainmentDatabase)
    (user : UserProfile) (media_type : string) (count : Z)
    : res (list json) :=
  scored_items <- score_items (all_items d media_type) user media_type ;;
  let scored_items := sort_desc snd scored_items in
  Ok (map (fun p => to_dict (fst p)) (slice_to scored_items count)).

(** The score of [get_trending]; [current_year] is [datetime.now().year],
    read once per call.  The difference of the years is an [int], converted
    for the product; a rating that is an [int] is converted for the sum. *)
Definition trending_score (current_year : Z) (item : Item) : res float :=
  age <- float_of_int (current_year - year (base item)) ;;
  r <- to_float (rating (base item)) ;;
  Ok (age * 0.1 + r).

(** [RecommendationEngine.get_trending] *)
Definition get_trending (d : EntertainmentDatabase) (media_type : string)
    (count : Z) (current_year : Z) : res (list json) :=
  scored_items <-
    mapM (fun item =>
            s <- trending_score current_year item ;;
            Ok (item, s))
      (all_items d media_type) ;;
  let scored_items := sort_desc snd scored_items in
  Ok (map (fun p => to_dict (fst p)) (slice_to scored_items count)).

Local Close Scope float_scope.

(** The profile that [main] builds for its user. *)
Definition john : UserProfile :=
  fold_left (fun u '(mt, cat, v) => add_preference u mt cat v)
    [ ("movie", "genres", VStr "Sci-Fi");
      ("movie", "genres", VStr "Action");
      ("movie", "actors", VStr "Leonardo DiCaprio");
      ("music", "genres", VStr "Rock");
      ("music", "artists", VStr "Queen");
      ("book", "genres", VStr "Fantasy");
      ("book", "authors", VStr "J.R.R. Tolkien");
      ("game", "genres", VStr "Action");
      ("game", "platforms", VStr "PC") ]
    (new_profile "user_1" "John").

(** ** Persistence of the database *)

(** The files the program reads and writes, by name.  A file holds the JSON
    document that [json.dump] wrote or that [json.load] would return; the
    text encoding done by the [json] library is not modelled.  A name without
    a binding is a file that cannot be opened or parsed.  A [JObj] is a Python
    dict: its keys are pairwise distinct. *)
Definition fs : Type := dict json.

Definition dump_dict {V : Type} (f : V -> json) (d : dict V) : json :=
  JObj (map (fun kv => (fst kv, f (snd kv))) d).

(** The document [data] of [save_to_file]. *)
Definition db_to_json (d : EntertainmentDatabase) : json :=
  JObj [ ("movies", dump_dict movie_to_dict (movies d));
         ("music", dump_dict music_to_dict (music d));
         ("books", dump_dict book_to_dict (books d));
         ("games", dump_dict game_to_dict (games d)) ].

Definition save_to_file (d : EntertainmentDatabase) (filename : string)
    (files : fs) : fs :=
  dict_set filename (db_to_json d) files.

(** [j[k]] *)
Definition json_index (j : json) (k : string) : res json :=
  match j with
  | JObj o => dict_index o k
  | _ => Raise TypeError
  end.

(** [j.get(k)] *)
Definition json_get (j : json) (k : string) : res (option json) :=
  match j with
  | JObj o => Ok (dict_get k o)
  | _ => Raise AttributeError
  end.

(** [j.items()] *)
Definition json_items (j : json) : res (list (string * json)) :=
  match j with
  | JObj o => Ok o
  | _ => Raise AttributeError
  end.

(** [j.get(k, {}).items()] *)
Definition json_section (j : json) (k : string)
    : res (list (string * json)) :=
  o <- json_get j k ;;
  match o with
  | Some sec => json_items sec
  | None => Ok []
  end.

(** Reading a JSON value at an annotated type.  The source does no such
    check: a value of another type is stored as it is, and the outcome here
    is [Untyped]. *)
Definition as_str (j : json) : res string :=
  match j with JStr s => Ok s | _ => Untyped end.
Definition as_int (j : json) : res Z :=
  match j with JInt z => Ok z | _ => Untyped end.
Definition as_num (j : json) : res pynum :=
  match j with
  | JInt z => Ok (NInt z)
  | JFloat f => Ok (NFloat f)
  | _ => Untyped
  end.
Definition as_bool (j : json) : res bool :=
  match j with JBool b => Ok b | _ => Untyped end.
Definition as_strs (j : json) : res (list string) :=
  match j with JArr l => mapM as_str l | _ => Untyped end.
Definition as_opt_str (o : option json) : res (option string) :=
  match o with
  | None | Some JNull => Ok None
  | Some (JStr s) => Ok (Some s)
  | Some _ => Untyped
  end.
Definition as_opt_int (o : option json) : res (option Z) :=
  match o with
  | None | Some JNull => Ok None
  | Some (JInt z) => Ok (Some z)
  | Some _ => Untyped
  end.

(** The five arguments every constructor call starts with.  All subscripts
    are evaluated (and may raise) before the object is built. *)
Definition base_of_json (a_id a_title a_genre a_year a_rating : json)
    : res EntertainmentItem :=
  i <- as_str a_id ;;
  t <- as_str a_title ;;
  g <- as_strs a_genre ;;
  y <- as_int a_year ;;
  r <- as_num a_rating ;;
  Ok (mkItem i t g y r).

Definition movie_of_json (md : json) : res Movie :=
  a1 <- json_index md "id" ;;
  a2 <- json_index md "title" ;;
  a3 <- json_index md "genre" ;;
  a4 <- json_index md "year" ;;
  a5 <- json_index md "rating" ;;
  a6 <- json_index md "director" ;;
  a7 <- json_index md "actors" ;;
  a8 <- json_index md "duration" ;;
  b <- base_of_json a1 a2 a3 a4 a5 ;;
  d <- as_str a6 ;;
  acts <- as_strs a7 ;;
  dur <- as_int a8 ;;
  Ok (mkMovie b d acts dur).

Definition music_of_json (md : json) : res Music :=
  a1 <- json_index md "id" ;;
  a2 <- json_index md "title" ;;
  a3 <- json_index md "genre" ;;
  a4 <- json_index md "year" ;;
  a5 <- json_index md "rating" ;;
  a6 <- json_index md "artist" ;;
  a7 <- json_get md "album" ;;
  a8 <- json_get md "duration" ;;
  b <- base_of_json a1 a2 a3 a4 a5 ;;
  art <- as_str a6 ;;
  alb <- as_opt_str a7 ;;
  dur <- as_opt_int a8 ;;
  Ok (mkMusic b art alb dur).

Definition book_of_json (bd : json) : res Book :=
  a1 <- json_index bd "id" ;;
  a2 <- json_index bd "title" ;;
  a3 <- json_index bd "genre" ;;
  a4 <- json_index bd "year" ;;
  a5 <- json_index bd "rating" ;;
  a6 <- json_index bd "author" ;;
  a7 <- json_index bd "pages" ;;
  a8 <- json_index bd "publisher" ;;
  b <- base_of_json a1 a2 a3 a4 a5 ;;
  au <- as_str a6 ;;
  pg <- as_int a7 ;;
  pb <- as_str a8 ;;
  Ok (mkBook b au pg pb).

Definition game_of_json (gd : json) : res Game :=
  a1 <- json_index gd "id" ;;
  a2 <- json_index gd "title" ;;
  a3 <- json_index gd "genre" ;;
  a4 <- json_index gd "year" ;;
  a5 <- json_index gd "rating" ;;
  a6 <- json_index gd "developer" ;;
  a7 <- json_index gd "platforms" ;;
  a8 <- json_index gd "multiplayer" ;;
  b <- base_of_json a1 a2 a3 a4 a5 ;;
  dv <- as_str a6 ;;
  ps <- as_strs a7 ;;
  mp <- as_bool a8 ;;
  Ok (mkGame b dv ps mp).

(** The body of the [try] block runs on the database object and may stop at
    any statement with the part done so far left in place. *)
Definition loader (A : Type) : Type :=
  EntertainmentDatabase -> EntertainmentDatabase * res A.

Definition lret {A : Type} (a : A) : loader A := fun d => (d, Ok a).

Definition lbind {A B : Type} (m : loader A) (k : A -> loader B) : loader B :=
  fun d =>
    match m d with
    | (d', Ok a) => k a d'
    | (d', Raise e) => (d', Raise e)
    | (d', Untyped) => (d', Untyped)
    end.

Definition lift {A : Type} (r : res A) : loader A := fun d => (d, r).

Definition modify (f : EntertainmentDatabase -> EntertainmentDatabase)
    : loader unit :=
  fun d => (f d, Ok tt).

Notation "x <~ m ;; k" := (lbind m (fun x => k))
  (at level 61, m at next level, right associativity).
Notation "m ;;; k" := (lbind m (fun _ => k))
  (at level 61, right associativity).

(** [for key, value in j.get(k, {}).items(): self.add_x(X(...))] *)
Fixpoint load_entries {T : Type} (of_json : json -> res T)
    (add : EntertainmentDatabase -> T -> EntertainmentDatabase)
    (entries : list (string * json)) : loader unit :=
  match entries with
  | [] => lret tt
  | (_, v) :: rest =>
      x <~ lift (of_json v) ;;
      modify (fun d => add d x) ;;;
      load_entries of_json add rest
  end.

Definition load_section {T : Type} (data : json) (k : string)
    (of_json : json -> res T)
    (add : EntertainmentDatabase -> T -> EntertainmentDatabase)
    : loader unit :=
  entries <~ lift (json_section data k) ;;
  load_entries of_json add entries.

Definition load_body (data : json) : loader unit :=
  modify (fun _ => empty_db) ;;;
  load_section data "movies" movie_of_json add_movie ;;;
  load_section data "music" music_of_json add_music ;;;
  load_section data "books" book_of_json add_book ;;;
  load_section data "games" game_of_json add_game.

(** [load_from_file]: the database it leaves and the boolean it returns.
    Every exception is caught; a file that cannot be read fails before the
    database is cleared. *)
Definition load_from_file (d : EntertainmentDatabase) (filename : string)
    (files : fs) : res (EntertainmentDatabase * bool) :=
  match dict_get filename files with
  | None => Ok (d, false)
  | Some data =>
      match load_body data d with
      | (d', Ok _) => Ok (d', true)
      | (d', Raise _) => Ok (d', false)
      | (_, Untyped) => Untyped
      end
  end.

(** ** Persistence of user profiles *)

Definition profile_to_dict (u : UserProfile) : json :=
  JObj [ ("user_id", JStr (user_id u));
         ("name", JStr (name u));
         ("preferences",
          dump_dict (dump_dict (fun vals => JArr (map json_of_pyval vals)))
            (preferences u));
         ("history", dump_dict json_strs (history u)) ].

Definition as_pyval (j : json) : res pyval :=
  match j with
  | JStr s => Ok (VStr s)
  | JInt z => Ok (VInt z)
  | JFloat f => Ok (VFloat f)
  | _ => Untyped
  end.

Definition as_dict {V : Type} (f : json -> res V) (j : json) : res (dict V) :=
  match j with
  | JObj o => mapM (fun kv => v <- f (snd kv) ;; Ok (fst kv, v)) o
  | _ => Untyped
  end.

Definition as_pyvals (j : json) : res (list pyval) :=
  match j with JArr l => mapM as_pyval l | _ => Untyped end.

(** [UserProfile.from_dict] *)
Definition from_dict (data : json) : res UserProfile :=
  a1 <- json_index data "user_id" ;;
  a2 <- json_index data "name" ;;
  a3 <- json_index data "preferences" ;;
  a4 <- json_index data "history" ;;
  uid <- as_str a1 ;;
  nm <- as_str a2 ;;
  prefs <- as_dict (as_dict as_pyvals) a3 ;;
  hist <- as_dict as_strs a4 ;;
  Ok (mkUser uid nm prefs hist).

(** ** Searching *)

(** [str.lower] maps each code point to its lower case, in one case to two
    code points, and a capital sigma to one of two letters after its place
    in the word.  The three tables are those of the Unicode character
    database that the interpreter carries (version 14.0, as CPython 3.11
    does): [(first, last, delta, step)] stands for the code
    points [first], [first + step], ..., [last], whose lower case lies
    [delta] further; the other two tables list ranges of code points that
    are case-ignorable, and cased without being case-ignorable. *)
Definition lower_table : list (Z * Z * Z * Z) :=
  [ (65, 90, 32, 1); (192, 214, 32, 1); (216, 222, 32, 1); (256, 302, 1, 2);
    (306, 310, 1, 2); (313, 327, 1, 2); (330, 374, 1, 2);
    (376, 376, (-121), 1); (377, 381, 1, 2); (385, 385, 210, 1);
    (386, 388, 1, 2); (390, 390, 206, 1); (391, 391, 1, 1);
    (393, 394, 205, 1); (395, 395, 1, 1); (398, 398, 79, 1);
    (399, 399, 202, 1); (400, 400, 203, 1); (401, 401, 1, 1);
    (403, 403, 205, 1); (404, 404, 207, 1); (406, 406, 211, 1);
    (407, 407, 209, 1); (408, 408, 1, 1); (412, 412, 211, 1);
    (413, 413, 213, 1); (415, 415, 214, 1); (416, 420, 1, 2);
    (422, 422, 218, 1); (423, 423, 1, 1); (425, 425, 218, 1);
    (428, 428, 1, 1); (430, 430, 218, 1); (431, 431, 1, 1);
    (433, 434, 217, 1); (435, 437, 1, 2); (439, 439, 219, 1);
    (440, 440, 1, 1); (444, 444, 1, 1); (452, 452, 2, 1); (453, 453, 1, 1);
    (455, 455, 2, 1); (456, 456, 1, 1); (458, 458, 2, 1); (459, 475, 1, 2);
    (478, 494, 1, 2); (497, 497, 2, 1); (498, 500, 1, 2);
    (502, 502, (-97), 1); (503, 503, (-56), 1); (504, 542, 1, 2);
    (544, 544, (-130), 1); (546, 562, 1, 2); (570, 570, 10795, 1);
    (571, 571, 1, 1); (573, 573, (-163), 1); (574, 574, 10792, 1);
    (577, 577, 1, 1); (579, 579, (-195), 1); (580, 580, 69, 1);
    (581, 581, 71, 1); (582, 590, 1, 2); (880, 882, 1, 2); (886, 886, 1, 1);
    (895, 895, 116, 1); (902, 902, 38, 1); (904, 906, 37, 1);
    (908, 908, 64, 1); (910, 911, 63, 1); (913, 929, 32, 1);
    (932, 939, 32, 1); (975, 975, 8, 1); (984, 1006, 1, 2);
    (1012, 1012, (-60), 1); (1015, 1015, 1, 1); (1017, 1017, (-7), 1);
    (1018, 1018, 1, 1); (1021, 1023, (-130), 1); (1024, 1039, 80, 1);
    (1040, 1071, 32, 1); (1120, 1152, 1, 2); (1162, 1214, 1, 2);
    (1216, 1216, 15, 1); (1217, 1229, 1, 2); (1232, 1326, 1, 2);
    (1329, 1366, 48, 1); (4256, 4293, 7264, 1); (4295, 4295, 7264, 1);
    (4301, 4301, 7264, 1); (5024, 5103, 38864, 1); (5104, 5109, 8, 1);
    (7312, 7354, (-3008), 1); (7357, 7359, (-3008), 1); (7680, 7828, 1, 2);
    (7838, 7838, (-7615), 1); (7840, 7934, 1, 2); (7944, 7951, (-8), 1);
    (7960, 7965, (-8), 1); (7976, 7983, (-8), 1); (7992, 7999, (-8), 1);
    (8008, 8013, (-8), 1); (8025, 8031, (-8), 2); (8040, 8047, (-8), 1);
    (8072, 8079, (-8), 1); (8088, 8095, (-8), 1); (8104, 8111, (-8), 1);
    (8120, 8121, (-8), 1); (8122, 8123, (-74), 1); (8124, 8124, (-9), 1);
    (8136, 8139, (-86), 1); (8140, 8140, (-9), 1); (8152, 8153, (-8), 1);
    (8154, 8155, (-100), 1); (8168, 8169, (-8), 1); (8170, 8171, (-112), 1);
    (8172, 8172, (-7), 1); (8184, 8185, (-128), 1); (8186, 8187, (-126), 1);
    (8188, 8188, (-9), 1); (8486, 8486, (-7517), 1);
    (8490, 8490, (-8383), 1); (8491, 8491, (-8262), 1); (8498, 8498, 28, 1);
    (8544, 8559, 16, 1); (8579, 8579, 1, 1); (9398, 9423, 26, 1);
    (11264, 11311, 48, 1); (11360, 11360, 1, 1); (11362, 11362, (-10743), 1);
    (11363, 11363, (-3814), 1); (11364, 11364, (-10727), 1);
    (11367, 11371, 1, 2); (11373, 11373, (-10780), 1);
    (11374, 11374, (-10749), 1); (11375, 11375, (-10783), 1);
    (11376, 11376, (-10782), 1); (11378, 11378, 1, 1); (11381, 11381, 1, 1);
    (11390, 11391, (-10815), 1); (11392, 11490, 1, 2); (11499, 11501, 1, 2);
    (11506, 11506, 1, 1); (42560, 42604, 1, 2); (42624, 42650, 1, 2);
    (42786, 42798, 1, 2); (42802, 42862, 1, 2); (42873, 42875, 1, 2);
    (42877, 42877, (-35332), 1); (42878, 42886, 1, 2); (42891, 42891, 1, 1);
    (42893, 42893, (-42280), 1); (42896, 42898, 1, 2); (42902, 42920, 1, 2);
    (42922, 42922, (-42308), 1); (42923, 42923, (-42319), 1);
    (42924, 42924, (-42315), 1); (42925, 42925, (-42305), 1);
    (42926, 42926, (-42308), 1); (42928, 42928, (-42258), 1);
    (42929, 42929, (-42282), 1); (42930, 42930, (-42261), 1);
    (42931, 42931, 928, 1); (42932, 42946, 1, 2); (42948, 42948, (-48), 1);
    (42949, 42949, (-42307), 1); (42950, 42950, (-35384), 1);
    (42951, 42953, 1, 2); (42960, 42960, 1, 1); (42966, 42968, 1, 2);
    (42997, 42997, 1, 1); (65313, 65338, 32, 1); (66560, 66599, 40, 1);
    (66736, 66771, 40, 1); (66928, 66938, 39, 1); (66940, 66954, 39, 1);
    (66956, 66962, 39, 1); (66964, 66965, 39, 1); (68736, 68786, 64, 1);
    (71840, 71871, 32, 1); (93760, 93791, 32, 1); (125184, 125217, 34, 1) ].

Definition case_ignorable_table : list (Z * Z) :=
  [ (39, 39); (46, 46); (58, 58); (94, 94); (96, 96); (168, 168); (173, 173);
    (175, 175); (180, 180); (183, 184); (688, 879); (884, 885); (890, 890);
    (900, 901); (903, 903); (1155, 1161); (1369, 1369); (1375, 1375);
    (1425, 1469); (1471, 1471); (1473, 1474); (1476, 1477); (1479, 1479);
    (1524, 1524); (1536, 1541); (1552, 1562); (1564, 1564); (1600, 1600);
    (1611, 1631); (1648, 1648); (1750, 1757); (1759, 1768); (1770, 1773);
    (1807, 1807); (1809, 1809); (1840, 1866); (1958, 1968); (2027, 2037);
    (2042, 2042); (2045, 2045); (2070, 2093); (2137, 2139); (2184, 2184);
    (2192, 2193); (2200, 2207); (2249, 2306); (2362, 2362); (2364, 2364);
    (2369, 2376); (2381, 2381); (2385, 2391); (2402, 2403); (2417, 2417);
    (2433, 2433); (2492, 2492); (2497, 2500); (2509, 2509); (2530, 2531);
    (2558, 2558); (2561, 2562); (2620, 2620); (2625, 2626); (2631, 2632);
    (2635, 2637); (2641, 2641); (2672, 2673); (2677, 2677); (2689, 2690);
    (2748, 2748); (2753, 2757); (2759, 2760); (2765, 2765); (2786, 2787);
    (2810, 2815); (2817, 2817); (2876, 2876); (2879, 2879); (2881, 2884);
    (2893, 2893); (2901, 2902); (2914, 2915); (2946, 2946); (3008, 3008);
    (3021, 3021); (3072, 3072); (3076, 3076); (3132, 3132); (3134, 3136);
    (3142, 3144); (3146, 3149); (3157, 3158); (3170, 3171); (3201, 3201);
    (3260, 3260); (3263, 3263); (3270, 3270); (3276, 3277); (3298, 3299);
    (3328, 3329); (3387, 3388); (3393, 3396); (3405, 3405); (3426, 3427);
    (3457, 3457); (3530, 3530); (3538, 3540); (3542, 3542); (3633, 3633);
    (3636, 3642); (3654, 3662); (3761, 3761); (3764, 3772); (3782, 3782);
    (3784, 3789); (3864, 3865); (3893, 3893); (3895, 3895); (3897, 3897);
    (3953, 3966); (3968, 3972); (3974, 3975); (3981, 3991); (3993, 4028);
    (4038, 4038); (4141, 4144); (4146, 4151); (4153, 4154); (4157, 4158);
    (4184, 4185); (4190, 4192); (4209, 4212); (4226, 4226); (4229, 4230);
    (4237, 4237); (4253, 4253); (4348, 4348); (4957, 4959); (5906, 5908);
    (5938, 5939); (5970, 5971); (6002, 6003); (6068, 6069); (6071, 6077);
    (6086, 6086); (6089, 6099); (6103, 6103); (6109, 6109); (6155, 6159);
    (6211, 6211); (6277, 6278); (6313, 6313); (6432, 6434); (6439, 6440);
    (6450, 6450); (6457, 6459); (6679, 6680); (6683, 6683); (6742, 6742);
    (6744, 6750); (6752, 6752); (6754, 6754); (6757, 6764); (6771, 6780);
    (6783, 6783); (6823, 6823); (6832, 6862); (6912, 6915); (6964, 6964);
    (6966, 6970); (6972, 6972); (6978, 6978); (7019, 7027); (7040, 7041);
    (7074, 7077); (7080, 7081); (7083, 7085); (7142, 7142); (7144, 7145);
    (7149, 7149); (7151, 7153); (7212, 7219); (7222, 7223); (7288, 7293);
    (7376, 7378); (7380, 7392); (7394, 7400); (7405, 7405); (7412, 7412);
    (7416, 7417); (7468, 7530); (7544, 7544); (7579, 7679); (8125, 8125);
    (8127, 8129); (8141, 8143); (8157, 8159); (8173, 8175); (8189, 8190);
    (8203, 8207); (8216, 8217); (8228, 8228); (8231, 8231); (8234, 8238);
    (8288, 8292); (8294, 8303); (8305, 8305); (8319, 8319); (8336, 8348);
    (8400, 8432); (11388, 11389); (11503, 11505); (11631, 11631);
    (11647, 11647); (11744, 11775); (11823, 11823); (12293, 12293);
    (12330, 12333); (12337, 12341); (12347, 12347); (12441, 12446);
    (12540, 12542); (40981, 40981); (42232, 42237); (42508, 42508);
    (42607, 42610); (42612, 42621); (42623, 42623); (42652, 42655);
    (42736, 42737); (42752, 42785); (42864, 42864); (42888, 42890);
    (42994, 42996); (43000, 43001); (43010, 43010); (43014, 43014);
    (43019, 43019); (43045, 43046); (43052, 43052); (43204, 43205);
    (43232, 43249); (43263, 43263); (43302, 43309); (43335, 43345);
    (43392, 43394); (43443, 43443); (43446, 43449); (43452, 43453);
    (43471, 43471); (43493, 43494); (43561, 43566); (43569, 43570);
    (43573, 43574); (43587, 43587); (43596, 43596); (43632, 43632);
    (43644, 43644); (43696, 43696); (43698, 43700); (43703, 43704);
    (43710, 43711); (43713, 43713); (43741, 43741); (43756, 43757);
    (43763, 43764); (43766, 43766); (43867, 43871); (43881, 43883);
    (44005, 44005); (44008, 44008); (44013, 44013); (64286, 64286);
    (64434, 64450); (65024, 65039); (65043, 65043); (65056, 65071);
    (65106, 65106); (65109, 65109); (65279, 65279); (65287, 65287);
    (65294, 65294); (65306, 65306); (65342, 65342); (65344, 65344);
    (65392, 65392); (65438, 65439); (65507, 65507); (65529, 65531);
    (66045, 66045); (66272, 66272); (66422, 66426); (67456, 67461);
    (67463, 67504); (67506, 67514); (68097, 68099); (68101, 68102);
    (68108, 68111); (68152, 68154); (68159, 68159); (68325, 68326);
    (68900, 68903); (69291, 69292); (69446, 69456); (69506, 69509);
    (69633, 69633); (69688, 69702); (69744, 69744); (69747, 69748);
    (69759, 69761); (69811, 69814); (69817, 69818); (69821, 69821);
    (69826, 69826); (69837, 69837); (69888, 69890); (69927, 69931);
    (69933, 69940); (70003, 70003); (70016, 70017); (70070, 70078);
    (70089, 70092); (70095, 70095); (70191, 70193); (70196, 70196);
    (70198, 70199); (70206, 70206); (70367, 70367); (70371, 70378);
    (70400, 70401); (70459, 70460); (70464, 70464); (70502, 70508);
    (70512, 70516); (70712, 70719); (70722, 70724); (70726, 70726);
    (70750, 70750); (70835, 70840); (70842, 70842); (70847, 70848);
    (70850, 70851); (71090, 71093); (71100, 71101); (71103, 71104);
    (71132, 71133); (71219, 71226); (71229, 71229); (71231, 71232);
    (71339, 71339); (71341, 71341); (71344, 71349); (71351, 71351);
    (71453, 71455); (71458, 71461); (71463, 71467); (71727, 71735);
    (71737, 71738); (71995, 71996); (71998, 71998); (72003, 72003);
    (72148, 72151); (72154, 72155); (72160, 72160); (72193, 72202);
    (72243, 72248); (72251, 72254); (72263, 72263); (72273, 72278);
    (72281, 72283); (72330, 72342); (72344, 72345); (72752, 72758);
    (72760, 72765); (72767, 72767); (72850, 72871); (72874, 72880);
    (72882, 72883); (72885, 72886); (73009, 73014); (73018, 73018);
    (73020, 73021); (73023, 73029); (73031, 73031); (73104, 73105);
    (73109, 73109); (73111, 73111); (73459, 73460); (78896, 78904);
    (92912, 92916); (92976, 92982); (92992, 92995); (94031, 94031);
    (94095, 94111); (94176, 94177); (94179, 94180); (110576, 110579);
    (110581, 110587); (110589, 110590); (113821, 113822); (113824, 113827);
    (118528, 118573); (118576, 118598); (119143, 119145); (119155, 119170);
    (119173, 119179); (119210, 119213); (119362, 119364); (121344, 121398);
    (121403, 121452); (121461, 121461); (121476, 121476); (121499, 121503);
    (121505, 121519); (122880, 122886); (122888, 122904); (122907, 122913);
    (122915, 122916); (122918, 122922); (123184, 123197); (123566, 123566);
    (123628, 123631); (125136, 125142); (125252, 125259); (127995, 127999);
    (917505, 917505); (917536, 917631); (917760, 917999) ].

Definition cased_table : list (Z * Z) :=
  [ (65, 90); (97, 122); (170, 170); (181, 181); (186, 186); (192, 214);
    (216, 246); (248, 442); (444, 447); (452, 659); (661, 687); (880, 883);
    (886, 887); (891, 893); (895, 895); (902, 902); (904, 906); (908, 908);
    (910, 929); (931, 1013); (1015, 1153); (1162, 1327); (1329, 1366);
    (1376, 1416); (4256, 4293); (4295, 4295); (4301, 4301); (4304, 4346);
    (4349, 4351); (5024, 5109); (5112, 5117); (7296, 7304); (7312, 7354);
    (7357, 7359); (7424, 7467); (7531, 7543); (7545, 7578); (7680, 7957);
    (7960, 7965); (7968, 8005); (8008, 8013); (8016, 8023); (8025, 8025);
    (8027, 8027); (8029, 8029); (8031, 8061); (8064, 8116); (8118, 8124);
    (8126, 8126); (8130, 8132); (8134, 8140); (8144, 8147); (8150, 8155);
    (8160, 8172); (8178, 8180); (8182, 8188); (8450, 8450); (8455, 8455);
    (8458, 8467); (8469, 8469); (8473, 8477); (8484, 8484); (8486, 8486);
    (8488, 8488); (8490, 8493); (8495, 8500); (8505, 8505); (8508, 8511);
    (8517, 8521); (8526, 8526); (8544, 8575); (8579, 8580); (9398, 9449);
    (11264, 11387); (11390, 11492); (11499, 11502); (11506, 11507);
    (11520, 11557); (11559, 11559); (11565, 11565); (42560, 42605);
    (42624, 42651); (42786, 42863); (42865, 42887); (42891, 42894);
    (42896, 42954); (42960, 42961); (42963, 42963); (42965, 42969);
    (42997, 42998); (43002, 43002); (43824, 43866); (43872, 43880);
    (43888, 43967); (64256, 64262); (64275, 64279); (65313, 65338);
    (65345, 65370); (66560, 66639); (66736, 66771); (66776, 66811);
    (66928, 66938); (66940, 66954); (66956, 66962); (66964, 66965);
    (66967, 66977); (66979, 66993); (66995, 67001); (67003, 67004);
    (68736, 68786); (68800, 68850); (71840, 71903); (93760, 93823);
    (119808, 119892); (119894, 119964); (119966, 119967); (119970, 119970);
    (119973, 119974); (119977, 119980); (119982, 119993); (119995, 119995);
    (119997, 120003); (120005, 120069); (120071, 120074); (120077, 120084);
    (120086, 120092); (120094, 120121); (120123, 120126); (120128, 120132);
    (120134, 120134); (120138, 120144); (120146, 120485); (120488, 120512);
    (120514, 120538); (120540, 120570); (120572, 120596); (120598, 120628);
    (120630, 120654); (120656, 120686); (120688, 120712); (120714, 120744);
    (120746, 120770); (120772, 120779); (122624, 122633); (122635, 122654);
    (125184, 125251); (127280, 127305); (127312, 127337); (127344, 127369) ].

(** The code points of a string, from its UTF-8 bytes, and back. *)
Definition byte_of (c : ascii) : Z := Z.of_N (N_of_ascii c).
Definition ascii_of (z : Z) : ascii := ascii_of_N (Z.to_N z).

(** [pending] holds the bits read so far of a code point that still needs
    [need] continuation bytes. *)
Fixpoint decode_from (pending : Z) (need : nat) (s : string) : list Z :=
  match s with
  | EmptyString => []
  | String c s' =>
      let b := byte_of c in
      match need with
      | O =>
          if b <? 192 then b :: decode_from 0 0 s'
          else if b <? 224 then decode_from (b - 192) 1 s'
          else if b <? 240 then decode_from (b - 224) 2 s'
          else decode_from (b - 240) 3 s'
      | S O => (pending * 64 + (b - 128)) :: decode_from 0 0 s'
      | S n => decode_from (pending * 64 + (b - 128)) n s'
      end
  end.

Definition decode (s : string) : list Z := decode_from 0 0 s.

Definition encode_cp (c : Z) : string :=
  if c <? 128 then String (ascii_of c) ""
  else if c <? 2048 then
    String (ascii_of (192 + c / 64)) (String (ascii_of (128 + c mod 64)) "")
  else if c <? 65536 then
    String (ascii_of (224 + c / 4096))
      (String (ascii_of (128 + (c / 64) mod 64))
         (String (ascii_of (128 + c mod 64)) ""))
  else
    String (ascii_of (240 + c / 262144))
      (String (ascii_of (128 + (c / 4096) mod 64))
         (String (ascii_of (128 + (c / 64) mod 64))
            (String (ascii_of (128 + c mod 64)) ""))).

Fixpoint encode (l : list Z) : string :=
  match l with
  | [] => ""
  | c :: l' => (encode_cp c ++ encode l')%string
  end.

Definition in_table (c : Z) (t : list (Z * Z)) : bool :=
  existsb (fun r => (fst r <=? c) && (c <=? snd r)) t.

Definition is_case_ignorable (c : Z) : bool := in_table c case_ignorable_table.
Definition is_cased (c : Z) : bool := in_table c cased_table.

(** The lower case of one code point other than capital sigma. *)
Definition lower_cp (c : Z) : list Z :=
  if c =? 304 then [105; 775]
  else
    match find (fun '(lo, hi, _, step) =>
                  (lo <=? c) && (c <=? hi) && ((c - lo) mod step =? 0))
               lower_table with
    | Some (_, _, delta, _) => [c + delta]
    | None => [c]
    end.

(** The first code point of [l] that is not case-ignorable. *)
Fixpoint skip_ignorable (l : list Z) : option Z :=
  match l with
  | [] => None
  | c :: l' => if is_case_ignorable c then skip_ignorable l' else Some c
  end.

(** A capital sigma is final when a cased letter stands before it and none
    after it, case-ignorable code points skipped on both sides. *)
Definition final_sigma (after_cased : bool) (rest : list Z) : bool :=
  after_cased &&
  match skip_ignorable rest with
  | None => true
  | Some c => negb (is_cased c)
  end.

(** [after_cased]: the last code point before this place that is not
    case-ignorable is a cased letter. *)
Fixpoint lower_cps (after_cased : bool) (l : list Z) : list Z :=
  match l with
  | [] => []
  | c :: rest =>
      (if c =? 931
       then [if final_sigma after_cased rest then 962 else 963]
       else lower_cp c)
      ++ lower_cps (if is_case_ignorable c then after_cased else is_cased c)
           rest
  end.

(** [str.lower] *)
Definition lower (s : string) : string := encode (lower_cps false (decode s)).

(** [q in s] on strings *)
Fixpoint contains (q s : string) : bool :=
  if String.prefix q s then true
  else
    match s with
    | EmptyString => false
    | String _ s' => contains q s'
    end.

(** The inner function [matches_query]; [query] is already in lower case. *)
Definition matches_query (query : string) (e : EntertainmentItem) : bool :=
  if contains query (lower (title e)) then true
  else existsb (fun g => contains query (lower g)) (genre e).

(** [if xs: results[k] = xs] *)
Definition set_if_nonempty (k : string) (xs : list json)
    (results : dict (list json)) : dict (list json) :=
  match xs with
  | [] => results
  | _ :: _ => dict_set k xs results
  end.

(** [media_type == k or media_type is None] *)
Definition wants (media_type : option string) (k : string) : bool :=
  match media_type with
  | None => true
  | Some mt => String.eqb mt k
  end.

(** ** The facade *)

Record EntertainmentAIAgent : Type := mkAgent {
  db : EntertainmentDatabase;
  users : dict UserProfile;
  current_user : option string
}.

(** [EntertainmentAIAgent.__init__] *)
Definition new_agent : EntertainmentAIAgent := mkAgent new_db [] None.

(** The decimal digits of a natural number, as an f-string prints them. *)
Definition str_of_nat (n : nat) : string :=
  NilEmpty.string_of_uint (Nat.to_uint n).

Module Agent.

(** [not self.current_user]: [None] and the empty string are both false. *)
Definition no_user (a : EntertainmentAIAgent) : bool :=
  match current_user a with
  | None => true
  | Some s => String.eqb s ""
  end.

(** The key that [self.users[self.current_user]] is looked up with. *)
Definition current_key (a : EntertainmentAIAgent) : string :=
  match current_user a with
  | None => ""
  | Some s => s
  end.

Definition create_user (a : EntertainmentAIAgent) (nm : string)
    : EntertainmentAIAgent * string :=
  let uid := ("user_" ++ str_of_nat (List.length (users a) + 1))%string in
  (mkAgent (db a) (dict_set uid (new_profile uid nm) (users a)) (Some uid),
   uid).

Definition set_current_user (a : EntertainmentAIAgent) (uid : string)
    : EntertainmentAIAgent * bool :=
  if dict_mem uid (users a)
  then (mkAgent (db a) (users a) (Some uid), true)
  else (a, false).

Definition add_user_preference (a : EntertainmentAIAgent)
    (media_type category : string) (value : pyval)
    : res (EntertainmentAIAgent * bool) :=
  if no_user a then Ok (a, false)
  else
    u <- dict_index (users a) (current_key a) ;;
    Ok (mkAgent (db a)
          (dict_set (current_key a)
             (add_preference u media_type category value) (users a))
          (current_user a),
        true).

Definition add_to_history (a : EntertainmentAIAgent)
    (media_type iid : string) : res (EntertainmentAIAgent * bool) :=
  if no_user a then Ok (a, false)
  else
    u <- dict_index (users a) (current_key a) ;;
    Ok (mkAgent (db a)
          (dict_set (current_key a)
             (add_to_history u media_type iid) (users a))
          (current_user a),
        true).

(** [if media_type:] *)
Definition truthy (media_type : option string) : bool :=
  match media_type with
  | None => false
  | Some mt => negb (String.eqb mt "")
  end.

(** The returned dict maps ["error"] to a string or a group name to a list
    of item dicts. *)
Definition get_recommendations (a : EntertainmentAIAgent)
    (media_type : option string) (count : Z) : res (dict json) :=
  if no_user a then Ok [("error", JStr "No user selected")]
  else
    user <- dict_index (users a) (current_key a) ;;
    let recommendations : dict json := [] in
    match media_type with
    | Some mt =>
        if truthy media_type then
          if str_in mt ["movie"; "music"; "book"; "game"] then
            r <- get_recommendations (db a) user mt count ;;
            Ok (dict_set mt (JArr r) recommendations)
          else Ok recommendations
        else
          r1 <- get_recommendations (db a) user "movie" count ;;
          r2 <- get_recommendations (db a) user "music" count ;;
          r3 <- get_recommendations (db a) user "book" count ;;
          r4 <- get_recommendations (db a) user "game" count ;;
          Ok (dict_set "games" (JArr r4)
                (dict_set "books" (JArr r3)
                   (dict_set "music" (JArr r2)
                      (dict_set "movies" (JArr r1) recommendations))))
    | None =>
        r1 <- get_recommendations (db a) user "movie" count ;;
        r2 <- get_recommendations (db a) user "music" count ;;
        r3 <- get_recommendations (db a) user "book" count ;;
        r4 <- get_recommendations (db a) user "game" count ;;
        Ok (dict_set "games" (JArr r4)
              (dict_set "books" (JArr r3)
                 (dict_set "music" (JArr r2)
                    (dict_set "movies" (JArr r1) recommendations))))
    end.

Definition search (a : EntertainmentAIAgent) (query : string)
    (media_type : option string) : dict (list json) :=
  let results : dict (list json) := [] in
  let query := lower query in
  let results :=
    if wants media_type "movie" then
      set_if_nonempty "movies"
        (map movie_to_dict
           (filter (fun m => matches_query query (movie_base m))
              (get_movies (db a))))
        results
    else results in
  let results :=
    if wants media_type "music" then
      set_if_nonempty "music"
        (map music_to_dict
           (filter (fun m => matches_query query (music_base m))
              (get_music (db a))))
        results
    else results in
  let results :=
    if wants media_type "book" then
      set_if_nonempty "books"
        (map book_to_dict
           (filter (fun b => matches_query query (book_base b))
              (get_books (db a))))
        results
    else results in
  let results :=
    if wants media_type "game" then
      set_if_nonempty "games"
        (map game_to_dict
           (filter (fun g => matches_query query (game_base g))
              (get_games (db a))))
        results
    else results in
  results.

(** [EntertainmentAIAgent.get_trending] *)
Definition get_trending (a : EntertainmentAIAgent)
    (media_type : option string) (count : Z) (current_year : Z)
    : res (dict json) :=
  let trending : dict json := [] in
  if truthy media_type then
    match media_type with
    | Some mt =>
        if str_in mt ["movie"; "music"; "book"; "game"] then
          r <- get_trending (db a) mt count current_year ;;
          Ok (dict_set mt (JArr r) trending)
        else Ok trending
    | None => Ok trending
    end
  else
    r1 <- get_trending (db a) "movie" count current_year ;;
    r2 <- get_trending (db a) "music" count current_year ;;
    r3 <- get_trending (db a) "book" count current_year ;;
    r4 <- get_trending (db a) "game" count current_year ;;
    Ok (dict_set "games" (JArr r4)
          (dict_set "books" (JArr r3)
             (dict_set "music" (JArr r2)
                (dict_set "movies" (JArr r1) trending)))).

(** [for user_id, user_data in users_data.items():
       self.users[user_id] = UserProfile.from_dict(user_data)]
    The profiles stored before an exception stay stored. *)
Fixpoint load_users (entries : list (string * json))
    (us : dict UserProfile) : dict UserProfile * res unit :=
  match entries with
  | [] => (us, Ok tt)
  | (uid, user_data) :: rest =>
      match from_dict user_data with
      | Ok u => load_users rest (dict_set uid u us)
      | Raise e => (us, Raise e)
      | Untyped => (us, Untyped)
      end
  end.

Definition load_data (a : EntertainmentAIAgent)
    (db_filename users_filename : string) (files : fs)
    : res (EntertainmentAIAgent * bool) :=
  '(d, _) <- load_from_file (db a) db_filename files ;;
  match dict_get users_filename files with
  | None => Ok (mkAgent d (users a) (current_user a), false)
  | Some users_data =>
      match json_items users_data with
      | Ok entries =>
          match load_users entries (users a) with
          | (us, Ok _) => Ok (mkAgent d us (current_user a), true)
          | (us, Raise _) => Ok (mkAgent d us (current_user a), false)
          | (_, Untyped) => Untyped
          end
      | _ => Ok (mkAgent d (users a) (current_user a), false)
      end
  end.

Definition save_data (a : EntertainmentAIAgent)
    (db_filename users_filename : string) (files : fs) : fs :=
  dict_set users_filename
    (dump_dict profile_to_dict (users a))
    (save_to_file (db a) db_filename files).

End Agent.

(** ** Vocabulary of the statements *)

(** The four kinds of items and the media type each one goes by. *)
Inductive kind : Type := KMovie | KMusic | KBook | KGame.

Definition kind_name (k : kind) : string :=
  match k with
  | KMovie => "movie"
  | KMusic => "music"
  | KBook => "book"
  | KGame => "game"
  end.

(** The items of a kind, in the order the catalog holds them. *)
Definition catalog (d : EntertainmentDatabase) (k : kind) : list Item :=
  match k with
  | KMovie => map (fun kv => IMovie (snd kv)) (movies d)
  | KMusic => map (fun kv => IMusic (snd kv)) (music d)
  | KBook => map (fun kv => IBook (snd kv)) (books d)
  | KGame => map (fun kv => IGame (snd kv)) (games d)
  end.

(** The media type an object belongs to. *)
Definition kind_of (i : Item) : string :=
  match i with
  | IMovie _ => "movie"
  | IMusic _ => "music"
  | IBook _ => "book"
  | IGame _ => "game"
  end.

Definition recognized (media_type : string) : bool :=
  str_in media_type ["movie"; "music"; "book"; "game"].

Definition is_num (v : pyval) : bool :=
  match v with VStr _ => false | _ => true end.

Definition has_key {V : Type} (k : string) (d : dict V) : bool := dict_mem k d.

(** A profile that [calculate_match_score] can read for [media_type]: the
    categories the function subscripts are present, as is the history of the
    media type, and the preferred years are numbers. *)
Definition profile_ok (u : UserProfile) (media_type : string) : bool :=
  match dict_get media_type (preferences u),
        dict_get media_type (history u) with
  | Some cats, Some _ =>
      has_key "genres" cats &&
      match dict_get "years" cats with
      | Some ys => forallb is_num ys
      | None => false
      end &&
      (if String.eqb media_type "movie"
       then has_key "directors" cats && has_key "actors" cats
       else if String.eqb media_type "music" then has_key "artists" cats
       else if String.eqb media_type "book" then has_key "authors" cats
       else if String.eqb media_type "game"
       then has_key "developers" cats && has_key "platforms" cats
       else false)
  | _, _ => false
  end.

(** The list a category holds, empty when there is none. *)
Definition pref_list (u : UserProfile) (media_type category : string)
    : list pyval :=
  match pref u media_type category with
  | Ok l => l
  | _ => []
  end.

Definition history_list (u : UserProfile) (media_type : string)
    : list string :=
  match dict_get media_type (history u) with
  | Some l => l
  | None => []
  end.

(** The same profile with one category, or one history, replaced. *)
Definition set_pref (u : UserProfile) (media_type category : string)
    (vals : list pyval) : UserProfile :=
  match dict_get media_type (preferences u) with
  | Some cats =>
      mkUser (user_id u) (name u)
        (dict_set media_type (dict_set category vals cats) (preferences u))
        (history u)
  | None => u
  end.

Definition set_history (u : UserProfile) (media_type : string)
    (seen : list string) : UserProfile :=
  mkUser (user_id u) (name u) (preferences u)
    (dict_set media_type seen (history u)).

(** The same item with another list of genres, platforms or actors. *)
Definition set_base_genre (e : EntertainmentItem) (gs : list string) :=
  mkItem (item_id e) (title e) gs (year e) (rating e).

Definition set_genre (i : Item) (gs : list string) : Item :=
  match i with
  | IMovie m =>
      IMovie (mkMovie (set_base_genre (movie_base m) gs) (director m)
                (actors m) (movie_duration m))
  | IMusic m =>
      IMusic (mkMusic (set_base_genre (music_base m) gs) (artist m)
                (album m) (music_duration m))
  | IBook b =>
      IBook (mkBook (set_base_genre (book_base b) gs) (author b)
               (pages b) (publisher b))
  | IGame g =>
      IGame (mkGame (set_base_genre (game_base g) gs) (developer g)
               (platforms g) (multiplayer g))
  end.

Definition set_platforms (g : Game) (ps : list string) : Game :=
  mkGame (game_base g) (developer g) ps (multiplayer g).

Definition set_actors (m : Movie) (acts : list string) : Movie :=
  mkMovie (movie_base m) (director m) acts (movie_duration m).

(** How many entries of [xs], counted with repetition, are in [liked]. *)
Definition count_in (liked : list pyval) (xs : list string) : nat :=
  List.length (filter (fun x => py_in (VStr x) liked) xs).

(** [z] has a float to be converted to. *)
Definition converts (z : Z) : bool :=
  match float_of_int z with Ok _ => true | _ => false end.

(** An item the scorer can do its arithmetic on: the rating is a float
    other than NaN or an int that converts, and the year converts. *)
Definition item_ok (i : Item) : bool :=
  match to_float (rating (base i)) with
  | Ok r => negb (is_nan r)
  | _ => false
  end && converts (year (base i)).

(** A catalog whose items of the kind are all such. *)
Definition catalog_ok (d : EntertainmentDatabase) (k : kind) : bool :=
  forallb item_ok (catalog d k).

Definition db_ok (d : EntertainmentDatabase) : bool :=
  catalog_ok d KMovie && catalog_ok d KMusic &&
  catalog_ok d KBook && catalog_ok d KGame.

(** The rating as the float the scorer divides. *)
Definition rating_float (i : Item) : float :=
  match to_float (rating (base i)) with Ok r => r | _ => 0%float end.

(** [v] is the year [y]. *)
Definition same_year (y : Z) (v : pyval) : Prop :=
  match v with
  | VInt z => z = y
  | VFloat f => int_eqb_float y f = true
  | VStr _ => False
  end.

(** [v] is a year at most five years away from [y], as the scorer measures
    it: exactly between two ints, on the rounded difference with a float. *)
Definition near_year (y : Z) (v : pyval) : Prop :=
  match v with
  | VInt z => Z.abs (y - z) <= 5
  | VFloat f =>
      exists yf, float_of_int y = Ok yf /\ (abs (yf - f) <=? 5)%float = true
  | VStr _ => False
  end.

(** [a] may stand in front of [b] in a list sorted in descending order of
    the key. *)
Definition desc {A : Type} (key : A -> float) (a b : A) : Prop :=
  (key b <=? key a)%float = true.


(** No key is NaN. *)
Definition no_nan {A : Type} (key : A -> float) (l : list A) : Prop :=
  Forall (fun a => is_nan (key a) = false) l.


(** [q] occurs in [s]. *)
Definition occurs (q s : string) : Prop :=
  exists pre post : string, s = (pre ++ q ++ post)%string.

(** The item matches the query the way [search] tests it: the query in
    lower case occurs in the title in lower case or in a genre in lower
    case. *)
Definition lower_match (q : string) (e : EntertainmentItem) : Prop :=
  occurs (lower q) (lower (title e)) \/
  exists g, In g (genre e) /\ occurs (lower q) (lower g).

(** Text made of ASCII characters only. *)
Fixpoint ascii_only (s : string) : bool :=
  match s with
  | EmptyString => true
  | String c s' => (nat_of_ascii c <? 128)%nat && ascii_only s'
  end.

(** The same character, or the capital and the small form of one of the
    letters A to Z. *)
Definition same_letter (a b : ascii) : Prop :=
  a = b \/
  ((65 <= nat_of_ascii a <= 90)%nat /\
   nat_of_ascii b = (nat_of_ascii a + 32)%nat) \/
  ((65 <= nat_of_ascii b <= 90)%nat /\
   nat_of_ascii a = (nat_of_ascii b + 32)%nat).

Fixpoint same_letters (a b : string) : Prop :=
  match a, b with
  | EmptyString, EmptyString => True
  | String x a', String y b' => same_letter x y /\ same_letters a' b'
  | _, _ => False
  end.

(** [q] occurs in [s] when letter case is ignored: some stretch of [s] is
    [q] up to the case of its letters. *)
Definition ci_substring (q s : string) : Prop :=
  exists pre mid post : string,
    s = (pre ++ mid ++ post)%string /\ same_letters mid q.

(** Lower case for the letters A to Z alone, which is what [lower] comes to
    on ASCII text. *)
Definition lower_ascii (c : ascii) : ascii :=
  let n := nat_of_ascii c in
  if (65 <=? n)%nat && (n <=? 90)%nat then ascii_of_nat (n + 32) else c.

Fixpoint lower_letters (s : string) : string :=
  match s with
  | EmptyString => EmptyString
  | String c s' => String (lower_ascii c) (lower_letters s')
  end.

(** A group of results as the result dict holds it: absent when empty. *)
Definition group_of (wanted : bool) (l : list json) : option (list json) :=
  if wanted then match l with [] => None | _ :: _ => Some l end else None.

(** Keys are pairwise distinct, and every item is stored under its id. *)
Definition keyed_by {V : Type} (id : V -> string) (d : dict V) : Prop :=
  NoDup (dict_keys d) /\ Forall (fun kv => fst kv = id (snd kv)) d.

Definition db_wf (d : EntertainmentDatabase) : Prop :=
  keyed_by (fun m => item_id (movie_base m)) (movies d) /\
  keyed_by (fun m => item_id (music_base m)) (music d) /\
  keyed_by (fun b => item_id (book_base b)) (books d) /\
  keyed_by (fun g => item_id (game_base g)) (games d).

(** ** The match score, step by step

    A second definition of the score, written after the description of the
    scorer: the rating part, then one step for the genres, the years, the
    characteristics of the kind and the history, each working on the score
    the step before it left.  [calculate_match_score] is compared with
    it. *)

Local Open Scope float_scope.

(** [s + c + ... + c], with [n] additions made one after the other. *)
Fixpoint add_times (n : nat) (c s : float) : float :=
  match n with
  | O => s
  | S n' => add_times n' c (s + c)
  end.

Definition add_if (b : bool) (c s : float) : float :=
  if b then s + c else s.

Definition nearb (y : Z) (v : pyval) : bool :=
  match within5 y v with
  | Ok b => b
  | _ => false
  end.

Definition rating_step (r : float) : float := 0 + r / 10.

Definition genre_step (i : Item) (u : UserProfile) (s : float) : float :=
  add_times (count_in (pref_list u (kind_of i) "genres") (genre (base i)))
    0.3 s.

Definition year_step (i : Item) (u : UserProfile) (s : float) : float :=
  let y := year (base i) in
  let ys := pref_list u (kind_of i) "years" in
  if py_in (VInt y) ys then s + 0.2
  else if existsb (nearb y) ys then s + 0.1
  else s.

Definition kind_step (i : Item) (u : UserProfile) (s : float) : float :=
  match i with
  | IMovie m =>
      add_times (count_in (pref_list u "movie" "actors") (actors m)) 0.15
        (add_if (py_in (VStr (director m)) (pref_list u "movie" "directors"))
           0.2 s)
  | IMusic m =>
      add_if (py_in (VStr (artist m)) (pref_list u "music" "artists")) 0.4 s
  | IBook b =>
      add_if (py_in (VStr (author b)) (pref_list u "book" "authors")) 0.4 s
  | IGame g =>
      add_if (existsb (fun p => py_in (VStr p)
                                  (pref_list u "game" "platforms"))
                (platforms g))
        0.2
        (add_if (py_in (VStr (developer g))
                   (pref_list u "game" "developers"))
           0.2 s)
  end.

Definition history_step (i : Item) (u : UserProfile) (s : float) : float :=
  if str_in (item_id (base i)) (history_list u (kind_of i)) then s - 1
  else s.

Definition stepwise_score (i : Item) (u : UserProfile) : float :=
  history_step i u
    (kind_step i u
       (year_step i u (genre_step i u (rating_step (rating_float i))))).

Local Close Scope float_scope.

(** ** The order of the floats

    The place of a number other than NaN in the order that [<] and [<=]
    decide: the sign class first, then the exponent, then the mantissa,
    both counted downwards for a negative number. *)

Definition sf_rank (x : spec_float) : Z * (Z * Z) :=
  match x with
  | S754_nan => (0, (0, 0))
  | S754_zero _ => (0, (0, 0))
  | S754_infinity true => (-2, (0, 0))
  | S754_infinity false => (2, (0, 0))
  | S754_finite true m e => (-1, (- e, Z.neg m))
  | S754_finite false m e => (1, (e, Z.pos m))
  end.

Definition rank (f : float) : Z * (Z * Z) := sf_rank (Prim2SF f).

Definition lex_lt (a b : Z * (Z * Z)) : Prop :=
  fst a < fst b \/
  fst a = fst b /\
  (fst (snd a) < fst (snd b) \/
   fst (snd a) = fst (snd b) /\ snd (snd a) < snd (snd b)).

Definition sf_nan (x : spec_float) : bool :=
  match x with S754_nan => true | _ => false end.

Definition sf_finite (x : spec_float) : bool :=
  match x with S754_finite _ _ _ => true | _ => false end.

(** A float that is neither NaN, nor an infinity, nor a zero. *)
Definition finite (f : float) : bool := sf_finite (Prim2SF f).

(** ** Sample inputs *)

Definition blank_movie : Movie :=
  mkMovie (mkItem "" "" [] 0 (NFloat 0)) "" [] 0.
Definition blank_game : Game :=
  mkGame (mkItem "" "" [] 0 (NFloat 0)) "" [] false.

(** Inception and The Witcher 3 of the sample data. *)
Definition m3 : Movie := nth 2 sample_movies blank_movie.
Definition g2 : Game := nth 1 sample_games blank_game.



(** John with two preferred years for movies. *)
Definition john_years : UserProfile :=
  add_preference (add_preference john "movie" "years" (VInt 2010))
    "movie" "years" (VInt 2008).

(** John with a string in front of a number among the preferred years of
    movies. *)
Definition john_late_year : UserProfile :=
  add_preference (add_preference john "movie" "years" (VStr "2012"))
    "movie" "years" (VInt 2012).

(** John after watching Inception, with a preferred year two years from
    its own. *)
Definition john_near_seen : UserProfile :=
  add_preference (add_to_history john "movie" "m3") "movie" "years"
    (VInt 2008).

(** John with a string as the preferred year of games. *)
Definition john_game_str : UserProfile :=
  add_preference john "game" "years" (VStr "2015").

(** John after playing The Witcher 3. *)
Definition john_played : UserProfile := add_to_history john "game" "g2".

(** John after watching Inception. *)
Definition john_seen : UserProfile := add_to_history john "movie" "m3".

(** A users file with one profile, stored under the id [user_2], next to no
    database file. *)
Definition bob : UserProfile := new_profile "user_2" "Bob".

Definition bob_files : fs :=
  [ ("users.json", JObj [("user_2", profile_to_dict bob)]) ].

(** A movie whose title is the five Greek capitals omicron, delta, omicron,
    sigma, alpha, in a database of its own, and the first four of them as a
    query. *)
Definition odosa : string := encode [927; 916; 927; 931; 913].
Definition odos : string := encode [927; 916; 927; 931].

Definition greek_movie : Movie :=
  mkMovie (mkItem "m7" odosa ["Drama"] 2001 (NFloat 7.0)) "Nobody" [] 90.

Definition greek_agent : EntertainmentAIAgent :=
  mkAgent (add_movie empty_db greek_movie) [] None.

(** A movie whose title is Amelie with an acute accent on its first e, and
    the same title in capitals. *)
Definition amelie : string := encode [65; 109; 233; 108; 105; 101].
Definition amelie_caps : string := encode [65; 77; 201; 76; 73; 69].

Definition french_movie : Movie :=
  mkMovie (mkItem "m8" amelie ["Comedy"; "Romance"] 2001 (NFloat 8.3))
    "Jean-Pierre Jeunet" ["Audrey Tautou"] 122.

Definition french_agent : EntertainmentAIAgent :=
  mkAgent (add_movie empty_db french_movie) [] None.

(** ** Vocabulary of the further statements *)

(** The trending score of the item is a number: the age and the rating
    convert and the sum is not NaN. *)
Definition trend_ok (current_year : Z) (i : Item) : bool :=
  match trending_score current_year i with
  | Ok s => negb (is_nan s)
  | _ => false
  end.

(** Two movies a year and a tenth of a rating point apart, in a database of
    their own. *)
Definition film_1990 : Movie :=
  mkMovie (mkItem "a" "Older" [] 1990 (NFloat 7.1)) "" [] 100.
Definition film_1991 : Movie :=
  mkMovie (mkItem "b" "Younger" [] 1991 (NFloat 7.2)) "" [] 100.

Definition two_films : EntertainmentDatabase :=
  add_movie (add_movie empty_db film_1990) film_1991.

(** How often the genre [g] occurs in a list of genres. *)
Definition occurrences (g : string) (gs : list string) : nat :=
  List.length (filter (String.eqb g) gs).

(** The ids [create_user] gives out: [user_1], [user_2], ... *)
Definition user_key (i : nat) : string := ("user_" ++ str_of_nat i)%string.

Definition created_keys (n : nat) : list string := map user_key (seq 1 n).

(** The current user, when there is one, is a stored profile. *)
Definition current_ok (a : EntertainmentAIAgent) : Prop :=
  match current_user a with
  | None => True
  | Some k => dict_mem k (users a) = true
  end.

(** A profile readable for each of the four media types. *)
Definition profile_ready (u : UserProfile) : bool :=
  profile_ok u "movie" && profile_ok u "music" &&
  profile_ok u "book" && profile_ok u "game".

(** The outcome of a run that stayed within the type annotations, so that
    the embedding followed the program to its end. *)
Definition typed {A : Type} (r : res A) : Prop := r <> Untyped.

Definition is_obj (j : json) : bool :=
  match j with JObj _ => true | _ => false end.

(** A database file whose second movie record has no title. *)
Definition torn_file : json :=
  JObj [ ("movies",
          JObj [ ("m3", movie_to_dict m3);
                 ("m9", JObj [("id", JStr "m9")]);
                 ("m1", movie_to_dict (nth 0 sample_movies blank_movie)) ]);
         ("games", dump_dict game_to_dict (games new_db)) ].

(** An agent with two users made by [create_user]. *)
Definition two_users : EntertainmentAIAgent :=
  fst (Agent.create_user (fst (Agent.create_user new_agent "John")) "Ann").

(** John with a string among the preferred years of movies. *)
Definition john_str_year : UserProfile :=
  add_preference (add_preference john "movie" "years" (VInt 1990))
    "movie" "years" (VStr "2010").

(** An agent whose only profile is stored under the empty id, as a users
    file can have it. *)
Definition nameless_agent : EntertainmentAIAgent :=
  mkAgent new_db [("", new_profile "" "Nobody")] None.

(** * Properties *)

(** ** Dictionaries *)

Section DictFacts.
Context {V : Type}.
Implicit Types (d : dict V) (k : string) (v : V).

Lemma dict_get_set_same k v d : dict_get k (dict_set k v d) = Some v.
Proof.
  induction d as [|[k' v'] d IH]; simpl.
  - now rewrite String.eqb_refl.
  - destruct (String.eqb k k') eqn:E; simpl; rewrite E; auto.
Qed.

Lemma dict_get_set_other k k' v d :
  k <> k' -> dict_get k' (dict_set k v d) = dict_get k' d.
Proof.
  intros Hne. induction d as [|[k0 v0] d IH]; simpl.
  - destruct (String.eqb k' k) eqn:E; auto.
    apply String.eqb_eq in E. congruence.
  - destruct (String.eqb k k0) eqn:E; simpl.
    + apply String.eqb_eq in E. subst k0.
      destruct (String.eqb k' k) eqn:E'; auto.
      apply String.eqb_eq in E'. congruence.
    + now rewrite IH.
Qed.

Lemma dict_get_In k v d : dict_get k d = Some v -> In (k, v) d.
Proof.
  induction d as [|[k' v'] d IH]; simpl; [discriminate|].
  destruct (String.eqb k k') eqn:E.
  - apply String.eqb_eq in E. intros [= ->]. subst. now left.
  - intros H. right. auto.
Qed.

Lemma dict_get_None k d : dict_get k d = None <-> ~ In k (dict_keys d).
Proof.
  induction d as [|[k' v'] d IH]; simpl.
  - tauto.
  - destruct (String.eqb k k') eqn:E.
    + apply String.eqb_eq in E. subst. split; [discriminate|tauto].
    + apply String.eqb_neq in E. rewrite IH. split.
      * intros H [H'|H']; [congruence|tauto].
      * tauto.
Qed.

(** Writing a key the dictionary does not have appends the binding. *)
Lemma dict_set_fresh k v d :
  ~ In k (dict_keys d) -> dict_set k v d = d ++ [(k, v)].
Proof.
  induction d as [|[k' v'] d IH]; simpl; intros H; [reflexivity|].
  destruct (String.eqb k k') eqn:E.
  - apply String.eqb_eq in E. subst. tauto.
  - rewrite IH; tauto.
Qed.

Lemma dict_set_keys_present k v d :
  In k (dict_keys d) -> dict_keys (dict_set k v d) = dict_keys d.
Proof.
  induction d as [|[k' v'] d IH]; simpl; intros H; [tauto|].
  destruct (String.eqb k k') eqn:E; simpl; [reflexivity|].
  apply String.eqb_neq in E. f_equal. apply IH. destruct H; congruence.
Qed.

Lemma dict_set_length_present k v d :
  In k (dict_keys d) -> List.length (dict_set k v d) = List.length d.
Proof.
  intros H. apply dict_set_keys_present with (v := v) in H.
  unfold dict_keys in H.
  rewrite <- (length_map fst (dict_set k v d)), H. apply length_map.
Qed.

End DictFacts.

(** ** The order of the floats *)

Lemma SFcompare_rank x y :
  sf_nan x = false -> sf_nan y = false ->
  exists c, SFcompare x y = Some c /\
    match c with
    | Lt => lex_lt (sf_rank x) (sf_rank y)
    | Eq => sf_rank x = sf_rank y
    | Gt => lex_lt (sf_rank y) (sf_rank x)
    end.
Proof.
  intros Hx Hy.
  destruct x as [sx|sx| |sx mx ex]; try discriminate;
  destruct y as [sy|sy| |sy my ey]; try discriminate;
  try destruct sx; try destruct sy; simpl;
  try (eexists; split; [reflexivity|]; unfold lex_lt; simpl; first [reflexivity | lia]).
  - rewrite Pos.compare_cont_spec; simpl.
    destruct (Z.compare_spec ex ey) as [E|E|E];
      [destruct (Pos.compare_spec mx my) as [F|F|F]| |];
      eexists; (split; [reflexivity|]); unfold lex_lt; simpl; subst;
      first [reflexivity | lia].
  - rewrite Pos.compare_cont_spec; simpl.
    destruct (Z.compare_spec ex ey) as [E|E|E];
      [destruct (Pos.compare_spec mx my) as [F|F|F]| |];
      eexists; (split; [reflexivity|]); unfold lex_lt; simpl; subst;
      first [reflexivity | lia].
Qed.

Lemma is_nan_sf f : is_nan f = sf_nan (Prim2SF f).
Proof.
  unfold is_nan. rewrite eqb_spec. unfold SFeqb.
  destruct (sf_nan (Prim2SF f)) eqn:E.
  - destruct (Prim2SF f); try discriminate. reflexivity.
  - destruct (SFcompare_rank _ _ E E) as [c [Hc Hr]]. rewrite Hc.
    destruct c; try reflexivity; unfold lex_lt in Hr; lia.
Qed.

Lemma ltb_rank x y :
  is_nan x = false -> is_nan y = false ->
  (x <? y)%float = true <-> lex_lt (rank x) (rank y).
Proof.
  intros Hx Hy. rewrite is_nan_sf in Hx, Hy.
  rewrite ltb_spec. unfold SFltb, rank.
  destruct (SFcompare_rank _ _ Hx Hy) as [c [Hc Hr]]. rewrite Hc.
  destruct c; split; intros H; try discriminate; try reflexivity; try assumption;
  unfold lex_lt in *; try rewrite Hr in H; lia.
Qed.

Lemma eqb_rank x y :
  is_nan x = false -> is_nan y = false ->
  (x =? y)%float = true <-> rank x = rank y.
Proof.
  intros Hx Hy. rewrite is_nan_sf in Hx, Hy.
  rewrite eqb_spec. unfold SFeqb, rank.
  destruct (SFcompare_rank _ _ Hx Hy) as [c [Hc Hr]]. rewrite Hc.
  destruct c; split; intros H; try discriminate; try reflexivity; try assumption;
  unfold lex_lt in *; rewrite H in Hr; lia.
Qed.

Lemma leb_rank x y :
  is_nan x = false -> is_nan y = false ->
  (x <=? y)%float = true <-> ~ lex_lt (rank y) (rank x).
Proof.
  intros Hx Hy. rewrite is_nan_sf in Hx, Hy.
  rewrite leb_spec. unfold SFleb, rank.
  destruct (SFcompare_rank _ _ Hx Hy) as [c [Hc Hr]]. rewrite Hc.
  destruct c; split; intros H; try discriminate; try reflexivity;
  unfold lex_lt in *; try rewrite Hr in *; try lia.
Qed.


(** Rounding never produces a NaN. *)
Lemma shr_1_nonneg mrs : (0 <= shr_m mrs -> 0 <= shr_m (shr_1 mrs))%Z.
Proof.
  destruct mrs as [m r s]; simpl. intros H.
  destruct m as [|p|p]; simpl; try lia; destruct p; simpl; lia.
Qed.

Lemma iter_shr_1_nonneg p mrs :
  (0 <= shr_m mrs -> 0 <= shr_m (iter_pos shr_1 p mrs))%Z.
Proof.
  revert mrs. induction p; intros mrs H; simpl; auto using shr_1_nonneg.
Qed.

Lemma shr_fexp_nonneg m e l :
  (0 <= m -> 0 <= shr_m (fst (shr_fexp prec emax m e l)))%Z.
Proof.
  intros H. unfold shr_fexp, shr.
  assert (H0 : (0 <= shr_m (shr_record_of_loc m l))%Z).
  { destruct l as [|[ | | ]]; simpl; exact H. }
  destruct (fexp prec emax (Zdigits2 m + e) - e)%Z; simpl; auto.
  apply iter_shr_1_nonneg, H0.
Qed.

Lemma round_nearest_even_nonneg m l : (0 <= m -> 0 <= round_nearest_even m l)%Z.
Proof.
  intros H. destruct l as [|[ | | ]]; simpl; try lia.
  destruct (Z.even m); lia.
Qed.

Lemma binary_round_aux_not_nan s m e l :
  (0 <= m)%Z -> sf_nan (binary_round_aux prec emax s m e l) = false.
Proof.
  intros H. unfold binary_round_aux.
  pose proof (shr_fexp_nonneg m e l H) as H1.
  destruct (shr_fexp prec emax m e l) as [mrs1 e1]. simpl in H1.
  pose proof (shr_fexp_nonneg _ e1 loc_Exact
                (round_nearest_even_nonneg _ (loc_of_shr_record mrs1) H1)) as H2.
  destruct (shr_fexp prec emax _ e1 loc_Exact) as [mrs2 e2]. simpl in H2.
  destruct (shr_m mrs2); try lia; try reflexivity.
  destruct (_ <=? _)%Z; reflexivity.
Qed.

Lemma binary_normalize_not_nan m e sz :
  sf_nan (binary_normalize prec emax m e sz) = false.
Proof.
  destruct m; simpl; try reflexivity; unfold binary_round;
    destruct (shl_align _ _ _); apply binary_round_aux_not_nan; lia.
Qed.

Lemma SFadd_not_nan x y :
  sf_nan x = false -> sf_finite y = true ->
  sf_nan (SFadd prec emax x y) = false.
Proof.
  intros Hx Hy. destruct y as [| | |sy my ey]; try discriminate.
  destruct x as [sx|sx| |sx mx ex]; try discriminate; try reflexivity.
  apply binary_normalize_not_nan.
Qed.

Lemma SFsub_not_nan x y :
  sf_nan x = false -> sf_finite y = true ->
  sf_nan (SFsub prec emax x y) = false.
Proof.
  intros Hx Hy. destruct y as [| | |sy my ey]; try discriminate.
  destruct x as [sx|sx| |sx mx ex]; try discriminate; try reflexivity.
  apply binary_normalize_not_nan.
Qed.

Lemma SFdiv_not_nan x y :
  sf_nan x = false -> sf_finite y = true ->
  sf_nan (SFdiv prec emax x y) = false.
Proof.
  intros Hx Hy. destruct y as [| | |sy my ey]; try discriminate.
  destruct x as [sx|sx| |sx mx ex]; try discriminate; try reflexivity.
  unfold SFdiv.
  destruct (SFdiv_core_binary prec emax (Z.pos mx) ex (Z.pos my) ey)
    as [[mz ez] lz] eqn:E.
  apply binary_round_aux_not_nan.
  unfold SFdiv_core_binary in E.
  destruct (Z.div_eucl _ (Z.pos my)) as [q r] eqn:D in E.
  inversion E; subst; clear E.
  match type of D with Z.div_eucl ?a ?b = _ =>
    pose proof (Z.div_pos a b) as P; unfold Z.div in P; rewrite D in P end.
  apply P; try lia.
  destruct (ex - ey - _)%Z; try lia. apply Z.shiftl_nonneg. lia.
Qed.

Lemma add_not_nan x c :
  is_nan x = false -> finite c = true -> is_nan (x + c)%float = false.
Proof.
  rewrite !is_nan_sf, add_spec. apply SFadd_not_nan.
Qed.

Lemma sub_not_nan x c :
  is_nan x = false -> finite c = true -> is_nan (x - c)%float = false.
Proof.
  rewrite !is_nan_sf, sub_spec. apply SFsub_not_nan.
Qed.

Lemma div_not_nan x c :
  is_nan x = false -> finite c = true -> is_nan (x / c)%float = false.
Proof.
  rewrite !is_nan_sf, div_spec. apply SFdiv_not_nan.
Qed.

Lemma zero_add_not_nan x : is_nan x = false -> is_nan (0 + x)%float = false.
Proof.
  rewrite !is_nan_sf, add_spec.
  change (Prim2SF 0%float) with (S754_zero false).
  destruct (Prim2SF x) as [s|s| |s m e]; try discriminate; try reflexivity.
  destruct s; reflexivity.
Qed.

Lemma eqb_refl_not_nan x : is_nan x = false -> (x =? x)%float = true.
Proof. unfold is_nan. now destruct (x =? x)%float. Qed.


(** Among numbers, [a < b] fails exactly when [b <= a]. *)
Lemma ltb_false_leb x y :
  is_nan x = false -> is_nan y = false ->
  (x <? y)%float = false <-> (y <=? x)%float = true.
Proof.
  intros Hx Hy. rewrite (leb_rank _ _ Hy Hx).
  pose proof (ltb_rank _ _ Hx Hy) as H.
  destruct (x <? y)%float; split; intros H'; try reflexivity;
    try discriminate.
  - exfalso. apply H'. now apply H.
  - intros Hl. apply H in Hl. discriminate.
Qed.

Lemma leb_trans x y z :
  is_nan x = false -> is_nan y = false -> is_nan z = false ->
  (x <=? y)%float = true -> (y <=? z)%float = true -> (x <=? z)%float = true.
Proof.
  intros Hx Hy Hz. rewrite (leb_rank _ _ Hx Hy), (leb_rank _ _ Hy Hz),
    (leb_rank _ _ Hx Hz). unfold lex_lt. lia.
Qed.

Lemma leb_refl_not_nan x : is_nan x = false -> (x <=? x)%float = true.
Proof. intros H. rewrite (leb_rank _ _ H H). unfold lex_lt. lia. Qed.

Lemma ltb_leb x y :
  is_nan x = false -> is_nan y = false ->
  (x <? y)%float = true -> (x <=? y)%float = true.
Proof.
  intros Hx Hy. rewrite (ltb_rank _ _ Hx Hy), (leb_rank _ _ Hx Hy).
  unfold lex_lt. lia.
Qed.

Lemma leb_antisym x y :
  is_nan x = false -> is_nan y = false ->
  (x <=? y)%float = true -> (y <=? x)%float = true -> (x =? y)%float = true.
Proof.
  intros Hx Hy. rewrite (leb_rank _ _ Hx Hy), (leb_rank _ _ Hy Hx),
    (eqb_rank _ _ Hx Hy). unfold lex_lt.
  destruct (rank x) as [a [b c]], (rank y) as [a' [b' c']]. simpl.
  intros H1 H2. repeat f_equal; lia.
Qed.

Lemma eqb_leb x y :
  is_nan x = false -> is_nan y = false ->
  (x =? y)%float = true -> (x <=? y)%float = true.
Proof.
  intros Hx Hy. rewrite (eqb_rank _ _ Hx Hy), (leb_rank _ _ Hx Hy).
  intros ->. unfold lex_lt. lia.
Qed.

Lemma eqb_sym_not_nan x y :
  is_nan x = false -> is_nan y = false ->
  (x =? y)%float = true -> (y =? x)%float = true.
Proof.
  intros Hx Hy. rewrite (eqb_rank _ _ Hx Hy), (eqb_rank _ _ Hy Hx).
  now intros ->.
Qed.

Lemma eqb_trans_not_nan x y z :
  is_nan x = false -> is_nan y = false -> is_nan z = false ->
  (x =? y)%float = true -> (y =? z)%float = true -> (x =? z)%float = true.
Proof.
  intros Hx Hy Hz. rewrite (eqb_rank _ _ Hx Hy), (eqb_rank _ _ Hy Hz),
    (eqb_rank _ _ Hx Hz). congruence.
Qed.

(** A number equal to something is not NaN. *)
Lemma eqb_not_nan_l x y : (x =? y)%float = true -> is_nan x = false.
Proof.
  rewrite is_nan_sf, eqb_spec. unfold SFeqb.
  destruct (Prim2SF x); try reflexivity. discriminate.
Qed.

Lemma eqb_not_nan_r x y : (x =? y)%float = true -> is_nan y = false.
Proof.
  rewrite is_nan_sf, eqb_spec. unfold SFeqb.
  destruct (Prim2SF x), (Prim2SF y); try reflexivity; discriminate.
Qed.


(** ** The match score against its steps *)

Local Open Scope float_scope.

Lemma count_in_cons liked x xs :
  count_in liked (x :: xs) =
  ((if py_in (VStr x) liked then 1 else 0) + count_in liked xs)%nat.
Proof.
  unfold count_in. simpl. destruct (py_in (VStr x) liked); reflexivity.
Qed.

Lemma genre_loop_steps liked gs score :
  genre_loop liked gs score = add_times (count_in liked gs) 0.3 score.
Proof.
  revert score. induction gs as [|g gs IH]; intros score; [reflexivity|].
  cbn [genre_loop]. rewrite IH, count_in_cons.
  now destruct (py_in (VStr g) liked).
Qed.

Lemma actor_loop_steps u liked acts score :
  pref u "movie" "actors" = Ok liked ->
  actor_loop u acts score = Ok (add_times (count_in liked acts) 0.15 score).
Proof.
  intros Hp. revert score.
  induction acts as [|a acts IH]; intros score; [reflexivity|].
  cbn [actor_loop]. rewrite Hp. cbn [bind]. rewrite IH, count_in_cons.
  now destruct (py_in (VStr a) liked).
Qed.

Lemma platform_loop_steps u liked ps score :
  pref u "game" "platforms" = Ok liked ->
  platform_loop u ps score =
  Ok (add_if (existsb (fun p => py_in (VStr p) liked) ps) 0.2 score).
Proof.
  intros Hp. induction ps as [|p ps IH]; [reflexivity|].
  cbn [platform_loop existsb]. rewrite Hp. cbn [bind].
  destruct (py_in (VStr p) liked); [reflexivity|exact IH].
Qed.

Lemma within5_num y v :
  converts y = true -> is_num v = true -> within5 y v = Ok (nearb y v).
Proof.
  unfold converts, nearb. intros Hc.
  destruct v; simpl; try discriminate; try reflexivity.
  destruct (float_of_int y); try discriminate. reflexivity.
Qed.

Lemma any_within5_num y ys :
  converts y = true -> forallb is_num ys = true ->
  any_within5 y ys = Ok (existsb (nearb y) ys).
Proof.
  intros Hc. induction ys as [|v vs IH]; simpl; intros H; [reflexivity|].
  apply andb_true_iff in H. destruct H as [Hv Hvs].
  rewrite (within5_num _ _ Hc Hv). simpl.
  destruct (nearb y v); simpl; auto.
Qed.

(** What [profile_ok] provides, per media type. *)
Lemma profile_ok_common u mt :
  profile_ok u mt = true ->
  exists ug uy seen,
    pref u mt "genres" = Ok ug /\ pref u mt "years" = Ok uy /\
    forallb is_num uy = true /\ dict_get mt (history u) = Some seen.
Proof.
  unfold profile_ok, pref, dict_index, has_key, dict_mem.
  destruct (dict_get mt (preferences u)) as [cats|]; [|discriminate].
  destruct (dict_get mt (history u)) as [seen|]; [|discriminate].
  simpl.
  destruct (dict_get "genres" cats) as [ug|]; [|discriminate].
  destruct (dict_get "years" cats) as [uy|]; [|discriminate].
  simpl. intros H. apply andb_true_iff in H. destruct H as [H _].
  now exists ug, uy, seen.
Qed.

Lemma profile_ok_key u mt k k2 :
  profile_ok u mt = true ->
  (forall cats,
      dict_get mt (preferences u) = Some cats ->
      (if String.eqb mt "movie"
       then has_key "directors" cats && has_key "actors" cats
       else if String.eqb mt "music" then has_key "artists" cats
       else if String.eqb mt "book" then has_key "authors" cats
       else if String.eqb mt "game"
       then has_key "developers" cats && has_key "platforms" cats
       else false) = true ->
      has_key k cats = true /\ has_key k2 cats = true) ->
  exists l l2, pref u mt k = Ok l /\ pref u mt k2 = Ok l2.
Proof.
  unfold profile_ok, pref, dict_index.
  destruct (dict_get mt (preferences u)) as [cats|]; [|discriminate].
  destruct (dict_get mt (history u)) as [seen|]; [|discriminate].
  intros H Hk. apply andb_true_iff in H. destruct H as [_ H].
  destruct (Hk cats eq_refl H) as [H1 H2].
  unfold has_key, dict_mem in H1, H2. simpl.
  destruct (dict_get k cats) as [l|]; [|discriminate].
  destruct (dict_get k2 cats) as [l2|]; [|discriminate].
  now exists l, l2.
Qed.

Lemma profile_ok_movie u :
  profile_ok u "movie" = true ->
  exists ds acts, pref u "movie" "directors" = Ok ds /\
                  pref u "movie" "actors" = Ok acts.
Proof.
  intros H. apply (profile_ok_key _ _ _ _ H). simpl. intros cats _ Hc.
  now apply andb_true_iff in Hc.
Qed.

Lemma profile_ok_music u :
  profile_ok u "music" = true ->
  exists l, pref u "music" "artists" = Ok l.
Proof.
  intros H. destruct (profile_ok_key u "music" "artists" "artists" H)
    as (l & _ & Hl & _); [|now exists l].
  simpl. intros cats _ Hc. now split.
Qed.

Lemma profile_ok_book u :
  profile_ok u "book" = true ->
  exists l, pref u "book" "authors" = Ok l.
Proof.
  intros H. destruct (profile_ok_key u "book" "authors" "authors" H)
    as (l & _ & Hl & _); [|now exists l].
  simpl. intros cats _ Hc. now split.
Qed.

Lemma profile_ok_game u :
  profile_ok u "game" = true ->
  exists ds ps, pref u "game" "developers" = Ok ds /\
                pref u "game" "platforms" = Ok ps.
Proof.
  intros H. apply (profile_ok_key _ _ _ _ H). simpl. intros cats _ Hc.
  now apply andb_true_iff in Hc.
Qed.

Lemma item_ok_rating i :
  item_ok i = true ->
  to_float (rating (base i)) = Ok (rating_float i) /\
  is_nan (rating_float i) = false /\
  converts (year (base i)) = true.
Proof.
  unfold item_ok, rating_float. intros H.
  apply andb_true_iff in H. destruct H as [H1 H2].
  destruct (to_float (rating (base i))); try discriminate.
  repeat split; [|exact H2]. now apply negb_true_iff in H1.
Qed.

(** [calculate_match_score] returns, and returns the score of the steps. *)
Lemma score_steps item u :
  profile_ok u (kind_of item) = true ->
  item_ok item = true ->
  calculate_match_score item u (kind_of item) = Ok (stepwise_score item u).
Proof.
  intros Hok Hi.
  destruct (item_ok_rating _ Hi) as (Hr & _ & Hc).
  destruct (profile_ok_common _ _ Hok) as (ug & uy & seen & Hg & Hy & Hn & Hh).
  unfold calculate_match_score, stepwise_score, history_step, year_step,
    genre_step, rating_step, history_list, pref_list.
  rewrite Hr, Hg, Hy. cbn [bind].
  rewrite (any_within5_num _ _ Hc Hn), genre_loop_steps.
  unfold dict_index. rewrite Hh.
  set (s1 := add_times (count_in ug (genre (base item))) 0.3
               (0 + rating_float item / 10)).
  set (s2 := if py_in (VInt (year (base item))) uy then s1 + 0.2
             else if existsb (nearb (year (base item))) uy then s1 + 0.1
                  else s1).
  assert (E2 : (if py_in (VInt (year (base item))) uy
                then Ok (s1 + 0.2)
                else near <- Ok (existsb (nearb (year (base item))) uy) ;;
                     (if near then Ok (s1 + 0.1) else Ok s1)) = Ok s2).
  { unfold s2. destruct (py_in _ uy); [reflexivity|]. simpl.
    destruct (existsb _ uy); reflexivity. }
  rewrite E2. cbn [bind]. clearbody s2. clear E2.
  destruct item as [m|m|b|g]; cbn [kind_of] in *;
    cbn [String.eqb Ascii.eqb Bool.eqb get_director get_actors get_artist
         get_author get_developer get_platforms bind kind_step base].
  - destruct (profile_ok_movie _ Hok) as (ds & la & Hd & Ha).
    rewrite Hd. cbn [bind].
    rewrite (actor_loop_steps u la _ _ Ha). cbn [bind].
    unfold pref_list. rewrite Hd, Ha. reflexivity.
  - destruct (profile_ok_music _ Hok) as (l & Hl). rewrite Hl. cbn [bind].
    unfold pref_list. rewrite Hl. reflexivity.
  - destruct (profile_ok_book _ Hok) as (l & Hl). rewrite Hl. cbn [bind].
    unfold pref_list. rewrite Hl. reflexivity.
  - destruct (profile_ok_game _ Hok) as (ds & lp & Hd & Hp).
    rewrite Hd. cbn [bind].
    rewrite (platform_loop_steps u lp _ _ Hp). cbn [bind].
    unfold pref_list. rewrite Hd, Hp. reflexivity.
Qed.

(** No step makes a NaN of a number. *)
Lemma add_times_not_nan n c s :
  finite c = true -> is_nan s = false -> is_nan (add_times n c s) = false.
Proof.
  intros Hc. revert s. induction n as [|n IH]; intros s Hs; [exact Hs|].
  simpl. apply IH. now apply add_not_nan.
Qed.

Lemma add_if_not_nan b c s :
  finite c = true -> is_nan s = false -> is_nan (add_if b c s) = false.
Proof.
  intros Hc Hs. destruct b; [now apply add_not_nan|exact Hs].
Qed.

Lemma stepwise_score_not_nan item u :
  item_ok item = true -> is_nan (stepwise_score item u) = false.
Proof.
  intros Hi. destruct (item_ok_rating _ Hi) as (_ & Hr & _).
  unfold stepwise_score.
  assert (H1 : is_nan (rating_step (rating_float item)) = false).
  { unfold rating_step. apply zero_add_not_nan.
    now apply div_not_nan. }
  assert (H2 : is_nan (genre_step item u (rating_step (rating_float item)))
               = false).
  { now apply add_times_not_nan. }
  set (s2 := genre_step item u (rating_step (rating_float item))) in *.
  assert (H3 : is_nan (year_step item u s2) = false).
  { unfold year_step. cbv zeta.
    destruct (py_in _ _); [now apply add_not_nan|].
    destruct (existsb _ _); [now apply add_not_nan|exact H2]. }
  set (s3 := year_step item u s2) in *.
  assert (H4 : is_nan (kind_step item u s3) = false).
  { destruct item; cbn [kind_step];
      repeat first [apply add_times_not_nan | apply add_if_not_nan];
      try reflexivity; exact H3. }
  unfold history_step. destruct (str_in _ _); [|exact H4].
  now apply sub_not_nan.
Qed.

Local Close Scope float_scope.

(** ** Replacing one part of a profile or of an item *)

Lemma pref_set_pref_same u mt cat vals cats :
  dict_get mt (preferences u) = Some cats ->
  pref (set_pref u mt cat vals) mt cat = Ok vals.
Proof.
  intros H. unfold set_pref, pref, dict_index. rewrite H. simpl.
  rewrite dict_get_set_same. simpl. now rewrite dict_get_set_same.
Qed.

Lemma pref_set_pref_other u mt cat vals mt' cat' :
  cat <> cat' ->
  pref (set_pref u mt cat vals) mt' cat' = pref u mt' cat'.
Proof.
  intros Hc. unfold set_pref, pref, dict_index.
  destruct (dict_get mt (preferences u)) as [cats|] eqn:E; [|reflexivity].
  simpl. destruct (String.eqb mt mt') eqn:Em.
  - apply String.eqb_eq in Em. subst mt'.
    rewrite dict_get_set_same, E. simpl.
    now rewrite dict_get_set_other.
  - apply String.eqb_neq in Em. now rewrite dict_get_set_other.
Qed.

Lemma pref_list_set_pref_other u mt cat vals mt' cat' :
  cat <> cat' ->
  pref_list (set_pref u mt cat vals) mt' cat' = pref_list u mt' cat'.
Proof.
  intros H. unfold pref_list. now rewrite pref_set_pref_other.
Qed.

Lemma history_set_pref u mt cat vals :
  history (set_pref u mt cat vals) = history u.
Proof.
  unfold set_pref. now destruct (dict_get mt (preferences u)).
Qed.

Lemma has_key_set_other {V : Type} k k' (v : V) d :
  k <> k' -> has_key k' (dict_set k v d) = has_key k' d.
Proof.
  intros H. unfold has_key, dict_mem. now rewrite dict_get_set_other.
Qed.

Lemma profile_ok_set_years u mt :
  profile_ok u mt = true -> profile_ok (set_pref u mt "years" []) mt = true.
Proof.
  unfold profile_ok. rewrite history_set_pref. unfold set_pref.
  destruct (dict_get mt (preferences u)) as [cats|] eqn:E; [|discriminate].
  simpl. rewrite dict_get_set_same.
  destruct (dict_get mt (history u)); [|discriminate].
  rewrite dict_get_set_same.
  rewrite !has_key_set_other by discriminate.
  destruct (dict_get "years" cats); [|now rewrite andb_false_r].
  intros H. apply andb_true_iff in H. destruct H as [H1 H2].
  apply andb_true_iff in H1. destruct H1 as [H1 _].
  rewrite H1, H2. reflexivity.
Qed.

Lemma profile_ok_set_history u mt seen :
  profile_ok u mt = true -> profile_ok (set_history u mt seen) mt = true.
Proof.
  unfold profile_ok, set_history. simpl. rewrite dict_get_set_same.
  destruct (dict_get mt (preferences u)); [|discriminate].
  now destruct (dict_get mt (history u)).
Qed.

Lemma history_list_set_history u mt seen :
  history_list (set_history u mt seen) mt = seen.
Proof.
  unfold history_list, set_history. simpl. now rewrite dict_get_set_same.
Qed.

Lemma kind_of_set_genre i gs : kind_of (set_genre i gs) = kind_of i.
Proof. now destruct i. Qed.

(** ** Membership tests *)

Lemma py_in_VStr s l : py_in (VStr s) l = true <-> In (VStr s) l.
Proof.
  unfold py_in. rewrite existsb_exists. split.
  - intros (v & Hv & He). destruct v; simpl in He; try discriminate.
    apply String.eqb_eq in He. now subst.
  - intros H. exists (VStr s). split; [exact H|]. simpl.
    apply String.eqb_refl.
Qed.

Lemma str_in_In s l : str_in s l = true <-> In s l.
Proof.
  unfold str_in. rewrite existsb_exists. split.
  - intros (x & Hx & He). apply String.eqb_eq in He. now subst.
  - intros H. exists s. split; [exact H|apply String.eqb_refl].
Qed.

Lemma py_in_year y l :
  py_in (VInt y) l = true <-> exists v, In v l /\ same_year y v.
Proof.
  unfold py_in. rewrite existsb_exists.
  split; intros (v & Hv & He); exists v; (split; [exact Hv|]);
    destruct v as [s|z|q]; simpl in *; try discriminate; try tauto.
  - apply Z.eqb_eq in He. congruence.
  - apply Z.eqb_eq. congruence.
Qed.

Lemma nearb_near y l :
  existsb (nearb y) l = true <-> exists v, In v l /\ near_year y v.
Proof.
  rewrite existsb_exists.
  split; intros (v & Hv & He); exists v; (split; [exact Hv|]);
    destruct v as [s|z|q]; unfold nearb in *; simpl in *;
    try discriminate; try tauto.
  - now apply Z.leb_le.
  - destruct (float_of_int y) as [yf| |]; try discriminate.
    exists yf. now split.
  - now apply Z.leb_le.
  - destruct He as (yf & -> & H). exact H.
Qed.

(** ** The steps of the match score *)

Local Open Scope float_scope.

Lemma item_ok_set_genre i gs : item_ok (set_genre i gs) = item_ok i.
Proof. now destruct i. Qed.

Lemma rating_float_set_genre i gs :
  rating_float (set_genre i gs) = rating_float i.
Proof. now destruct i. Qed.

Lemma later_steps_set_genre i gs u s :
  history_step (set_genre i gs) u
    (kind_step (set_genre i gs) u (year_step (set_genre i gs) u s)) =
  history_step i u (kind_step i u (year_step i u s)).
Proof. now destruct i. Qed.

(** C3, amended: the genre step adds 0.3 once for every genre of the item
    that the profile prefers, without a cap, as binary64 additions made one
    after the other on the rating part.  With [k] preferred genres the
    score is what the later steps (years, kind, history) make of the rating
    part after [k] additions of 0.3, where the same item with a genre list
    [gs0] without a preferred genre gets what they make of the rating part
    itself; with two preferred genres the additions are [(b + 0.3) + 0.3].
    The profile is readable for the kind and the rating and the year of the
    item are numbers the scorer can convert. *)
Theorem genre_bonus_uncapped item u gs0 k :
  profile_ok u (kind_of item) = true ->
  item_ok item = true ->
  count_in (pref_list u (kind_of item) "genres") gs0 = 0%nat ->
  count_in (pref_list u (kind_of item) "genres") (genre (base item)) = k ->
  let later s :=
    history_step item u (kind_step item u (year_step item u s)) in
  let b := 0 + rating_float item / 10 in
  calculate_match_score item u (kind_of item)
    = Ok (later (add_times k 0.3 b)) /\
  calculate_match_score (set_genre item gs0) u (kind_of item)
    = Ok (later b) /\
  (k = 2%nat ->
   calculate_match_score item u (kind_of item)
     = Ok (later (b + 0.3 + 0.3))).
Proof.
  intros Hok Hi H0 Hk later b.
  assert (E : calculate_match_score item u (kind_of item)
              = Ok (later (add_times k 0.3 b))).
  { rewrite (score_steps _ _ Hok Hi). unfold stepwise_score, genre_step.
    now rewrite Hk. }
  split; [exact E|]. split.
  - rewrite <- (kind_of_set_genre item gs0).
    rewrite score_steps;
      [|now rewrite kind_of_set_genre|now rewrite item_ok_set_genre].
    unfold stepwise_score. rewrite later_steps_set_genre.
    unfold genre_step. rewrite kind_of_set_genre.
    replace (genre (base (set_genre item gs0))) with gs0 by now destruct item.
    now rewrite H0, rating_float_set_genre.
  - intros ->. exact E.
Qed.

Lemma genre_bonus_uncapped_witness :
  let later s :=
    history_step (IMovie m3) john
      (kind_step (IMovie m3) john (year_step (IMovie m3) john s)) in
  let b := 0 + rating_float (IMovie m3) / 10 in
  calculate_match_score (IMovie m3) john "movie"
    = Ok (later (add_times 2 0.3 b)) /\
  calculate_match_score (set_genre (IMovie m3) ["Drama"]) john "movie"
    = Ok (later b) /\
  (2%nat = 2%nat ->
   calculate_match_score (IMovie m3) john "movie"
     = Ok (later (b + 0.3 + 0.3))).
Proof.
  apply (genre_bonus_uncapped (IMovie m3) john ["Drama"] 2); reflexivity.
Defined.

(** C3 as it is stated fails in binary64: Inception has two of the genres
    John prefers, and its score is not the score of the same movie without a
    preferred genre plus 0.6.  It fails too for a profile the scorer cannot
    read: with a string among the preferred years the movie gets no score
    at all. *)
Lemma genre_bonus_not_exact :
  count_in (pref_list john "movie" "genres") (genre (base (IMovie m3)))
    = 2%nat /\
  count_in (pref_list john "movie" "genres") ["Drama"] = 0%nat /\
  (exists s s0,
     calculate_match_score (IMovie m3) john "movie" = Ok s /\
     calculate_match_score (set_genre (IMovie m3) ["Drama"]) john "movie"
       = Ok s0 /\
     (s =? s0 + 0.3 * 2) = false /\
     (s =? s0 + 0.6) = false) /\
  count_in (pref_list john_str_year "movie" "genres")
    (genre (base (IMovie m3))) = 2%nat /\
  calculate_match_score (IMovie m3) john_str_year "movie" = Raise TypeError.
Proof.
  split; [reflexivity|]. split; [reflexivity|]. split.
  - eexists. eexists. split; [vm_compute; reflexivity|].
    split; [vm_compute; reflexivity|].
    split; vm_compute; reflexivity.
  - split; reflexivity.
Qed.

Lemma pref_list_years_cleared u mt :
  profile_ok u mt = true ->
  pref_list (set_pref u mt "years" []) mt "years" = [].
Proof.
  intros Hok. unfold pref_list.
  destruct (dict_get mt (preferences u)) as [cats|] eqn:E.
  - now rewrite (pref_set_pref_same _ _ _ _ _ E).
  - unfold profile_ok in Hok. now rewrite E in Hok.
Qed.

Lemma kind_step_set_years i u mt s :
  kind_step i (set_pref u mt "years" []) s = kind_step i u s.
Proof.
  destruct i; cbn [kind_step];
    rewrite ?pref_list_set_pref_other by discriminate; reflexivity.
Qed.

(** C2, amended: for a profile that is readable for the kind, its preferred
    years numbers, and an item whose rating and year the scorer can
    convert, the year step is one binary64 addition on the score [g] that
    the genre step left: of 0.2 when the year of the item is among the
    preferred years (whatever else is near), of 0.1 when it is not but some
    preferred year is at most five years away, and none otherwise; the kind
    and history steps then work on the result.  Against the same profile
    without preferred years they work on [g] itself. *)
Theorem year_bonus_exclusive item u :
  profile_ok u (kind_of item) = true ->
  item_ok item = true ->
  let y := year (base item) in
  let ys := pref_list u (kind_of item) "years" in
  let listed := exists v, In v ys /\ same_year y v in
  let near := exists v, In v ys /\ near_year y v in
  let g := genre_step item u (0 + rating_float item / 10) in
  let later s := history_step item u (kind_step item u s) in
  calculate_match_score item (set_pref u (kind_of item) "years" [])
    (kind_of item) = Ok (later g) /\
  (listed ->
   calculate_match_score item u (kind_of item) = Ok (later (g + 0.2))) /\
  (~ listed -> near ->
   calculate_match_score item u (kind_of item) = Ok (later (g + 0.1))) /\
  (~ listed -> ~ near ->
   calculate_match_score item u (kind_of item) = Ok (later g)).
Proof.
  intros Hok Hi y ys listed near g later.
  pose proof (profile_ok_set_years _ _ Hok) as Hok0.
  split.
  { rewrite (score_steps _ _ Hok0 Hi).
    unfold stepwise_score, year_step, history_step, genre_step, history_list.
    rewrite history_set_pref, kind_step_set_years.
    rewrite (pref_list_years_cleared _ _ Hok).
    rewrite (pref_list_set_pref_other u _ "years" [] _ "genres")
      by discriminate.
    reflexivity. }
  rewrite (score_steps _ _ Hok Hi).
  unfold stepwise_score, year_step. cbv zeta.
  fold y ys. fold (rating_step (rating_float item)).
  change (genre_step item u (rating_step (rating_float item))) with g.
  pose proof (py_in_year y ys) as Hy.
  pose proof (nearb_near y ys) as Hn.
  fold listed in Hy. fold near in Hn.
  destruct (py_in (VInt y) ys).
  - repeat split.
    + intros H. exfalso. apply H, Hy. reflexivity.
    + intros H. exfalso. apply H, Hy. reflexivity.
  - destruct (existsb (nearb y) ys).
    + repeat split.
      * intros H. apply Hy in H. discriminate.
      * intros _ H. exfalso. apply H, Hn. reflexivity.
    + repeat split.
      * intros H. apply Hy in H. discriminate.
      * intros _ H. apply Hn in H. discriminate.
Qed.

Lemma year_bonus_exclusive_witness :
  let y := 2010%Z in
  let ys := pref_list john_years "movie" "years" in
  let listed := exists v, In v ys /\ same_year y v in
  let near := exists v, In v ys /\ near_year y v in
  let g := genre_step (IMovie m3) john_years
             (0 + rating_float (IMovie m3) / 10) in
  let later s :=
    history_step (IMovie m3) john_years
      (kind_step (IMovie m3) john_years s) in
  calculate_match_score (IMovie m3)
    (set_pref john_years "movie" "years" []) "movie" = Ok (later g) /\
  (listed ->
   calculate_match_score (IMovie m3) john_years "movie"
     = Ok (later (g + 0.2))) /\
  (~ listed -> near ->
   calculate_match_score (IMovie m3) john_years "movie"
     = Ok (later (g + 0.1))) /\
  (~ listed -> ~ near ->
   calculate_match_score (IMovie m3) john_years "movie" = Ok (later g)).
Proof.
  apply (year_bonus_exclusive (IMovie m3) john_years); reflexivity.
Defined.

(** C2 as it is stated fails for a profile with a string among its
    preferred years: 2012 is a preferred year within five years of
    Inception's 2010, which is not listed, and the scorer raises
    [TypeError] on the string in front of it.  It fails in binary64 too:
    with 2008 preferred and Inception in the history, the score is not the
    score against the same profile without preferred years plus 0.1. *)
Lemma year_bonus_string_year :
  pref_list john_late_year "movie" "years" = [VStr "2012"; VInt 2012] /\
  (exists v, In v (pref_list john_late_year "movie" "years") /\
             near_year 2010 v) /\
  ~ (exists v, In v (pref_list john_late_year "movie" "years") /\
               same_year 2010 v) /\
  calculate_match_score (IMovie m3) john_late_year "movie"
    = Raise TypeError /\
  pref_list john_near_seen "movie" "years" = [VInt 2008] /\
  exists s s0,
    calculate_match_score (IMovie m3) john_near_seen "movie" = Ok s /\
    calculate_match_score (IMovie m3)
      (set_pref john_near_seen "movie" "years" []) "movie" = Ok s0 /\
    (s =? s0 + 0.1) = false.
Proof.
  split; [reflexivity|]. split.
  { exists (VInt 2012). split; [simpl; tauto|]. simpl. lia. }
  split.
  { intros (v & [<-|[<-|[]]] & H); simpl in H; [exact H|discriminate]. }
  split; [reflexivity|]. split; [reflexivity|].
  eexists. eexists. split; [vm_compute; reflexivity|].
  split; vm_compute; reflexivity.
Qed.

Lemma existsb_liked liked ps :
  existsb (fun p => py_in (VStr p) liked) ps = true <->
  exists p, In p ps /\ In (VStr p) liked.
Proof.
  rewrite existsb_exists.
  split; intros (p & Hp & H); exists p; (split; [exact Hp|]);
    now apply py_in_VStr.
Qed.

Lemma score_steps_game u g :
  profile_ok u "game" = true -> item_ok (IGame g) = true ->
  calculate_match_score (IGame g) u "game" = Ok (stepwise_score (IGame g) u).
Proof. exact (score_steps (IGame g) u). Qed.

Lemma score_steps_movie u m :
  profile_ok u "movie" = true -> item_ok (IMovie m) = true ->
  calculate_match_score (IMovie m) u "movie"
  = Ok (stepwise_score (IMovie m) u).
Proof. exact (score_steps (IMovie m) u). Qed.

(** C4, amended: for a game the platform step is a single binary64 addition
    of 0.2 on the score [p0] that the developer step left when at least one
    platform of the game is a preferred platform, however many are, and
    nothing when none is; the history step then works on the result, where
    for the same game without platforms it works on [p0].  The actor step
    of a movie adds 0.15 on the score the director step left once for every
    actor of the movie that is a preferred actor.  The profile is readable
    for the kind and the rating and the year of the item are numbers the
    scorer can convert. *)
Theorem platform_bonus_capped u g :
  profile_ok u "game" = true ->
  item_ok (IGame g) = true ->
  (let p0 :=
     add_if (py_in (VStr (developer g)) (pref_list u "game" "developers"))
       0.2
       (year_step (IGame g) u
          (genre_step (IGame g) u (0 + rating_float (IGame g) / 10))) in
   calculate_match_score (IGame (set_platforms g [])) u "game"
     = Ok (history_step (IGame g) u p0) /\
   ((exists p, In p (platforms g) /\
               In (VStr p) (pref_list u "game" "platforms")) ->
    calculate_match_score (IGame g) u "game"
      = Ok (history_step (IGame g) u (p0 + 0.2))) /\
   ((forall p, In p (platforms g) ->
               ~ In (VStr p) (pref_list u "game" "platforms")) ->
    calculate_match_score (IGame g) u "game"
      = Ok (history_step (IGame g) u p0))) /\
  (forall m,
     profile_ok u "movie" = true ->
     item_ok (IMovie m) = true ->
     let a0 :=
       add_if (py_in (VStr (director m)) (pref_list u "movie" "directors"))
         0.2
         (year_step (IMovie m) u
            (genre_step (IMovie m) u (0 + rating_float (IMovie m) / 10))) in
     calculate_match_score (IMovie (set_actors m [])) u "movie"
       = Ok (history_step (IMovie m) u a0) /\
     calculate_match_score (IMovie m) u "movie"
       = Ok (history_step (IMovie m) u
               (add_times (count_in (pref_list u "movie" "actors") (actors m))
                  0.15 a0))).
Proof.
  intros Hok Hi. split.
  - cbv zeta. split.
    { now rewrite (score_steps_game u (set_platforms g []) Hok Hi). }
    rewrite (score_steps_game u g Hok Hi).
    unfold stepwise_score. cbn [kind_step].
    pose proof (existsb_liked (pref_list u "game" "platforms") (platforms g))
      as He.
    destruct (existsb _ (platforms g)); cbn [add_if].
    + split; [reflexivity|].
      intros Hnone. destruct (proj1 He eq_refl) as (p & Hp & Hin).
      now destruct (Hnone p Hp).
    + split; [|reflexivity].
      intros H. apply He in H. discriminate.
  - intros m Hokm Him. cbv zeta. split.
    + now rewrite (score_steps_movie u (set_actors m []) Hokm Him).
    + now rewrite (score_steps_movie u m Hokm Him).
Qed.

Lemma platform_bonus_capped_witness :
  (let p0 :=
     add_if (py_in (VStr (developer g2)) (pref_list john "game" "developers"))
       0.2
       (year_step (IGame g2) john
          (genre_step (IGame g2) john (0 + rating_float (IGame g2) / 10))) in
   calculate_match_score (IGame (set_platforms g2 [])) john "game"
     = Ok (history_step (IGame g2) john p0) /\
   ((exists p, In p (platforms g2) /\
               In (VStr p) (pref_list john "game" "platforms")) ->
    calculate_match_score (IGame g2) john "game"
      = Ok (history_step (IGame g2) john (p0 + 0.2))) /\
   ((forall p, In p (platforms g2) ->
               ~ In (VStr p) (pref_list john "game" "platforms")) ->
    calculate_match_score (IGame g2) john "game"
      = Ok (history_step (IGame g2) john p0))) /\
  (forall m,
     profile_ok john "movie" = true ->
     item_ok (IMovie m) = true ->
     let a0 :=
       add_if (py_in (VStr (director m))
                 (pref_list john "movie" "directors"))
         0.2
         (year_step (IMovie m) john
            (genre_step (IMovie m) john
               (0 + rating_float (IMovie m) / 10))) in
     calculate_match_score (IMovie (set_actors m [])) john "movie"
       = Ok (history_step (IMovie m) john a0) /\
     calculate_match_score (IMovie m) john "movie"
       = Ok (history_step (IMovie m) john
               (add_times
                  (count_in (pref_list john "movie" "actors") (actors m))
                  0.15 a0))).
Proof.
  apply (platform_bonus_capped john g2); reflexivity.
Defined.

(** C4 as it is stated fails in binary64: The Witcher 3 runs on a platform
    John prefers, and once it is in his history its score is not the score
    of the same game without platforms plus 0.2.  It fails too for a
    profile the scorer cannot read: with a string as the preferred year the
    game gets no score at all. *)
Lemma platform_bonus_not_exact :
  (exists p, In p (platforms g2) /\
             In (VStr p) (pref_list john_played "game" "platforms")) /\
  (exists s s0,
     calculate_match_score (IGame g2) john_played "game" = Ok s /\
     calculate_match_score (IGame (set_platforms g2 [])) john_played "game"
       = Ok s0 /\
     (s =? s0 + 0.2) = false) /\
  (exists p, In p (platforms g2) /\
             In (VStr p) (pref_list john_game_str "game" "platforms")) /\
  calculate_match_score (IGame g2) john_game_str "game" = Raise TypeError.
Proof.
  split.
  { exists "PC". split; simpl; tauto. }
  split.
  { eexists. eexists. split; [vm_compute; reflexivity|].
    split; vm_compute; reflexivity. }
  split; [|reflexivity].
  exists "PC". split; simpl; tauto.
Qed.

Local Close Scope float_scope.

(** ** The stable descending sort *)

Section SortDesc.
Context {A : Type} (key : A -> float).

Lemma insert_desc_perm x l : Permutation (insert_desc key x l) (x :: l).
Proof.
  induction l as [|y ys IH]; simpl; [reflexivity|].
  destruct (key x <? key y)%float; [|reflexivity].
  rewrite IH. apply perm_swap.
Qed.

Lemma sort_desc_perm l : Permutation (sort_desc key l) l.
Proof.
  induction l as [|x xs IH]; simpl; [reflexivity|].
  rewrite insert_desc_perm. now constructor.
Qed.

Lemma sort_desc_length l : List.length (sort_desc key l) = List.length l.
Proof. apply Permutation_length, sort_desc_perm. Qed.

Lemma no_nan_perm l l' : Permutation l l' -> no_nan key l -> no_nan key l'.
Proof. intros H. unfold no_nan. now apply Permutation_Forall. Qed.

Lemma insert_desc_sorted x l :
  is_nan (key x) = false -> no_nan key l ->
  StronglySorted (desc key) l ->
  StronglySorted (desc key) (insert_desc key x l).
Proof.
  intros Hx Hn. induction 1 as [|y ys Hs IH Hy]; simpl.
  - repeat constructor.
  - inversion Hn as [|? ? Hny Hnys]; subst.
    destruct (key x <? key y)%float eqn:E.
    + constructor; [now apply IH|].
      eapply Permutation_Forall;
        [symmetry; apply insert_desc_perm|].
      constructor; [|exact Hy].
      unfold desc. now apply ltb_leb.
    + apply (ltb_false_leb _ _ Hx Hny) in E. constructor.
      * now constructor.
      * constructor; [exact E|].
        unfold no_nan in Hnys. rewrite Forall_forall in *.
        intros z Hz. unfold desc in *.
        apply leb_trans with (key y); auto.
Qed.

Lemma sort_desc_sorted l :
  no_nan key l -> StronglySorted (desc key) (sort_desc key l).
Proof.
  induction l as [|x xs IH]; simpl; intros Hn; [constructor|].
  inversion Hn; subst. apply insert_desc_sorted; auto.
  apply (no_nan_perm xs); [|assumption].
  symmetry. apply sort_desc_perm.
Qed.

(** Elements that tie keep the order they came in. *)
Lemma insert_desc_stable v x l :
  filter (fun a => key a =? v)%float (insert_desc key x l) =
  filter (fun a => key a =? v)%float (x :: l).
Proof.
  induction l as [|y ys IH]; [reflexivity|].
  cbn [insert_desc].
  destruct (key x <? key y)%float eqn:E; [|reflexivity].
  cbn [filter] in *. rewrite IH.
  destruct (key x =? v)%float eqn:Ex; [|reflexivity].
  destruct (key y =? v)%float eqn:Ey; [|reflexivity].
  exfalso.
  pose proof (eqb_not_nan_l _ _ Ex) as Nx.
  pose proof (eqb_not_nan_l _ _ Ey) as Ny.
  pose proof (eqb_not_nan_r _ _ Ex) as Nv.
  apply (eqb_rank _ _ Nx Nv) in Ex. apply (eqb_rank _ _ Ny Nv) in Ey.
  apply (ltb_rank _ _ Nx Ny) in E. rewrite Ex, Ey in E.
  unfold lex_lt in E. lia.
Qed.

Lemma sort_desc_stable v l :
  filter (fun a => key a =? v)%float (sort_desc key l) =
  filter (fun a => key a =? v)%float l.
Proof.
  induction l as [|x xs IH]; [reflexivity|].
  cbn [sort_desc]. rewrite insert_desc_stable. cbn [filter].
  now rewrite IH.
Qed.


(** Two lists in descending order that hold, for every key, the same
    elements with that key in the same order, are equal: the result of a
    stable descending sort is determined by its input, whatever the
    algorithm. *)
Lemma stable_sorted_unique l1 l2 :
  no_nan key l1 -> no_nan key l2 ->
  StronglySorted (desc key) l1 -> StronglySorted (desc key) l2 ->
  (forall v, filter (fun a => key a =? v)%float l1 =
             filter (fun a => key a =? v)%float l2) ->
  l1 = l2.
Proof.
  intros N1 N2 H1. revert l2 N2.
  induction H1 as [|x l1 Hs1 IH Hx]; intros l2 N2 H2 Hf.
  - destruct l2 as [|y l2]; [reflexivity|].
    inversion N2; subst.
    specialize (Hf (key y)). simpl in Hf.
    rewrite eqb_refl_not_nan in Hf by assumption. discriminate.
  - inversion N1 as [|? ? Nx N1']; subst.
    destruct l2 as [|y l2].
    + specialize (Hf (key x)). simpl in Hf.
      rewrite eqb_refl_not_nan in Hf by assumption. discriminate.
    + inversion H2 as [|? ? Hs2 Hy]; subst.
      inversion N2 as [|? ? Ny N2']; subst.
      assert (Hxy : (key x <=? key y)%float = true).
      { pose proof (Hf (key x)) as E. simpl in E.
        rewrite (eqb_refl_not_nan _ Nx) in E.
        assert (Hin : In x (y :: l2)).
        { assert (Hin' : In x (filter (fun a => key a =? key x)%float
                                 (y :: l2))).
          { simpl. rewrite <- E. now left. }
          now apply filter_In in Hin'. }
        destruct Hin as [->|Hin]; [now apply leb_refl_not_nan|].
        rewrite Forall_forall in Hy. exact (Hy _ Hin). }
      assert (Hyx : (key y <=? key x)%float = true).
      { pose proof (Hf (key y)) as E. cbn [filter] in E.
        rewrite (eqb_refl_not_nan _ Ny) in E.
        assert (Hin : In y (x :: l1)).
        { assert (Hin' : In y (filter (fun a => key a =? key y)%float
                                 (x :: l1))).
          { cbn [filter]. rewrite E. now left. }
          now apply filter_In in Hin'. }
        destruct Hin as [->|Hin]; [now apply leb_refl_not_nan|].
        rewrite Forall_forall in Hx. exact (Hx _ Hin). }
      assert (Exy : x = y).
      { pose proof (Hf (key x)) as E. simpl in E.
        rewrite (eqb_refl_not_nan _ Nx) in E.
        rewrite (leb_antisym _ _ Ny Nx Hyx Hxy) in E.
        now injection E. }
      subst y. f_equal. apply IH; try assumption.
      intros v. specialize (Hf v). simpl in Hf.
      destruct (key x =? v)%float; [now injection Hf|exact Hf].
Qed.

End SortDesc.

(** ** Slices *)

Lemma slice_to_nonneg {A : Type} (l : list A) count :
  0 <= count -> slice_to l count = firstn (Z.to_nat count) l.
Proof.
  intros H. unfold slice_to, slice_stop.
  destruct (count <? 0) eqn:E; [apply Z.ltb_lt in E; lia|].
  destruct (Z.of_nat (List.length l) <=? count) eqn:E2; [|reflexivity].
  apply Z.leb_le in E2. rewrite Nat2Z.id.
  rewrite firstn_all. symmetry. apply firstn_all2. lia.
Qed.

Lemma slice_to_negative {A : Type} (l : list A) count :
  count < 0 ->
  slice_to l count =
  firstn (Z.to_nat (Z.max 0 (Z.of_nat (List.length l) + count))) l.
Proof.
  intros H. unfold slice_to, slice_stop.
  destruct (count <? 0) eqn:E; [|apply Z.ltb_ge in E; lia].
  destruct (count + Z.of_nat (List.length l) <? 0) eqn:E2.
  - apply Z.ltb_lt in E2. now rewrite Z.max_l by lia.
  - apply Z.ltb_ge in E2. rewrite Z.max_r by lia. f_equal. f_equal. lia.
Qed.

(** ** Recommendations *)

Lemma all_items_kind d mt :
  Forall (fun i => kind_of i = mt) (all_items d mt).
Proof.
  unfold all_items.
  destruct (String.eqb mt "movie") eqn:E1;
    [apply String.eqb_eq in E1; subst; apply Forall_forall;
     intros i Hi; apply in_map_iff in Hi; now destruct Hi as (? & <- & _)|].
  destruct (String.eqb mt "music") eqn:E2;
    [apply String.eqb_eq in E2; subst; apply Forall_forall;
     intros i Hi; apply in_map_iff in Hi; now destruct Hi as (? & <- & _)|].
  destruct (String.eqb mt "book") eqn:E3;
    [apply String.eqb_eq in E3; subst; apply Forall_forall;
     intros i Hi; apply in_map_iff in Hi; now destruct Hi as (? & <- & _)|].
  destruct (String.eqb mt "game") eqn:E4;
    [apply String.eqb_eq in E4; subst; apply Forall_forall;
     intros i Hi; apply in_map_iff in Hi; now destruct Hi as (? & <- & _)|].
  constructor.
Qed.

Lemma all_items_catalog d k : all_items d (kind_name k) = catalog d k.
Proof.
  destruct k; unfold all_items, catalog, get_movies, get_music, get_books,
    get_games, dict_values; simpl; now rewrite map_map.
Qed.

Lemma catalog_kind d k :
  Forall (fun i => kind_of i = kind_name k) (catalog d k).
Proof. rewrite <- all_items_catalog. apply all_items_kind. Qed.


(** Scoring a list of items of the media type succeeds and pairs every item,
    in order, with its match score, which is a number. *)
Lemma score_items_total items u mt :
  profile_ok u mt = true ->
  Forall (fun i => kind_of i = mt) items ->
  forallb item_ok items = true ->
  exists scored,
    score_items items u mt = Ok scored /\
    map fst scored = items /\
    Forall (fun p => calculate_match_score (fst p) u mt = Ok (snd p)) scored /\
    no_nan snd scored.
Proof.
  intros Hok. induction 1 as [|i items Hi _ IH]; intros Hall.
  - exists []. repeat split; constructor.
  - simpl in Hall. apply andb_true_iff in Hall. destruct Hall as [Hi1 Hall].
    destruct (IH Hall) as (scored & Es & Hm & Hf & Hn).
    subst mt. pose proof (score_steps i u Hok Hi1) as Hs.
    exists ((i, stepwise_score i u) :: scored).
    unfold score_items in *. cbn [mapM].
    rewrite Hs. cbn [bind]. rewrite Es. cbn [bind].
    split; [reflexivity|]. split; [simpl; now f_equal|].
    split; constructor; try assumption.
    simpl. now apply stepwise_score_not_nan.
Qed.

Lemma get_recommendations_unfold d u mt count scored :
  score_items (all_items d mt) u mt = Ok scored ->
  get_recommendations d u mt count =
  Ok (map (fun p => to_dict (fst p))
        (slice_to (sort_desc snd scored) count)).
Proof. intros H. unfold get_recommendations. now rewrite H. Qed.

(** What [get_recommendations] does for a readable profile and a catalog
    of items it can score. *)
Lemma get_recommendations_ranked d u k :
  profile_ok u (kind_name k) = true ->
  catalog_ok d k = true ->
  exists scored,
    score_items (all_items d (kind_name k)) u (kind_name k) = Ok scored /\
    map fst scored = catalog d k /\
    Forall (fun p => calculate_match_score (fst p) u (kind_name k)
                     = Ok (snd p)) scored /\
    no_nan snd scored.
Proof.
  intros Hok Hc. rewrite all_items_catalog.
  apply score_items_total; [exact Hok|apply catalog_kind|exact Hc].
Qed.

(** C1, amended: for a profile readable for the kind (its preferred years
    numbers) and a catalog whose items of the kind have ratings and years
    the scorer can convert, every item of the kind is scored with the match
    score; the scored list is sorted in descending order of the score, items
    with equal scores staying in catalog order, and no other list is sorted
    that way; for a count that is not negative the result is made of the
    first [count] items of that list, all of them when there are fewer, and
    for a count of zero it is the empty list. *)
Theorem get_recommendations_top d u k count :
  profile_ok u (kind_name k) = true ->
  catalog_ok d k = true ->
  exists scored ranked,
    map fst scored = catalog d k /\
    Forall (fun p => calculate_match_score (fst p) u (kind_name k)
                     = Ok (snd p)) scored /\
    Permutation ranked scored /\
    StronglySorted (desc snd) ranked /\
    (forall v, filter (fun p => snd p =? v)%float ranked =
               filter (fun p => snd p =? v)%float scored) /\
    (forall l, no_nan snd l -> StronglySorted (desc snd) l ->
               (forall v, filter (fun p => snd p =? v)%float l =
                          filter (fun p => snd p =? v)%float scored) ->
               l = ranked) /\
    (0 <= count ->
     get_recommendations d u (kind_name k) count =
       Ok (map (fun p => to_dict (fst p)) (firstn (Z.to_nat count) ranked)) /\
     List.length (firstn (Z.to_nat count) ranked) =
       Nat.min (Z.to_nat count) (List.length (catalog d k))) /\
    (count = 0 -> get_recommendations d u (kind_name k) count = Ok []).
Proof.
  intros Hok Hc.
  destruct (get_recommendations_ranked d u k Hok Hc)
    as (scored & Es & Hm & Hf & Hn).
  assert (Hnr : no_nan snd (sort_desc snd scored)).
  { apply (no_nan_perm snd scored); [|exact Hn].
    symmetry. apply sort_desc_perm. }
  exists scored, (sort_desc snd scored).
  split; [exact Hm|]. split; [exact Hf|].
  split; [apply sort_desc_perm|].
  split; [now apply sort_desc_sorted|].
  split; [intros v; apply sort_desc_stable|].
  split.
  { intros l Hl Hs Hv. apply (stable_sorted_unique snd); try assumption.
    - now apply sort_desc_sorted.
    - intros v. now rewrite Hv, sort_desc_stable. }
  split.
  - intros H0. split.
    + rewrite (get_recommendations_unfold _ _ _ _ _ Es).
      now rewrite slice_to_nonneg.
    + rewrite length_firstn, sort_desc_length, <- Hm, length_map.
      reflexivity.
  - intros ->. rewrite (get_recommendations_unfold _ _ _ _ _ Es).
    now rewrite slice_to_nonneg.
Qed.

Lemma get_recommendations_top_witness :
  exists scored ranked,
    map fst scored = catalog new_db KMovie /\
    Forall (fun p => calculate_match_score (fst p) john "movie"
                     = Ok (snd p)) scored /\
    Permutation ranked scored /\
    StronglySorted (desc snd) ranked /\
    (forall v, filter (fun p => snd p =? v)%float ranked =
               filter (fun p => snd p =? v)%float scored) /\
    (forall l, no_nan snd l -> StronglySorted (desc snd) l ->
               (forall v, filter (fun p => snd p =? v)%float l =
                          filter (fun p => snd p =? v)%float scored) ->
               l = ranked) /\
    (0 <= 2 ->
     get_recommendations new_db john "movie" 2 =
       Ok (map (fun p => to_dict (fst p)) (firstn (Z.to_nat 2) ranked)) /\
     List.length (firstn (Z.to_nat 2) ranked) =
       Nat.min (Z.to_nat 2) (List.length (catalog new_db KMovie))) /\
    (2 = 0 -> get_recommendations new_db john "movie" 2 = Ok []).
Proof.
  apply (get_recommendations_top new_db john KMovie 2); reflexivity.
Defined.

(** C1 as it is stated fails for a profile with a string among its
    preferred years: scoring The Godfather, of 1972, raises [TypeError] on
    the string, and with it the whole call, for a count of zero too. *)
Lemma recommendations_string_year_zero :
  pref_list john_str_year "movie" "years" = [VInt 1990; VStr "2010"] /\
  recognized "movie" = true /\
  get_recommendations new_db john_str_year "movie" 0 = Raise TypeError.
Proof. repeat split. Qed.

(** C10, amended: for a profile readable for the kind and a catalog whose
    [n] items of the kind the scorer can score, a negative count [c] gives
    the first [max(0, n + c)] items of the list sorted in descending order
    of the score, ties in catalog order: the last [|c|] items are dropped.
    When [n + c] is positive the result is therefore neither empty nor the
    whole list. *)
Theorem get_recommendations_negative d u k count :
  profile_ok u (kind_name k) = true ->
  catalog_ok d k = true ->
  count < 0 ->
  exists scored ranked result,
    map fst scored = catalog d k /\
    Forall (fun p => calculate_match_score (fst p) u (kind_name k)
                     = Ok (snd p)) scored /\
    Permutation ranked scored /\
    StronglySorted (desc snd) ranked /\
    (forall v, filter (fun p => snd p =? v)%float ranked =
               filter (fun p => snd p =? v)%float scored) /\
    get_recommendations d u (kind_name k) count = Ok result /\
    let n := Z.of_nat (List.length (catalog d k)) in
    result = map (fun p => to_dict (fst p))
               (firstn (Z.to_nat (Z.max 0 (n + count))) ranked) /\
    Z.of_nat (List.length result) = Z.max 0 (n + count) /\
    (0 < n + count -> result <> [] /\ Z.of_nat (List.length result) < n).
Proof.
  intros Hok Hc Hneg.
  destruct (get_recommendations_ranked d u k Hok Hc)
    as (scored & Es & Hm & Hf & Hn).
  exists scored, (sort_desc snd scored). eexists.
  split; [exact Hm|]. split; [exact Hf|].
  split; [apply sort_desc_perm|].
  split; [now apply sort_desc_sorted|].
  split; [intros v; apply sort_desc_stable|].
  split; [apply (get_recommendations_unfold _ _ _ _ _ Es)|].
  cbv zeta.
  assert (Hlen : List.length (sort_desc snd scored)
                 = List.length (catalog d k)).
  { now rewrite sort_desc_length, <- Hm, length_map. }
  rewrite slice_to_negative by exact Hneg. rewrite Hlen.
  split; [reflexivity|].
  assert (Hl : Z.of_nat (List.length
                 (map (fun p : Item * float => to_dict (fst p))
                    (firstn (Z.to_nat (Z.max 0
                       (Z.of_nat (List.length (catalog d k)) + count)))
                       (sort_desc snd scored))))
               = Z.max 0 (Z.of_nat (List.length (catalog d k)) + count)).
  { rewrite length_map, length_firstn, Hlen. lia. }
  split; [exact Hl|].
  intros Hpos. split; [|lia].
  intros E. rewrite E in Hl. simpl in Hl. lia.
Qed.

Lemma get_recommendations_negative_witness :
  exists scored ranked result,
    map fst scored = catalog new_db KGame /\
    Forall (fun p => calculate_match_score (fst p) john "game"
                     = Ok (snd p)) scored /\
    Permutation ranked scored /\
    StronglySorted (desc snd) ranked /\
    (forall v, filter (fun p => snd p =? v)%float ranked =
               filter (fun p => snd p =? v)%float scored) /\
    get_recommendations new_db john "game" (-3) = Ok result /\
    let n := Z.of_nat (List.length (catalog new_db KGame)) in
    result = map (fun p => to_dict (fst p))
               (firstn (Z.to_nat (Z.max 0 (n + -3))) ranked) /\
    Z.of_nat (List.length result) = Z.max 0 (n + -3) /\
    (0 < n + -3 -> result <> [] /\ Z.of_nat (List.length result) < n).
Proof.
  apply (get_recommendations_negative new_db john KGame (-3));
    reflexivity.
Defined.

(** C10 as it is stated fails for a profile with a string among its
    preferred years: the catalog holds five movies, and the call with the
    count -1 returns no list at all, it raises [TypeError]. *)
Lemma recommendations_string_year_negative :
  pref_list john_str_year "movie" "years" = [VInt 1990; VStr "2010"] /\
  List.length (catalog new_db KMovie) = 5%nat /\
  get_recommendations new_db john_str_year "movie" (-1) = Raise TypeError.
Proof. repeat split. Qed.

(** ** [to_dict] loses nothing *)






(** ** The history penalty *)



(** The loops of the scorer read the preferences only. *)
Lemma actor_loop_prefs u u' acts score :
  preferences u' = preferences u ->
  actor_loop u' acts score = actor_loop u acts score.
Proof.
  intros H. revert score. induction acts as [|a acts IH]; intros score;
    [reflexivity|].
  cbn [actor_loop]. unfold pref. rewrite H.
  destruct (cats <- dict_index (preferences u) "movie" ;;
            dict_index cats "actors"); cbn [bind]; auto.
Qed.

Lemma platform_loop_prefs u u' ps score :
  preferences u' = preferences u ->
  platform_loop u' ps score = platform_loop u ps score.
Proof.
  intros H. induction ps as [|p ps IH]; [reflexivity|].
  cbn [platform_loop]. unfold pref. rewrite H.
  destruct (cats <- dict_index (preferences u) "game" ;;
            dict_index cats "platforms"); cbn [bind]; auto.
  now rewrite IH.
Qed.

Lemma bind_assoc {A B C : Type} (m : res A) (f : A -> res B)
    (g : B -> res C) :
  bind (bind m f) g = bind m (fun x => bind (f x) g).
Proof. now destruct m. Qed.

(** The history is looked up last, and decides about one subtraction. *)
Lemma score_history_last item u u' mt seen seen' :
  preferences u' = preferences u ->
  dict_get mt (history u) = Some seen ->
  dict_get mt (history u') = Some seen' ->
  str_in (item_id (base item)) seen = true ->
  str_in (item_id (base item)) seen' = false ->
  calculate_match_score item u mt =
  (s0 <- calculate_match_score item u' mt ;; Ok (s0 - 1)%float).
Proof.
  intros Hp Hs Hs' Hin Hout. unfold calculate_match_score.
  unfold pref, dict_index. rewrite Hp, Hs, Hs'.
  fold (pref u).
  repeat first
    [ match goal with
      | |- bind ?X _ = bind ?X _ => destruct X; cbn [bind]; try reflexivity
      end
    | rewrite (actor_loop_prefs u u') by exact Hp
    | rewrite (platform_loop_prefs u u') by exact Hp
    | rewrite bind_assoc
    | match goal with
      | |- bind (if ?c then _ else _) _ = _ => destruct c
      end ].
  all: cbn [bind]; rewrite ?Hin, ?Hout; try reflexivity.
Qed.



(** ** Searching *)

Lemma prefix_app q s :
  String.prefix q s = true <-> exists post, s = (q ++ post)%string.
Proof.
  revert s. induction q as [|c q IH]; intros s.
  - split; [intros _; now exists s|intros _; now destruct s].
  - destruct s as [|c' s]; simpl; [split; [discriminate|intros (? & [=])]|].
    destruct (Ascii.ascii_dec c c') as [->|Hne].
    + rewrite IH. split; intros (post & H); exists post; congruence.
    + split; [discriminate|intros (? & [= E _]); now destruct Hne].
Qed.

Lemma contains_app q s :
  contains q s = true <-> exists pre post, s = (pre ++ q ++ post)%string.
Proof.
  induction s as [|c s IH]; cbn [contains].
  - destruct (String.prefix q "") eqn:E.
    + apply prefix_app in E. destruct E as (post & E).
      split; [intros _; now exists "", post|reflexivity].
    + split; [discriminate|]. intros (pre & post & H).
      destruct pre; simpl in H; [|discriminate].
      assert (String.prefix q "" = true) by (apply prefix_app; now exists post).
      congruence.
  - destruct (String.prefix q (String c s)) eqn:E.
    + apply prefix_app in E. destruct E as (post & E).
      split; [intros _; now exists "", post|reflexivity].
    + rewrite IH. split.
      * intros (pre & post & ->). now exists (String c pre), post.
      * intros (pre & post & H). destruct pre as [|c' pre]; simpl in H.
        -- assert (String.prefix q (String c s) = true)
             by (apply prefix_app; now exists post).
           congruence.
        -- injection H as _ ->. now exists pre, post.
Qed.

Lemma lower_letters_app a b :
  lower_letters (a ++ b) = (lower_letters a ++ lower_letters b)%string.
Proof. induction a as [|c a IH]; simpl; [reflexivity|now rewrite IH]. Qed.

Lemma lower_letters_split s a b :
  lower_letters s = (a ++ b)%string ->
  exists s1 s2, s = (s1 ++ s2)%string /\
                lower_letters s1 = a /\ lower_letters s2 = b.
Proof.
  revert s. induction a as [|c a IH]; intros s H; simpl in H.
  - now exists "", s.
  - destruct s as [|c' s]; simpl in H; [discriminate|].
    injection H as Hc H. destruct (IH _ H) as (s1 & s2 & -> & <- & <-).
    exists (String c' s1), s2. simpl. now rewrite Hc.
Qed.

(** Lower case, letter by letter, against the relation between a capital
    and its small letter. *)
Lemma nat_of_lower_ascii c :
  nat_of_ascii (lower_ascii c) =
  if (65 <=? nat_of_ascii c)%nat && (nat_of_ascii c <=? 90)%nat
  then (nat_of_ascii c + 32)%nat else nat_of_ascii c.
Proof.
  unfold lower_ascii.
  destruct ((65 <=? nat_of_ascii c)%nat && (nat_of_ascii c <=? 90)%nat)
    eqn:E; [|reflexivity].
  apply andb_true_iff in E. destruct E as [E1 E2].
  apply Nat.leb_le in E1, E2. apply nat_ascii_embedding. lia.
Qed.

Lemma nat_of_ascii_inj a b : nat_of_ascii a = nat_of_ascii b -> a = b.
Proof.
  intros H. rewrite <- (ascii_nat_embedding a), <- (ascii_nat_embedding b).
  now rewrite H.
Qed.

Lemma lower_ascii_same a b :
  lower_ascii a = lower_ascii b <-> same_letter a b.
Proof.
  unfold same_letter. split.
  - intros H. apply (f_equal nat_of_ascii) in H.
    rewrite !nat_of_lower_ascii in H.
    destruct ((65 <=? nat_of_ascii a)%nat && (nat_of_ascii a <=? 90)%nat)
      eqn:Ea;
    destruct ((65 <=? nat_of_ascii b)%nat && (nat_of_ascii b <=? 90)%nat)
      eqn:Eb;
    try (apply andb_true_iff in Ea; destruct Ea as [Ea1 Ea2];
         apply Nat.leb_le in Ea1, Ea2);
    try (apply andb_true_iff in Eb; destruct Eb as [Eb1 Eb2];
         apply Nat.leb_le in Eb1, Eb2).
    + left. apply nat_of_ascii_inj. lia.
    + right. left. split; [lia|]. now symmetry.
    + right. right. split; [lia|]. exact H.
    + left. now apply nat_of_ascii_inj.
  - intros [->|[[Ha Hb]|[Hb Ha]]]; [reflexivity| |];
      apply nat_of_ascii_inj; rewrite !nat_of_lower_ascii.
    + rewrite Hb.
      replace ((65 <=? nat_of_ascii a)%nat && (nat_of_ascii a <=? 90)%nat)
        with true
        by (symmetry; apply andb_true_iff; split; apply Nat.leb_le; lia).
      replace ((65 <=? nat_of_ascii a + 32)%nat
               && (nat_of_ascii a + 32 <=? 90)%nat) with false;
        [reflexivity|].
      symmetry. apply andb_false_iff. right. apply Nat.leb_gt. lia.
    + rewrite Ha.
      replace ((65 <=? nat_of_ascii b)%nat && (nat_of_ascii b <=? 90)%nat)
        with true
        by (symmetry; apply andb_true_iff; split; apply Nat.leb_le; lia).
      replace ((65 <=? nat_of_ascii b + 32)%nat
               && (nat_of_ascii b + 32 <=? 90)%nat) with false;
        [reflexivity|].
      symmetry. apply andb_false_iff. right. apply Nat.leb_gt. lia.
Qed.

Lemma lower_letters_same a b :
  lower_letters a = lower_letters b <-> same_letters a b.
Proof.
  revert b. induction a as [|x a IH]; intros [|y b]; simpl;
    try (split; [discriminate|tauto]); [tauto|].
  rewrite <- IH, <- lower_ascii_same.
  split; [intros [= H1 H2]; now split|intros [-> ->]; reflexivity].
Qed.

(** On ASCII text [str.lower] is the lower case of the letters A to Z. *)
Lemma lower_cp_ascii c :
  (nat_of_ascii c <? 128)%nat = true ->
  (byte_of c <? 192) = true /\
  (byte_of c =? 931) = false /\
  encode (lower_cp (byte_of c)) = String (lower_ascii c) "".
Proof.
  destruct c as [[] [] [] [] [] [] [] []]; intros H;
    first [discriminate H | vm_compute; repeat split].
Qed.

Lemma string_app_assoc (a b c : string) :
  ((a ++ b) ++ c)%string = (a ++ b ++ c)%string.
Proof. induction a as [|x a IH]; simpl; [reflexivity|now rewrite IH]. Qed.

Lemma encode_app l1 l2 : encode (l1 ++ l2) = (encode l1 ++ encode l2)%string.
Proof.
  induction l1 as [|c l1 IH]; simpl; [reflexivity|].
  rewrite IH. now rewrite string_app_assoc.
Qed.

Lemma lower_cps_ascii s after_cased :
  ascii_only s = true ->
  encode (lower_cps after_cased (decode_from 0 0 s)) = lower_letters s.
Proof.
  revert after_cased. induction s as [|c s IH]; intros after_cased H;
    [reflexivity|].
  cbn [ascii_only] in H. apply andb_true_iff in H. destruct H as [Hc Hs].
  destruct (lower_cp_ascii c Hc) as (H1 & H2 & H3).
  cbn [decode_from lower_letters]. rewrite H1. cbn [lower_cps].
  rewrite H2, encode_app, H3, IH by exact Hs. reflexivity.
Qed.

Lemma lower_ascii_only s : ascii_only s = true -> lower s = lower_letters s.
Proof. apply lower_cps_ascii. Qed.

(** The test the search makes is, on ASCII text, the test for an occurrence
    that ignores the case of letters. *)
Lemma occurs_lower_ascii q s :
  ascii_only q = true -> ascii_only s = true ->
  occurs (lower q) (lower s) <-> ci_substring q s.
Proof.
  intros Hq Hs. rewrite (lower_ascii_only _ Hq), (lower_ascii_only _ Hs).
  unfold occurs, ci_substring. split.
  - intros (pre & post & H).
    destruct (lower_letters_split _ _ _ H) as (s1 & s23 & -> & <- & H23).
    destruct (lower_letters_split _ _ _ H23) as (s2 & s3 & -> & H2 & <-).
    exists s1, s2, s3. split; [reflexivity|]. now apply lower_letters_same.
  - intros (pre & mid & post & -> & H). apply lower_letters_same in H.
    exists (lower_letters pre), (lower_letters post).
    now rewrite !lower_letters_app, H.
Qed.

Lemma matches_query_lower q e :
  matches_query (lower q) e = true <-> lower_match q e.
Proof.
  unfold matches_query, lower_match, occurs.
  destruct (contains (lower q) (lower (title e))) eqn:E.
  - apply contains_app in E. tauto.
  - rewrite existsb_exists. split.
    + intros (g & Hg & H). right. exists g. split; [exact Hg|].
      now apply contains_app.
    + intros [H|(g & Hg & H)].
      * apply contains_app in H. congruence.
      * exists g. split; [exact Hg|]. now apply contains_app.
Qed.

Lemma In_group {T : Type} (f : T -> json) (p : T -> bool) l x :
  In x (map f (filter p l)) <-> exists m, In m l /\ p m = true /\ x = f m.
Proof.
  rewrite in_map_iff. split.
  - intros (m & <- & H). apply filter_In in H. now exists m.
  - intros (m & H1 & H2 & ->). exists m. split; [reflexivity|].
    now apply filter_In.
Qed.

Lemma wants_iff media_type k :
  wants media_type k = true <-> media_type = None \/ media_type = Some k.
Proof.
  destruct media_type as [mt|]; simpl.
  - rewrite String.eqb_eq. split; [intros ->; now right|].
    intros [H|[= ->]]; [discriminate|reflexivity].
  - split; [now left|reflexivity].
Qed.

(** What the result of [search] holds under each key. *)
Lemma search_get a q mt :
  let r := Agent.search a q mt in
  let hit e := matches_query (lower q) e in
  dict_get "movies" r =
    group_of (wants mt "movie")
      (map movie_to_dict
         (filter (fun m => hit (movie_base m)) (get_movies (db a)))) /\
  dict_get "music" r =
    group_of (wants mt "music")
      (map music_to_dict
         (filter (fun m => hit (music_base m)) (get_music (db a)))) /\
  dict_get "books" r =
    group_of (wants mt "book")
      (map book_to_dict
         (filter (fun b => hit (book_base b)) (get_books (db a)))) /\
  dict_get "games" r =
    group_of (wants mt "game")
      (map game_to_dict
         (filter (fun g => hit (game_base g)) (get_games (db a)))) /\
  (forall k l, dict_get k r = Some l ->
               In k ["movies"; "music"; "books"; "games"]).
Proof.
  unfold Agent.search. cbv zeta.
  generalize (map movie_to_dict
                (filter (fun m => matches_query (lower q) (movie_base m))
                   (get_movies (db a)))) as l1.
  generalize (map music_to_dict
                (filter (fun m => matches_query (lower q) (music_base m))
                   (get_music (db a)))) as l2.
  generalize (map book_to_dict
                (filter (fun b => matches_query (lower q) (book_base b))
                   (get_books (db a)))) as l3.
  generalize (map game_to_dict
                (filter (fun g => matches_query (lower q) (game_base g))
                   (get_games (db a)))) as l4.
  intros l4 l3 l2 l1.
  destruct (wants mt "movie"), (wants mt "music"), (wants mt "book"),
    (wants mt "game");
    destruct l1, l2, l3, l4; cbn;
    (repeat split; try reflexivity);
    intros k l H;
    repeat match type of H with
      | context [String.eqb k ?s] =>
          let E := fresh "E" in
          destruct (String.eqb k s) eqn:E;
          [apply String.eqb_eq in E; subst k; simpl; tauto|]
      end;
    discriminate H.
Qed.

Lemma group_of_In wanted l x :
  (exists g, group_of wanted l = Some g /\ In x g) <->
  wanted = true /\ In x l.
Proof.
  unfold group_of. destruct wanted.
  - destruct l as [|y l].
    + split; [intros (g & [=] & _)|intros (_ & [])].
    + split; [intros (g & [= <-] & H); now split|].
      intros (_ & H). eexists. split; [reflexivity|exact H].
  - split; [intros (g & [=] & _)|intros ([=] & _)].
Qed.

Lemma group_of_nonempty wanted l g : group_of wanted l = Some g -> g <> [].
Proof.
  unfold group_of. destruct wanted; [|discriminate].
  destruct l; [discriminate|]. intros [= <-]. discriminate.
Qed.

(** C6, amended: the result of a search maps a group name to the dicts of
    the items of that kind that match, an item matching when the query put
    in lower case occurs in its title put in lower case or in one of its
    genres put in lower case ([str.lower] on both sides).  Only the four
    group names occur, a group is looked at when the search is for its kind
    or for all kinds, and no group in the result is empty.  On ASCII text
    the match is the occurrence of the query with the case of letters
    ignored. *)
Theorem search_groups a query media_type :
  let r := Agent.search a query media_type in
  (forall k l, dict_get k r = Some l ->
     l <> [] /\ In k ["movies"; "music"; "books"; "games"]) /\
  (forall x,
     (exists l, dict_get "movies" r = Some l /\ In x l) <->
     (media_type = None \/ media_type = Some "movie") /\
     exists m, In m (map snd (movies (db a))) /\
               lower_match query (movie_base m) /\ x = movie_to_dict m) /\
  (forall x,
     (exists l, dict_get "music" r = Some l /\ In x l) <->
     (media_type = None \/ media_type = Some "music") /\
     exists m, In m (map snd (music (db a))) /\
               lower_match query (music_base m) /\ x = music_to_dict m) /\
  (forall x,
     (exists l, dict_get "books" r = Some l /\ In x l) <->
     (media_type = None \/ media_type = Some "book") /\
     exists b, In b (map snd (books (db a))) /\
               lower_match query (book_base b) /\ x = book_to_dict b) /\
  (forall x,
     (exists l, dict_get "games" r = Some l /\ In x l) <->
     (media_type = None \/ media_type = Some "game") /\
     exists g, In g (map snd (games (db a))) /\
               lower_match query (game_base g) /\ x = game_to_dict g) /\
  (forall q s, ascii_only q = true -> ascii_only s = true ->
     (occurs (lower q) (lower s) <-> ci_substring q s)).
Proof.
  destruct (search_get a query media_type) as (H1 & H2 & H3 & H4 & Hk).
  cbv zeta in *. split; [|split; [|split; [|split; [|split]]]].
  - intros k l H. split; [|exact (Hk _ _ H)].
    destruct (Hk _ _ H) as [<-|[<-|[<-|[<-|[]]]]];
      [rewrite H1 in H|rewrite H2 in H|rewrite H3 in H|rewrite H4 in H];
      exact (group_of_nonempty _ _ _ H).
  - intros x. rewrite H1, group_of_In, wants_iff, In_group.
    apply and_iff_compat_l.
    split; intros (m & Hm & Hq & ->); exists m; (split; [exact Hm|]);
      (split; [|reflexivity]); now apply matches_query_lower.
  - intros x. rewrite H2, group_of_In, wants_iff, In_group.
    apply and_iff_compat_l.
    split; intros (m & Hm & Hq & ->); exists m; (split; [exact Hm|]);
      (split; [|reflexivity]); now apply matches_query_lower.
  - intros x. rewrite H3, group_of_In, wants_iff, In_group.
    apply and_iff_compat_l.
    split; intros (m & Hm & Hq & ->); exists m; (split; [exact Hm|]);
      (split; [|reflexivity]); now apply matches_query_lower.
  - intros x. rewrite H4, group_of_In, wants_iff, In_group.
    apply and_iff_compat_l.
    split; intros (m & Hm & Hq & ->); exists m; (split; [exact Hm|]);
      (split; [|reflexivity]); now apply matches_query_lower.
  - apply occurs_lower_ascii.
Qed.

(** C6 as it is stated fails on a capital sigma: the query of four Greek
    capitals is the beginning of the title of five, so it occurs in it even
    with the case of letters observed, and the search finds nothing.  In
    lower case the sigma of the query, the last letter of its word, is a
    final sigma, and the sigma of the title is not. *)
Lemma search_final_sigma :
  title (movie_base greek_movie) = (odos ++ encode [913])%string /\
  ci_substring odos (title (movie_base greek_movie)) /\
  get_movies (db greek_agent) = [greek_movie] /\
  Agent.search greek_agent odos None = [].
Proof.
  split; [reflexivity|]. split; [|split; reflexivity].
  exists ""%string, odos, (encode [913]). split; [reflexivity|].
  apply lower_letters_same. reflexivity.
Qed.

(** Letters outside ASCII are matched without their case too. *)
Example search_accented_capitals :
  Agent.search french_agent amelie_caps None
  = [("movies", [movie_to_dict french_movie])] /\
  Agent.search french_agent "ROMAN" (Some "movie")
  = [("movies", [movie_to_dict french_movie])] /\
  Agent.search new_agent "INCEP" None
  = [("movies", [movie_to_dict m3])] /\
  Agent.search new_agent "incep" (Some "book") = [].
Proof. repeat split; vm_compute; reflexivity. Qed.

(** ** The facade without a current user *)

(** C7: with no current user, the facade raises nothing: asking for
    recommendations returns the dict that holds the error message, and adding
    a preference or a history entry returns false and leaves the agent, and
    with it every profile, as it was. *)
Theorem no_current_user_is_reported a media_type count mt category value iid :
  current_user a = None ->
  Agent.get_recommendations a media_type count
    = Ok [("error", JStr "No user selected")] /\
  Agent.add_user_preference a mt category value = Ok (a, false) /\
  Agent.add_to_history a mt iid = Ok (a, false).
Proof.
  intros H.
  unfold Agent.get_recommendations, Agent.add_user_preference,
    Agent.add_to_history, Agent.no_user.
  rewrite H. repeat split.
Qed.

Lemma no_current_user_is_reported_witness :
  Agent.get_recommendations new_agent (Some "movie") 3
    = Ok [("error", JStr "No user selected")] /\
  Agent.add_user_preference new_agent "movie" "genres" (VStr "Action")
    = Ok (new_agent, false) /\
  Agent.add_to_history new_agent "movie" "m3" = Ok (new_agent, false).
Proof.
  apply (no_current_user_is_reported new_agent (Some "movie") 3
           "movie" "genres" (VStr "Action") "m3").
  reflexivity.
Defined.

(** ** User ids *)

(** C9: [create_user] names the new profile after the number of stored
    profiles.  After loading a users file whose only profile is stored under
    [user_2], the new user gets the id [user_2] as well and takes the place
    of the loaded profile. *)
Theorem create_user_replaces_loaded_profile :
  exists a1,
    Agent.load_data new_agent "entertainment_db.json" "users.json" bob_files
      = Ok (a1, true) /\
    dict_get "user_2" (users a1) = Some bob /\
    snd (Agent.create_user a1 "Alice") = "user_2" /\
    dict_get "user_2" (users (fst (Agent.create_user a1 "Alice")))
      = Some (new_profile "user_2" "Alice") /\
    List.length (users (fst (Agent.create_user a1 "Alice"))) = 1%nat.
Proof.
  eexists. split; [vm_compute; reflexivity|].
  repeat split.
Qed.

(** ** Saving and loading the database *)

Lemma mapM_as_str l : mapM as_str (map JStr l) = Ok l.
Proof.
  induction l as [|x xs IH]; simpl; [reflexivity|now rewrite IH].
Qed.

Lemma movie_of_json_to_dict m : movie_of_json (movie_to_dict m) = Ok m.
Proof.
  destruct m as [[i t g y [z|f]] d acts dur];
    unfold movie_of_json, movie_to_dict, base_of_json, json_strs; cbn;
    rewrite !mapM_as_str; reflexivity.
Qed.

Lemma music_of_json_to_dict m : music_of_json (music_to_dict m) = Ok m.
Proof.
  destruct m as [[i t g y [z|f]] art [alb|] [dur|]];
    unfold music_of_json, music_to_dict, base_of_json, json_strs; cbn;
    rewrite !mapM_as_str; reflexivity.
Qed.

Lemma book_of_json_to_dict b : book_of_json (book_to_dict b) = Ok b.
Proof.
  destruct b as [[i t g y [z|f]] au pg pb];
    unfold book_of_json, book_to_dict, base_of_json, json_strs; cbn;
    rewrite !mapM_as_str; reflexivity.
Qed.

Lemma game_of_json_to_dict g : game_of_json (game_to_dict g) = Ok g.
Proof.
  destruct g as [[i t gs y [z|f]] dv ps mp];
    unfold game_of_json, game_to_dict, base_of_json, json_strs; cbn;
    rewrite !mapM_as_str; reflexivity.
Qed.

(** Loading the entries that were dumped from a dict adds its values one
    after the other. *)
Lemma load_entries_dump {T : Type} (of_json : json -> res T)
    (to_json : T -> json) add (l : dict T) d :
  (forall v, of_json (to_json v) = Ok v) ->
  load_entries of_json add (map (fun kv => (fst kv, to_json (snd kv))) l) d
  = (fold_left (fun acc kv => add acc (snd kv)) l d, Ok tt).
Proof.
  intros Hrt. revert d. induction l as [|[k v] l IH]; intros d; simpl.
  - reflexivity.
  - unfold lbind, lift, modify. rewrite Hrt. simpl. apply IH.
Qed.

(** Storing the bindings of a well-keyed dict one after the other, each
    under the id of its value, rebuilds the dict. *)
Lemma dict_rebuild {V : Type} (id : V -> string) (l acc : dict V) :
  Forall (fun kv => fst kv = id (snd kv)) l ->
  NoDup (dict_keys (acc ++ l)) ->
  fold_left (fun a kv => dict_set (id (snd kv)) (snd kv) a) l acc = acc ++ l.
Proof.
  revert acc. induction l as [|[k v] l IH]; intros acc Hk Hnd; simpl.
  - now rewrite app_nil_r.
  - inversion Hk as [|? ? Hkv Hk']; subst. simpl in Hkv. subst k.
    assert (Hfresh : ~ In (id v) (dict_keys acc)).
    { unfold dict_keys in *. rewrite map_app in Hnd. simpl in Hnd.
      apply NoDup_remove_2 in Hnd. intros H. apply Hnd.
      apply in_or_app. now left. }
    rewrite (dict_set_fresh _ _ _ Hfresh).
    rewrite IH; [now rewrite <- app_assoc|exact Hk'|].
    now rewrite <- app_assoc.
Qed.

Lemma fold_add_movie l d :
  fold_left (fun acc kv => add_movie acc (snd kv)) l d =
  mkDb (fold_left (fun a (kv : string * Movie) =>
                     dict_set (item_id (movie_base (snd kv))) (snd kv) a)
          l (movies d))
       (music d) (books d) (games d).
Proof.
  revert d. induction l as [|kv l IH]; intros d; simpl;
    [now destruct d|now rewrite IH].
Qed.

Lemma fold_add_music l d :
  fold_left (fun acc kv => add_music acc (snd kv)) l d =
  mkDb (movies d)
       (fold_left (fun a (kv : string * Music) =>
                     dict_set (item_id (music_base (snd kv))) (snd kv) a)
          l (music d))
       (books d) (games d).
Proof.
  revert d. induction l as [|kv l IH]; intros d; simpl;
    [now destruct d|now rewrite IH].
Qed.

Lemma fold_add_book l d :
  fold_left (fun acc kv => add_book acc (snd kv)) l d =
  mkDb (movies d) (music d)
       (fold_left (fun a (kv : string * Book) =>
                     dict_set (item_id (book_base (snd kv))) (snd kv) a)
          l (books d))
       (games d).
Proof.
  revert d. induction l as [|kv l IH]; intros d; simpl;
    [now destruct d|now rewrite IH].
Qed.

Lemma fold_add_game l d :
  fold_left (fun acc kv => add_game acc (snd kv)) l d =
  mkDb (movies d) (music d) (books d)
       (fold_left (fun a (kv : string * Game) =>
                     dict_set (item_id (game_base (snd kv))) (snd kv) a)
          l (games d)).
Proof.
  revert d. induction l as [|kv l IH]; intros d; simpl;
    [now destruct d|now rewrite IH].
Qed.

Lemma load_body_db_to_json d d0 :
  db_wf d -> load_body (db_to_json d) d0 = (d, Ok tt).
Proof.
  intros ((N1 & K1) & (N2 & K2) & (N3 & K3) & (N4 & K4)).
  unfold load_body, load_section, db_to_json, dump_dict.
  unfold lbind at 1. unfold modify at 1.
  unfold lbind at 1. unfold lbind at 1. unfold lift at 1. cbn [json_section
    json_get bind dict_get String.eqb Ascii.eqb Bool.eqb json_items].
  rewrite (load_entries_dump _ _ _ _ _ movie_of_json_to_dict).
  unfold lbind at 1. unfold lbind at 1. unfold lift at 1. cbn [json_section
    json_get bind dict_get String.eqb Ascii.eqb Bool.eqb json_items].
  rewrite (load_entries_dump _ _ _ _ _ music_of_json_to_dict).
  unfold lbind at 1. unfold lbind at 1. unfold lift at 1. cbn [json_section
    json_get bind dict_get String.eqb Ascii.eqb Bool.eqb json_items].
  rewrite (load_entries_dump _ _ _ _ _ book_of_json_to_dict).
  unfold lbind at 1. unfold lift at 1. cbn [json_section
    json_get bind dict_get String.eqb Ascii.eqb Bool.eqb json_items].
  rewrite (load_entries_dump _ _ _ _ _ game_of_json_to_dict).
  rewrite fold_add_game, fold_add_book, fold_add_music, fold_add_movie.
  cbn [movies music books games empty_db].
  rewrite (dict_rebuild (fun m => item_id (movie_base m)) _ [] K1 N1),
    (dict_rebuild (fun m => item_id (music_base m)) _ [] K2 N2),
    (dict_rebuild (fun b => item_id (book_base b)) _ [] K3 N3),
    (dict_rebuild (fun g => item_id (game_base g)) _ [] K4 N4).
  now destruct d.
Qed.

(** C8: loading a file that was saved from a database whose items are
    stored under their ids succeeds and leaves that very database, whatever
    was in memory before: the four collections have the same ids, in the
    same order, and under each id the item that was saved, equal field by
    field. *)
Theorem save_load_roundtrip d d0 filename files :
  db_wf d ->
  load_from_file d0 filename (save_to_file d filename files) = Ok (d, true) /\
  (forall d', load_from_file d0 filename (save_to_file d filename files)
              = Ok (d', true) ->
     dict_keys (movies d') = dict_keys (movies d) /\
     dict_keys (music d') = dict_keys (music d) /\
     dict_keys (books d') = dict_keys (books d) /\
     dict_keys (games d') = dict_keys (games d) /\
     forall k,
       get_movie_by_id d' k = get_movie_by_id d k /\
       get_music_by_id d' k = get_music_by_id d k /\
       get_book_by_id d' k = get_book_by_id d k /\
       get_game_by_id d' k = get_game_by_id d k).
Proof.
  intros Hwf.
  assert (E : load_from_file d0 filename (save_to_file d filename files)
              = Ok (d, true)).
  { unfold load_from_file, save_to_file. rewrite dict_get_set_same.
    now rewrite (load_body_db_to_json _ _ Hwf). }
  split; [exact E|].
  intros d' E'. rewrite E in E'. injection E' as <-. repeat split.
Qed.

Lemma save_load_roundtrip_witness :
  load_from_file empty_db "entertainment_db.json"
    (save_to_file new_db "entertainment_db.json" []) = Ok (new_db, true) /\
  (forall d', load_from_file empty_db "entertainment_db.json"
                (save_to_file new_db "entertainment_db.json" [])
              = Ok (d', true) ->
     dict_keys (movies d') = dict_keys (movies new_db) /\
     dict_keys (music d') = dict_keys (music new_db) /\
     dict_keys (books d') = dict_keys (books new_db) /\
     dict_keys (games d') = dict_keys (games new_db) /\
     forall k,
       get_movie_by_id d' k = get_movie_by_id new_db k /\
       get_music_by_id d' k = get_music_by_id new_db k /\
       get_book_by_id d' k = get_book_by_id new_db k /\
       get_game_by_id d' k = get_game_by_id new_db k).
Proof.
  apply (save_load_roundtrip new_db empty_db "entertainment_db.json" []).
  repeat split; simpl;
    repeat (constructor; simpl; try (intuition discriminate));
    reflexivity.
Defined.

(** The databases the program builds satisfy [db_wf]. *)

Lemma dict_set_keys_in {V : Type} k k0 (v : V) d :
  In k (dict_keys (dict_set k0 v d)) -> k = k0 \/ In k (dict_keys d).
Proof.
  induction d as [|[k' v'] d IH]; simpl.
  - intros [<-|[]]. now left.
  - destruct (String.eqb k0 k'); simpl; [tauto|].
    intros [H|H]; [tauto|]. destruct (IH H); tauto.
Qed.

Lemma keyed_by_set {V : Type} (id : V -> string) v d :
  keyed_by id d -> keyed_by id (dict_set (id v) v d).
Proof.
  unfold keyed_by. induction d as [|[k' v'] d IH]; simpl.
  - intros _. split; repeat constructor. simpl. tauto.
  - intros (Hn & Hf). inversion Hn as [|? ? Hk' Hn']; subst.
    inversion Hf as [|? ? Hkv Hf']; subst. simpl in Hkv.
    destruct (String.eqb (id v) k') eqn:E.
    + apply String.eqb_eq in E. split.
      * simpl. now constructor.
      * constructor; [simpl; congruence|exact Hf'].
    + apply String.eqb_neq in E. destruct (IH (conj Hn' Hf')) as (Hn2 & Hf2).
      split.
      * simpl. constructor; [|exact Hn2].
        intros H. apply dict_set_keys_in in H. destruct H; congruence.
      * now constructor.
Qed.

Lemma empty_db_wf : db_wf empty_db.
Proof. repeat split; constructor. Qed.

Lemma add_movie_wf d m : db_wf d -> db_wf (add_movie d m).
Proof.
  intros (H1 & H2 & H3 & H4).
  pose proof (keyed_by_set (fun m => item_id (movie_base m)) m _ H1) as H.
  unfold db_wf, add_movie. simpl. tauto.
Qed.

Lemma add_music_wf d m : db_wf d -> db_wf (add_music d m).
Proof.
  intros (H1 & H2 & H3 & H4).
  pose proof (keyed_by_set (fun m => item_id (music_base m)) m _ H2) as H.
  unfold db_wf, add_music. simpl. tauto.
Qed.

Lemma add_book_wf d b : db_wf d -> db_wf (add_book d b).
Proof.
  intros (H1 & H2 & H3 & H4).
  pose proof (keyed_by_set (fun b => item_id (book_base b)) b _ H3) as H.
  unfold db_wf, add_book. simpl. tauto.
Qed.

Lemma add_game_wf d g : db_wf d -> db_wf (add_game d g).
Proof.
  intros (H1 & H2 & H3 & H4).
  pose proof (keyed_by_set (fun g => item_id (game_base g)) g _ H4) as H.
  unfold db_wf, add_game. simpl. tauto.
Qed.

(** ** Profiles the program builds are readable *)

Lemma new_profile_ok uid nm mt :
  recognized mt = true -> profile_ok (new_profile uid nm) mt = true.
Proof.
  unfold recognized, str_in. cbn [existsb].
  intros H. repeat (apply orb_true_iff in H; destruct H as [H|H]);
    try discriminate; apply String.eqb_eq in H; subst mt; reflexivity.
Qed.

Lemma has_key_set_present {V : Type} k k' (v v0 : V) d :
  dict_get k' d = Some v0 -> has_key k (dict_set k' v d) = has_key k d.
Proof.
  intros H. unfold has_key, dict_mem.
  destruct (String.eqb k' k) eqn:E.
  - apply String.eqb_eq in E. subst k'. now rewrite dict_get_set_same, H.
  - apply String.eqb_neq in E. now rewrite dict_get_set_other.
Qed.

Lemma add_to_history_ok u mt mt' iid :
  profile_ok u mt = true -> profile_ok (add_to_history u mt' iid) mt = true.
Proof.
  intros H. unfold add_to_history.
  destruct (dict_get mt' (history u)) as [seen|] eqn:E; [|exact H].
  destruct (str_in iid seen); [exact H|].
  unfold profile_ok in *. cbn [preferences history].
  destruct (dict_get mt (preferences u)); [|discriminate].
  destruct (String.eqb mt' mt) eqn:Em.
  - apply String.eqb_eq in Em. subst mt'.
    rewrite dict_get_set_same. now rewrite E in H.
  - apply String.eqb_neq in Em. now rewrite dict_get_set_other.
Qed.

Lemma forallb_snoc {A : Type} (p : A -> bool) l x :
  forallb p (l ++ [x]) = forallb p l && p x.
Proof. rewrite forallb_app. simpl. now rewrite andb_true_r. Qed.

(** Adding a preference keeps a profile readable, as long as a value added
    to the years is a number. *)
Lemma add_preference_ok u mt mt' category value :
  profile_ok u mt = true ->
  (category = "years" -> is_num value = true) ->
  profile_ok (add_preference u mt' category value) mt = true.
Proof.
  intros H Hnum. unfold add_preference.
  destruct (dict_get mt' (preferences u)) as [cats'|] eqn:E; [|exact H].
  destruct (dict_get category cats') as [vals|] eqn:Ec; [|exact H].
  destruct (py_in value vals); [exact H|].
  unfold profile_ok in *. cbn [preferences history].
  destruct (String.eqb mt' mt) eqn:Em.
  - apply String.eqb_eq in Em. subst mt'.
    rewrite dict_get_set_same. rewrite E in H.
    destruct (dict_get mt (history u)); [|discriminate].
    rewrite !(has_key_set_present _ _ _ _ _ Ec).
    destruct (String.eqb category "years") eqn:Ey.
    + apply String.eqb_eq in Ey. subst category.
      rewrite dict_get_set_same. rewrite Ec in H.
      rewrite forallb_snoc, (Hnum eq_refl), andb_true_r. exact H.
    + apply String.eqb_neq in Ey. now rewrite dict_get_set_other.
  - apply String.eqb_neq in Em. now rewrite dict_get_set_other.
Qed.

(** ** The worked scores of the scorer's description *)

(** Inception against the profile of [main]: two preferred genres and one
    preferred actor on a rating of 8.8.  The four binary64 additions leave
    a score just above 1.63. *)
Example score_inception :
  calculate_match_score (IMovie m3) john "movie"
    = Ok (0 + 8.8 / 10 + 0.3 + 0.3 + 0.15)%float /\
  (0 + 8.8 / 10 + 0.3 + 0.3 + 0.15 =? 1.6300000000000001)%float = true /\
  (1.63 <? 0 + 8.8 / 10 + 0.3 + 0.3 + 0.15)%float = true.
Proof. repeat split. Qed.

(** The same once the movie is in the history. *)
Example score_inception_seen :
  calculate_match_score (IMovie m3) john_seen "movie"
    = Ok (0 + 8.8 / 10 + 0.3 + 0.3 + 0.15 - 1)%float /\
  (0 + 8.8 / 10 + 0.3 + 0.3 + 0.15 - 1 =? 0.6300000000000001)%float = true.
Proof. repeat split. Qed.

(** ** User ids stay the keys of the stored profiles *)

Lemma create_user_keyed a nm :
  keyed_by user_id (users a) ->
  keyed_by user_id (users (fst (Agent.create_user a nm))).
Proof.
  intros H. unfold Agent.create_user. cbn [fst users].
  exact (keyed_by_set user_id
           (new_profile _ nm) (users a) H).
Qed.

(** When the id that [create_user] builds is not in use, the new profile is
    added after the stored ones, which all stay. *)
Lemma create_user_fresh a nm :
  dict_get (snd (Agent.create_user a nm)) (users a) = None ->
  users (fst (Agent.create_user a nm)) =
  users a ++ [(snd (Agent.create_user a nm),
               new_profile (snd (Agent.create_user a nm)) nm)].
Proof.
  unfold Agent.create_user. cbn [fst snd users]. intros H.
  apply dict_set_fresh. now apply dict_get_None.
Qed.

(** * Further properties *)

(** ** Preferences and history of a profile *)

Lemma pyval_eqb_refl v : pyval_eqb v v = true.
Proof.
  destruct v; simpl.
  - apply String.eqb_refl.
  - apply Z.eqb_refl.
  - unfold is_nan. now destruct (f =? f)%float.
Qed.

Lemma py_in_snoc v l : py_in v (l ++ [v]) = true.
Proof.
  unfold py_in. rewrite existsb_app. simpl.
  now rewrite pyval_eqb_refl, orb_true_r.
Qed.

Lemma str_in_snoc s l : str_in s (l ++ [s]) = true.
Proof.
  unfold str_in. rewrite existsb_app. simpl.
  now rewrite String.eqb_refl, orb_true_r.
Qed.

Lemma pref_set_pref_other_kind u mt cat vals mt' cat' :
  mt <> mt' ->
  pref (set_pref u mt cat vals) mt' cat' = pref u mt' cat'.
Proof.
  intros Hm. unfold set_pref, pref, dict_index.
  destruct (dict_get mt (preferences u)) as [cats|] eqn:E; [|reflexivity].
  simpl. now rewrite dict_get_set_other.
Qed.

(** [add_preference] as a replacement of one category. *)
Lemma add_preference_set_pref u mt c v vals :
  pref u mt c = Ok vals ->
  add_preference u mt c v =
  if py_in v vals then u else set_pref u mt c (vals ++ [v]).
Proof.
  unfold pref, dict_index, add_preference, set_pref.
  destruct (dict_get mt (preferences u)) as [cats|]; [|discriminate].
  simpl. destruct (dict_get c cats) as [l|]; [|discriminate].
  now intros [= ->].
Qed.

(** X1: after [add_preference] on a category the profile has, the category
    holds the value: the list is the old one when the value was in it, and
    the old one with the value at its end otherwise.  Every other category,
    the history, the id and the name are as before. *)
Theorem add_preference_lookup u mt c v vals :
  pref u mt c = Ok vals ->
  pref (add_preference u mt c v) mt c
    = Ok (if py_in v vals then vals else vals ++ [v]) /\
  py_in v (pref_list (add_preference u mt c v) mt c) = true /\
  (forall mt' c', mt' <> mt \/ c' <> c ->
     pref (add_preference u mt c v) mt' c' = pref u mt' c') /\
  history (add_preference u mt c v) = history u /\
  user_id (add_preference u mt c v) = user_id u /\
  name (add_preference u mt c v) = name u.
Proof.
  intros Hp. rewrite (add_preference_set_pref _ _ _ _ _ Hp).
  assert (Hcats : exists cats, dict_get mt (preferences u) = Some cats).
  { unfold pref, dict_index in Hp.
    destruct (dict_get mt (preferences u)) as [cats|]; [|discriminate].
    now exists cats. }
  destruct Hcats as (cats & Hcats).
  destruct (py_in v vals) eqn:Ein.
  - repeat split; auto. unfold pref_list. now rewrite Hp.
  - assert (Hnew : pref (set_pref u mt c (vals ++ [v])) mt c
                   = Ok (vals ++ [v]))
      by exact (pref_set_pref_same _ _ _ _ _ Hcats).
    split; [exact Hnew|]. split.
    { unfold pref_list. rewrite Hnew. apply py_in_snoc. }
    split.
    { intros mt' c' [H|H].
      - apply pref_set_pref_other_kind. congruence.
      - apply pref_set_pref_other. congruence. }
    unfold set_pref. rewrite Hcats. repeat split.
Qed.

Lemma add_preference_lookup_witness :
  pref (add_preference john "movie" "genres" (VStr "Drama")) "movie" "genres"
    = Ok (if py_in (VStr "Drama") [VStr "Sci-Fi"; VStr "Action"]
          then [VStr "Sci-Fi"; VStr "Action"]
          else [VStr "Sci-Fi"; VStr "Action"] ++ [VStr "Drama"]) /\
  py_in (VStr "Drama")
    (pref_list (add_preference john "movie" "genres" (VStr "Drama"))
       "movie" "genres") = true /\
  (forall mt' c', mt' <> "movie" \/ c' <> "genres" ->
     pref (add_preference john "movie" "genres" (VStr "Drama")) mt' c'
     = pref john mt' c') /\
  history (add_preference john "movie" "genres" (VStr "Drama"))
    = history john /\
  user_id (add_preference john "movie" "genres" (VStr "Drama"))
    = user_id john /\
  name (add_preference john "movie" "genres" (VStr "Drama")) = name john.
Proof.
  apply (add_preference_lookup john "movie" "genres" (VStr "Drama")
           [VStr "Sci-Fi"; VStr "Action"]).
  reflexivity.
Defined.

(** X2: [add_preference] is idempotent, and it leaves the profile alone when
    the profile has no such media type or no such category. *)
Theorem add_preference_idempotent u mt c v :
  add_preference (add_preference u mt c v) mt c v = add_preference u mt c v /\
  (forall e, pref u mt c = Raise e -> add_preference u mt c v = u).
Proof.
  split.
  - destruct (pref u mt c) as [vals|e|] eqn:Hp.
    + rewrite (add_preference_set_pref _ _ _ _ _ Hp).
      destruct (py_in v vals) eqn:Ein.
      * now rewrite (add_preference_set_pref _ _ _ _ _ Hp), Ein.
      * assert (Hcats : exists cats,
                   dict_get mt (preferences u) = Some cats).
        { unfold pref, dict_index in Hp.
          destruct (dict_get mt (preferences u)) as [cats|]; [|discriminate].
          now exists cats. }
        destruct Hcats as (cats & Hcats).
        rewrite (add_preference_set_pref _ _ _ _ (vals ++ [v])
                   (pref_set_pref_same _ _ _ _ _ Hcats)).
        now rewrite py_in_snoc.
    + assert (E : add_preference u mt c v = u).
      { unfold pref, dict_index, add_preference in *.
        destruct (dict_get mt (preferences u)) as [cats|]; [|reflexivity].
        simpl in Hp. now destruct (dict_get c cats). }
      now rewrite !E.
    + unfold pref, dict_index in Hp.
      destruct (dict_get mt (preferences u)) as [cats|]; [|discriminate].
      simpl in Hp. now destruct (dict_get c cats).
  - intros e Hp. unfold pref, dict_index, add_preference in *.
    destruct (dict_get mt (preferences u)) as [cats|]; [|reflexivity].
    simpl in Hp. now destruct (dict_get c cats).
Qed.

Lemma history_list_add_to_history u mt iid seen :
  dict_get mt (history u) = Some seen ->
  history_list (add_to_history u mt iid) mt =
  if str_in iid seen then seen else seen ++ [iid].
Proof.
  intros H. unfold add_to_history, history_list. rewrite H.
  destruct (str_in iid seen); simpl; [now rewrite H|].
  now rewrite dict_get_set_same.
Qed.

Lemma history_list_add_to_history_other u mt mt' iid :
  mt' <> mt ->
  history_list (add_to_history u mt' iid) mt = history_list u mt.
Proof.
  intros Hne. unfold add_to_history, history_list.
  destruct (dict_get mt' (history u)) as [seen|]; [|reflexivity].
  destruct (str_in iid seen); [reflexivity|]. simpl.
  now rewrite dict_get_set_other.
Qed.

Lemma add_to_history_preferences u mt iid :
  preferences (add_to_history u mt iid) = preferences u.
Proof.
  unfold add_to_history.
  destruct (dict_get mt (history u)) as [seen|]; [|reflexivity].
  now destruct (str_in iid seen).
Qed.

Lemma add_to_history_idem u mt iid :
  add_to_history (add_to_history u mt iid) mt iid = add_to_history u mt iid.
Proof.
  unfold add_to_history at 2 3.
  destruct (dict_get mt (history u)) as [seen|] eqn:H.
  - destruct (str_in iid seen) eqn:E.
    + unfold add_to_history. now rewrite H, E.
    + unfold add_to_history. cbn [history]. rewrite dict_get_set_same.
      now rewrite str_in_snoc.
  - unfold add_to_history. now rewrite H.
Qed.

(** X3: [add_to_history] keeps a history a set.  On a media type the profile
    has, the id is in the history afterwards, a history without repetition
    stays without repetition, and adding the id once more changes nothing;
    the histories of the other media types and the preferences are as
    before. *)
Theorem add_to_history_set u mt iid seen :
  dict_get mt (history u) = Some seen ->
  In iid (history_list (add_to_history u mt iid) mt) /\
  (NoDup seen -> NoDup (history_list (add_to_history u mt iid) mt)) /\
  add_to_history (add_to_history u mt iid) mt iid = add_to_history u mt iid /\
  (forall mt', mt' <> mt ->
     history_list (add_to_history u mt iid) mt' = history_list u mt') /\
  preferences (add_to_history u mt iid) = preferences u.
Proof.
  intros H. rewrite (history_list_add_to_history _ _ _ _ H).
  destruct (str_in iid seen) eqn:E.
  - split; [now apply str_in_In|]. split; [auto|].
    assert (Eu : add_to_history u mt iid = u).
    { unfold add_to_history. now rewrite H, E. }
    rewrite !Eu. split; [reflexivity|]. split; [reflexivity|reflexivity].
  - split; [apply in_or_app; right; now left|]. split.
    { intros Hn. apply NoDup_app; [exact Hn|repeat constructor; tauto|].
      intros x Hx [<-|[]]. apply str_in_In in Hx. congruence. }
    split.
    { unfold add_to_history at 1.
      assert (Hg : dict_get mt (history (add_to_history u mt iid))
                   = Some (seen ++ [iid])).
      { unfold add_to_history. rewrite H, E. simpl.
        apply dict_get_set_same. }
      now rewrite Hg, str_in_snoc. }
    split.
    { intros mt' Hne. apply history_list_add_to_history_other. congruence. }
    unfold add_to_history. now rewrite H, E.
Qed.

Lemma add_to_history_set_witness :
  In "m3" (history_list (add_to_history john "movie" "m3") "movie") /\
  (NoDup (@nil string) ->
   NoDup (history_list (add_to_history john "movie" "m3") "movie")) /\
  add_to_history (add_to_history john "movie" "m3") "movie" "m3"
    = add_to_history john "movie" "m3" /\
  (forall mt', mt' <> "movie" ->
     history_list (add_to_history john "movie" "m3") mt'
     = history_list john mt') /\
  preferences (add_to_history john "movie" "m3") = preferences john.
Proof.
  apply (add_to_history_set john "movie" "m3" []). reflexivity.
Defined.

(** ** Profiles as JSON *)

Lemma mapM_as_pyval l : mapM as_pyval (map json_of_pyval l) = Ok l.
Proof.
  induction l as [|v vs IH]; simpl; [reflexivity|].
  destruct v; simpl; now rewrite IH.
Qed.

Lemma as_dict_dump {V : Type} (of_json : json -> res V) (f : V -> json)
    (d : dict V) :
  (forall v, of_json (f v) = Ok v) ->
  as_dict of_json (dump_dict f d) = Ok d.
Proof.
  intros Hrt. unfold as_dict, dump_dict.
  induction d as [|[k v] d IH]; simpl; [reflexivity|].
  rewrite Hrt. simpl. now rewrite IH.
Qed.

Lemma from_dict_profile_to_dict u : from_dict (profile_to_dict u) = Ok u.
Proof.
  destruct u as [uid nm prefs hist].
  unfold from_dict, profile_to_dict.
  cbn [json_index dict_index dict_get String.eqb Ascii.eqb Bool.eqb bind
       as_str user_id name preferences history].
  rewrite (as_dict_dump (as_dict as_pyvals)
             (dump_dict (fun vals => JArr (map json_of_pyval vals)))).
  - cbn [bind]. rewrite (as_dict_dump as_strs json_strs); [reflexivity|].
    intros l. apply mapM_as_str.
  - intros cats. apply as_dict_dump. intros l. apply mapM_as_pyval.
Qed.

(** X4: [from_dict] undoes [to_dict] of a profile: every profile, whatever
    its media types and categories, is read back as it was written, and so
    is every list of values in it. *)
Theorem profile_roundtrip u :
  from_dict (profile_to_dict u) = Ok u /\
  forall u', from_dict (profile_to_dict u) = Ok u' ->
    user_id u' = user_id u /\ name u' = name u /\
    (forall mt c, pref u' mt c = pref u mt c) /\
    (forall mt, history_list u' mt = history_list u mt).
Proof.
  split; [apply from_dict_profile_to_dict|].
  intros u' H. rewrite from_dict_profile_to_dict in H.
  injection H as <-. repeat split.
Qed.

(** ** How the score follows the profile and the item *)


(** ** The score after an edit of the profile *)

Local Open Scope float_scope.

Lemma count_in_nil xs : count_in [] xs = 0%nat.
Proof. unfold count_in. induction xs; simpl; auto. Qed.

(** The score reads of the history whether the id of the item is in it. *)
Lemma score_history_ext item u u' mt :
  preferences u' = preferences u ->
  match dict_get mt (history u'), dict_get mt (history u) with
  | Some seen', Some seen =>
      str_in (item_id (base item)) seen' = str_in (item_id (base item)) seen
  | None, None => True
  | _, _ => False
  end ->
  calculate_match_score item u' mt = calculate_match_score item u mt.
Proof.
  intros Hp Hh. unfold calculate_match_score.
  unfold pref, dict_index. rewrite Hp. fold (pref u).
  destruct (dict_get mt (history u')) as [seen'|],
           (dict_get mt (history u)) as [seen|]; try contradiction;
  repeat first
    [ match goal with
      | |- bind ?X _ = bind ?X _ => destruct X; cbn [bind]; try reflexivity
      end
    | rewrite (actor_loop_prefs u u') by exact Hp
    | rewrite (platform_loop_prefs u u') by exact Hp
    | rewrite bind_assoc
    | match goal with
      | |- bind (if ?c then _ else _) _ = _ => destruct c
      end ];
  cbn [bind]; rewrite ?Hh; reflexivity.
Qed.

(** X5: putting an item into the history lowers its score by 1.0, once:
    with the id not yet in the history, the score after [add_to_history] is
    the score before less 1.0, by one binary64 subtraction, a second
    [add_to_history] leaves it there, and an item with another id scores,
    or fails to score, as before.  The profile is readable for the kind;
    the item has a score to lower when its rating and its year are numbers
    the scorer can convert, and fails to score after as before
    otherwise. *)
Theorem add_to_history_lowers_score item u :
  profile_ok u (kind_of item) = true ->
  ~ In (item_id (base item)) (history_list u (kind_of item)) ->
  let u1 := add_to_history u (kind_of item) (item_id (base item)) in
  let u2 := add_to_history u1 (kind_of item) (item_id (base item)) in
  calculate_match_score item u1 (kind_of item) =
    (s <- calculate_match_score item u (kind_of item) ;; Ok (s - 1)) /\
  calculate_match_score item u2 (kind_of item)
    = calculate_match_score item u1 (kind_of item) /\
  (item_ok item = true ->
   exists s,
     calculate_match_score item u (kind_of item) = Ok s /\
     calculate_match_score item u1 (kind_of item) = Ok (s - 1) /\
     calculate_match_score item u2 (kind_of item) = Ok (s - 1)) /\
  forall other,
    item_id (base other) <> item_id (base item) ->
    calculate_match_score other u1 (kind_of item)
    = calculate_match_score other u (kind_of item).
Proof.
  intros Hok Hnew u1 u2.
  destruct (profile_ok_common _ _ Hok) as (ug & uy & seen & _ & _ & _ & Hh).
  assert (Hl : history_list u (kind_of item) = seen).
  { unfold history_list. now rewrite Hh. }
  rewrite Hl in Hnew.
  assert (Hout : str_in (item_id (base item)) seen = false).
  { destruct (str_in (item_id (base item)) seen) eqn:E; [|reflexivity].
    apply str_in_In in E. contradiction. }
  assert (Hh1 : dict_get (kind_of item) (history u1)
                = Some (seen ++ [item_id (base item)])).
  { unfold u1, add_to_history. rewrite Hh, Hout. cbn [history].
    apply dict_get_set_same. }
  assert (Hp1 : preferences u1 = preferences u)
    by apply add_to_history_preferences.
  assert (E1 : calculate_match_score item u1 (kind_of item) =
               (s <- calculate_match_score item u (kind_of item) ;;
                Ok (s - 1))).
  { exact (score_history_last item u1 u (kind_of item) _ seen
             (eq_sym Hp1) Hh1 Hh (str_in_snoc _ _) Hout). }
  assert (E2 : u2 = u1).
  { unfold u2, u1. now rewrite add_to_history_idem. }
  split; [exact E1|]. split; [now rewrite E2|]. split.
  { intros Hi. exists (stepwise_score item u).
    rewrite E2, E1, (score_steps _ _ Hok Hi). repeat split. }
  intros other Hid. apply score_history_ext; [exact Hp1|].
  rewrite Hh1, Hh. unfold str_in. rewrite existsb_app. simpl.
  apply String.eqb_neq in Hid. now rewrite Hid, !orb_false_r.
Qed.

Lemma add_to_history_lowers_score_witness :
  calculate_match_score (IMovie m3) john_seen "movie" =
    (s <- calculate_match_score (IMovie m3) john "movie" ;; Ok (s - 1)) /\
  calculate_match_score (IMovie m3)
    (add_to_history john_seen "movie" "m3") "movie"
    = calculate_match_score (IMovie m3) john_seen "movie" /\
  (item_ok (IMovie m3) = true ->
   exists s,
     calculate_match_score (IMovie m3) john "movie" = Ok s /\
     calculate_match_score (IMovie m3) john_seen "movie" = Ok (s - 1) /\
     calculate_match_score (IMovie m3)
       (add_to_history john_seen "movie" "m3") "movie" = Ok (s - 1)) /\
  forall other,
    item_id (base other) <> "m3" ->
    calculate_match_score other john_seen "movie"
    = calculate_match_score other john "movie".
Proof.
  apply (add_to_history_lowers_score (IMovie m3) john).
  - reflexivity.
  - simpl. tauto.
Defined.

Lemma count_in_snoc_str liked g xs :
  py_in (VStr g) liked = false ->
  count_in (liked ++ [VStr g]) xs
  = (count_in liked xs + occurrences g xs)%nat.
Proof.
  intros Hnew. unfold count_in, occurrences.
  induction xs as [|x xs IH]; [reflexivity|].
  cbn [filter]. unfold py_in at 1. rewrite existsb_app. cbn [existsb].
  fold (py_in (VStr x) liked). cbn [pyval_eqb]. rewrite orb_false_r.
  rewrite (String.eqb_sym x g).
  destruct (py_in (VStr x) liked) eqn:Ex; cbn [orb].
  - destruct (String.eqb g x) eqn:Eg.
    + apply String.eqb_eq in Eg. subst x. congruence.
    + cbn [List.length]. now rewrite IH.
  - destruct (String.eqb g x); cbn [List.length]; rewrite IH; lia.
Qed.

(** X6: a newly preferred genre is worth one more addition of 0.3 for every
    time an item lists it: after [add_preference] of a genre that was not
    preferred, the genre step of an item of that media type makes as many
    further binary64 additions of 0.3 as the genre occurs among the genres
    of the item, the other steps working as before; so an item without the
    genre keeps its score.  The profile is readable for the kind and the
    rating and the year of the item are numbers the scorer can convert. *)
Theorem add_genre_raises_score item u g :
  profile_ok u (kind_of item) = true ->
  item_ok item = true ->
  py_in (VStr g) (pref_list u (kind_of item) "genres") = false ->
  let k := count_in (pref_list u (kind_of item) "genres")
             (genre (base item)) in
  let later s :=
    history_step item u (kind_step item u (year_step item u s)) in
  let b := 0 + rating_float item / 10 in
  let u1 := add_preference u (kind_of item) "genres" (VStr g) in
  calculate_match_score item u (kind_of item)
    = Ok (later (add_times k 0.3 b)) /\
  calculate_match_score item u1 (kind_of item)
    = Ok (later (add_times (k + occurrences g (genre (base item))) 0.3 b)) /\
  (occurrences g (genre (base item)) = 0%nat ->
   calculate_match_score item u1 (kind_of item)
   = calculate_match_score item u (kind_of item)).
Proof.
  intros Hok Hi Hnew k later b u1.
  destruct (profile_ok_common _ _ Hok) as (ug & uy & seen & Hg & _ & _ & _).
  assert (Hpl : pref_list u (kind_of item) "genres" = ug).
  { unfold pref_list. now rewrite Hg. }
  rewrite Hpl in Hnew.
  pose proof (add_preference_set_pref _ _ _ (VStr g) _ Hg) as Eadd.
  rewrite Hnew in Eadd. fold u1 in Eadd.
  assert (Hok1 : profile_ok u1 (kind_of item) = true).
  { apply add_preference_ok; [exact Hok|discriminate]. }
  assert (E : calculate_match_score item u (kind_of item)
              = Ok (later (add_times k 0.3 b))).
  { now rewrite (score_steps _ _ Hok Hi). }
  assert (E1 : calculate_match_score item u1 (kind_of item)
               = Ok (later (add_times
                              (k + occurrences g (genre (base item)))
                              0.3 b))).
  { rewrite (score_steps _ _ Hok1 Hi). rewrite Eadd.
    unfold stepwise_score, history_step, year_step, genre_step, history_list.
    rewrite history_set_pref.
    rewrite (pref_list_set_pref_other u _ "genres" _ _ "years")
      by discriminate.
    assert (Ek : forall s,
               kind_step item (set_pref u (kind_of item) "genres"
                                 (ug ++ [VStr g])) s
               = kind_step item u s).
    { intros s. destruct item; cbn [kind_step kind_of];
        rewrite ?pref_list_set_pref_other by discriminate; reflexivity. }
    rewrite Ek.
    assert (Eg : pref_list (set_pref u (kind_of item) "genres"
                              (ug ++ [VStr g]))
                   (kind_of item) "genres" = ug ++ [VStr g]).
    { unfold pref_list.
      destruct (dict_get (kind_of item) (preferences u)) as [cats|] eqn:E0.
      - now rewrite (pref_set_pref_same _ _ _ _ _ E0).
      - unfold profile_ok in Hok. now rewrite E0 in Hok. }
    rewrite Eg, (count_in_snoc_str _ _ _ Hnew).
    unfold k. rewrite Hpl. reflexivity. }
  split; [exact E|]. split; [exact E1|].
  intros H0. rewrite E1, E, H0, Nat.add_0_r. reflexivity.
Qed.

Lemma add_genre_raises_score_witness :
  let k := count_in (pref_list john "movie" "genres")
             (genre (base (IMovie m3))) in
  let later s :=
    history_step (IMovie m3) john
      (kind_step (IMovie m3) john (year_step (IMovie m3) john s)) in
  let b := 0 + rating_float (IMovie m3) / 10 in
  let u1 := add_preference john "movie" "genres" (VStr "Drama") in
  calculate_match_score (IMovie m3) john "movie"
    = Ok (later (add_times k 0.3 b)) /\
  calculate_match_score (IMovie m3) u1 "movie"
    = Ok (later (add_times
                   (k + occurrences "Drama" (genre (base (IMovie m3))))
                   0.3 b)) /\
  (occurrences "Drama" (genre (base (IMovie m3))) = 0%nat ->
   calculate_match_score (IMovie m3) u1 "movie"
   = calculate_match_score (IMovie m3) john "movie").
Proof.
  apply (add_genre_raises_score (IMovie m3) john "Drama"); reflexivity.
Defined.

Lemma existsb_never {A : Type} (l : list A) :
  existsb (fun _ => false) l = false.
Proof. induction l; simpl; auto. Qed.

Lemma any_within5_nil y : any_within5 y [] = Ok false.
Proof. reflexivity. Qed.

Lemma new_profile_score_rating item uid nm :
  calculate_match_score item (new_profile uid nm) (kind_of item)
  = (r <- to_float (rating (base item)) ;; Ok (0 + r / 10)).
Proof.
  unfold calculate_match_score.
  destruct (to_float (rating (base item))) as [r| |]; [|reflexivity..].
  cbn [bind].
  destruct item as [m|m|b|g]; cbn [kind_of];
    change (pref (new_profile uid nm) _ _) with (Ok (@nil pyval));
    cbn [bind py_in existsb any_within5 String.eqb Ascii.eqb Bool.eqb
         get_director get_actors get_artist get_author get_developer
         get_platforms];
    change (dict_index (history (new_profile uid nm)) _)
      with (Ok (@nil string)); cbn [bind str_in existsb].
  - assert (E : forall l s, genre_loop [] l s = s)
      by (induction l; simpl; auto).
    rewrite E.
    assert (Ea : forall l s, actor_loop (new_profile uid nm) l s = Ok s).
    { induction l as [|x l IH]; intros s; [reflexivity|].
      cbn [actor_loop].
      change (pref (new_profile uid nm) _ _) with (Ok (@nil pyval)).
      cbn [bind py_in existsb]. apply IH. }
    now rewrite Ea.
  - assert (E : forall l s, genre_loop [] l s = s)
      by (induction l; simpl; auto).
    now rewrite E.
  - assert (E : forall l s, genre_loop [] l s = s)
      by (induction l; simpl; auto).
    now rewrite E.
  - assert (E : forall l s, genre_loop [] l s = s)
      by (induction l; simpl; auto).
    rewrite E.
    assert (Ea : forall l s, platform_loop (new_profile uid nm) l s = Ok s).
    { induction l as [|x l IH]; intros s; [reflexivity|].
      cbn [platform_loop].
      change (pref (new_profile uid nm) _ _) with (Ok (@nil pyval)).
      cbn [bind py_in existsb]. apply IH. }
    now rewrite Ea.
Qed.

Lemma firstn_In {A : Type} n (l : list A) x : In x (firstn n l) -> In x l.
Proof.
  intros H. rewrite <- (firstn_skipn n l). apply in_or_app. now left.
Qed.

Lemma StronglySorted_firstn {A : Type} (R : A -> A -> Prop) n l :
  StronglySorted R l -> StronglySorted R (firstn n l).
Proof.
  revert l. induction n as [|n IH]; intros l H; [constructor|].
  destruct l as [|x l]; [constructor|].
  inversion H as [|? ? Hs Hx]; subst. cbn [firstn]. constructor.
  - now apply IH.
  - rewrite Forall_forall in *. intros y Hy. apply Hx.
    now apply (firstn_In n).
Qed.

Lemma StronglySorted_map_fst (f : Item -> float) (l : list (Item * float)) :
  Forall (fun p => snd p = f (fst p)) l ->
  StronglySorted (desc snd) l ->
  StronglySorted (desc f) (map fst l).
Proof.
  intros Hf Hs. induction Hs as [|p l Hs IH Hp]; [constructor|].
  inversion Hf as [|? ? Hp0 Hf']; subst. cbn [map]. constructor.
  - now apply IH.
  - rewrite Forall_forall in *. intros y Hy. apply in_map_iff in Hy.
    destruct Hy as (q & <- & Hq). pose proof (Hp _ Hq) as Hle.
    pose proof (Hf' _ Hq) as Hq0. unfold desc in *.
    now rewrite Hp0, Hq0 in Hle.
Qed.

(** X7: against a profile fresh from the constructor, the score of an item
    is the tenth of its rating, no bonus and no penalty applying, and
    scoring raises only when the rating is an int too large to convert; so
    the recommendations for a new user, from a catalog whose ratings and
    years the scorer can convert, are items of the catalog in descending
    order of the tenth of their rating, as binary64 division gives it. *)
Theorem new_user_gets_best_rated d uid nm k count item :
  (0 <= count)%Z ->
  calculate_match_score item (new_profile uid nm) (kind_of item)
    = (r <- to_float (rating (base item)) ;; Ok (0 + r / 10)) /\
  (catalog_ok d k = true ->
   exists items,
     get_recommendations d (new_profile uid nm) (kind_name k) count
       = Ok (map to_dict items) /\
     StronglySorted (desc (fun i => 0 + rating_float i / 10)) items /\
     incl items (catalog d k)).
Proof.
  intros Hc. split; [apply new_profile_score_rating|]. intros Hcat.
  assert (Hok : profile_ok (new_profile uid nm) (kind_name k) = true)
    by now destruct k.
  destruct (get_recommendations_ranked d _ k Hok Hcat)
    as (scored & Es & Hm & Hf & Hn).
  rewrite (get_recommendations_unfold _ _ _ _ _ Es).
  rewrite slice_to_nonneg by exact Hc.
  exists (map fst (firstn (Z.to_nat count) (sort_desc snd scored))).
  split; [now rewrite map_map|].
  assert (Hr : Forall (fun p => snd p = 0 + rating_float (fst p) / 10)
                 (sort_desc snd scored)).
  { eapply Permutation_Forall; [symmetry; apply sort_desc_perm|].
    pose proof (catalog_kind d k) as Hk. rewrite <- Hm in Hk.
    unfold catalog_ok in Hcat. rewrite <- Hm in Hcat.
    rewrite forallb_forall in Hcat.
    rewrite Forall_forall in *. intros p Hp.
    assert (Hkp : kind_of (fst p) = kind_name k).
    { apply Hk. now apply in_map. }
    pose proof (new_profile_score_rating (fst p) uid nm) as Hs.
    destruct (item_ok_rating _ (Hcat _ (in_map fst _ _ Hp))) as (Hrf & _).
    rewrite Hkp, Hrf in Hs. cbn [bind] in Hs.
    rewrite (Hf _ Hp) in Hs. now injection Hs. }
  split.
  - rewrite <- firstn_map. apply StronglySorted_firstn.
    apply StronglySorted_map_fst; [exact Hr|now apply sort_desc_sorted].
  - intros x Hx. rewrite <- Hm. apply in_map_iff in Hx.
    destruct Hx as (p & <- & Hp). apply in_map.
    apply (Permutation_in _ (sort_desc_perm snd scored)).
    now apply (firstn_In (Z.to_nat count)).
Qed.

Lemma new_user_gets_best_rated_witness :
  calculate_match_score (IMovie m3) (new_profile "user_1" "John")
    (kind_of (IMovie m3))
    = (r <- to_float (rating (base (IMovie m3))) ;; Ok (0 + r / 10)) /\
  (catalog_ok new_db KMovie = true ->
   exists items,
     get_recommendations new_db (new_profile "user_1" "John") "movie" 3
       = Ok (map to_dict items) /\
     StronglySorted (desc (fun i => 0 + rating_float i / 10)) items /\
     incl items (catalog new_db KMovie)).
Proof.
  apply (new_user_gets_best_rated new_db "user_1" "John" KMovie 3
           (IMovie m3)).
  lia.
Defined.

Local Close Scope float_scope.

(** ** Where scoring raises *)

Lemma profile_ok_recognized u mt : profile_ok u mt = true -> recognized mt = true.
Proof.
  unfold profile_ok, recognized, str_in. cbn [existsb].
  destruct (dict_get mt (preferences u)); [|discriminate].
  destruct (dict_get mt (history u)); [|discriminate].
  intros H. apply andb_true_iff in H. destruct H as [_ H].
  destruct (String.eqb mt "movie"); [reflexivity|].
  destruct (String.eqb mt "music"); [reflexivity|].
  destruct (String.eqb mt "book"); [reflexivity|].
  destruct (String.eqb mt "game"); [reflexivity|discriminate].
Qed.

Lemma float_of_int_cases z :
  (exists f, float_of_int z = Ok f) \/ float_of_int z = Raise OverflowError.
Proof.
  unfold float_of_int.
  destruct (binary_normalize prec emax z 0 false); eauto.
Qed.

Lemma to_float_cases n :
  (exists r, to_float n = Ok r) \/ to_float n = Raise OverflowError.
Proof. destruct n; simpl; [apply float_of_int_cases|eauto]. Qed.

Lemma within5_cases y v :
  is_num v = true ->
  within5 y v = Ok (nearb y v) \/ within5 y v = Raise OverflowError.
Proof.
  unfold nearb. destruct v; simpl; try discriminate; auto.
  destruct (float_of_int_cases y) as [(yf & ->)| ->]; auto.
Qed.

Lemma any_within5_cases y ys :
  forallb is_num ys = true ->
  (exists b, any_within5 y ys = Ok b) \/
  any_within5 y ys = Raise OverflowError.
Proof.
  induction ys as [|v vs IH]; simpl; intros H; [eauto|].
  apply andb_true_iff in H. destruct H as [Hv Hvs].
  destruct (within5_cases y v Hv) as [-> | ->]; [|auto].
  cbn [bind]. destruct (nearb y v); eauto.
Qed.

(** X9: an item scored under a media type that is not its own raises,
    whatever the readable profile: the lookups of genres and years succeed
    and the attribute of the other class is missing, which is an
    [AttributeError], unless the rating or the year of the item is too
    large to convert, which is an [OverflowError] before that. *)
Theorem score_of_other_kind_raises item u mt :
  profile_ok u mt = true ->
  kind_of item <> mt ->
  (calculate_match_score item u mt = Raise AttributeError \/
   calculate_match_score item u mt = Raise OverflowError) /\
  (item_ok item = true ->
   calculate_match_score item u mt = Raise AttributeError).
Proof.
  intros Hok Hk.
  destruct (profile_ok_common _ _ Hok) as (ug & uy & seen & Hg & Hy & Hn & Hh).
  pose proof (profile_ok_recognized _ _ Hok) as Hr.
  assert (Hkind : forall (s : float) k,
    (s1 <-
       (if String.eqb mt "movie" then
          d <- get_director item ;;
          directors <- pref u "movie" "directors" ;;
          let score := if py_in (VStr d) directors
                       then (s + 0.2)%float else s in
          acts <- get_actors item ;;
          actor_loop u acts score
        else if String.eqb mt "music" then
          a <- get_artist item ;;
          artists <- pref u "music" "artists" ;;
          Ok (if py_in (VStr a) artists then (s + 0.4)%float else s)
        else if String.eqb mt "book" then
          a <- get_author item ;;
          authors <- pref u "book" "authors" ;;
          Ok (if py_in (VStr a) authors then (s + 0.4)%float else s)
        else if String.eqb mt "game" then
          d <- get_developer item ;;
          developers <- pref u "game" "developers" ;;
          let score := if py_in (VStr d) developers
                       then (s + 0.2)%float else s in
          ps <- get_platforms item ;;
          platform_loop u ps score
        else Ok s) ;;
     k s1) = (Raise AttributeError : res float)).
  { intros s k. unfold recognized, str_in in Hr. cbn [existsb] in Hr.
    destruct (String.eqb mt "movie") eqn:E1.
    { apply String.eqb_eq in E1. subst mt.
      destruct item; try (now destruct Hk); reflexivity. }
    destruct (String.eqb mt "music") eqn:E2.
    { apply String.eqb_eq in E2. subst mt.
      destruct item; try (now destruct Hk); reflexivity. }
    destruct (String.eqb mt "book") eqn:E3.
    { apply String.eqb_eq in E3. subst mt.
      destruct item; try (now destruct Hk); reflexivity. }
    destruct (String.eqb mt "game") eqn:E4.
    { apply String.eqb_eq in E4. subst mt.
      destruct item; try (now destruct Hk); reflexivity. }
    discriminate Hr. }
  split.
  - unfold calculate_match_score.
    destruct (to_float_cases (rating (base item))) as [(r & ->)| ->];
      [|now right].
    rewrite Hg, Hy. cbn [bind].
    destruct (py_in (VInt (year (base item))) uy).
    + cbn [bind]. left. apply Hkind.
    + destruct (any_within5_cases (year (base item)) uy Hn)
        as [(b0 & ->)| ->]; [|now right].
      cbn [bind]. left. destruct b0; cbn [bind]; apply Hkind.
  - intros Hi. destruct (item_ok_rating _ Hi) as (Hr0 & _ & Hc).
    unfold calculate_match_score. rewrite Hr0, Hg, Hy. cbn [bind].
    rewrite (any_within5_num _ _ Hc Hn). cbn [bind].
    destruct (py_in _ uy); [|destruct (existsb _ uy)]; cbn [bind];
      apply Hkind.
Qed.

Lemma score_of_other_kind_raises_witness :
  (calculate_match_score (IGame g2) john "movie" = Raise AttributeError \/
   calculate_match_score (IGame g2) john "movie" = Raise OverflowError) /\
  (item_ok (IGame g2) = true ->
   calculate_match_score (IGame g2) john "movie" = Raise AttributeError).
Proof.
  apply (score_of_other_kind_raises (IGame g2) john "movie").
  - reflexivity.
  - discriminate.
Defined.

Lemma any_within5_app y pre post :
  converts y = true ->
  forallb is_num pre = true ->
  existsb (nearb y) pre = false ->
  any_within5 y (pre ++ post) = any_within5 y post.
Proof.
  intros Hc. induction pre as [|v pre IH]; simpl; intros Hn He;
    [reflexivity|].
  apply andb_true_iff in Hn. destruct Hn as [Hv Hn].
  apply orb_false_iff in He. destruct He as [Hev He].
  rewrite (within5_num _ _ Hc Hv), Hev. simpl. now apply IH.
Qed.

Lemma any_within5_app_cases y pre post :
  forallb is_num pre = true ->
  existsb (nearb y) pre = false ->
  any_within5 y (pre ++ post) = any_within5 y post \/
  any_within5 y (pre ++ post) = Raise OverflowError.
Proof.
  induction pre as [|v pre IH]; simpl; intros Hn He; [now left|].
  apply andb_true_iff in Hn. destruct Hn as [Hv Hn].
  apply orb_false_iff in He. destruct He as [Hev He].
  destruct (within5_cases y v Hv) as [-> | ->]; [|now right].
  rewrite Hev. cbn [bind]. now apply IH.
Qed.

(** X10: a string among the preferred years raises [TypeError] as soon as
    the scan for a near year reaches it: that is when the year of the item
    is not in the list and no year in front of the string is within five
    years.  A string behind a near year, or beside the exact year, is never
    looked at.  Only a rating or a year of the item too large to convert
    raises something else, an [OverflowError], before that. *)
Theorem string_year_raises item u mt ug pre s post :
  pref u mt "genres" = Ok ug ->
  pref u mt "years" = Ok (pre ++ VStr s :: post) ->
  py_in (VInt (year (base item))) (pre ++ VStr s :: post) = false ->
  forallb is_num pre = true ->
  existsb (nearb (year (base item))) pre = false ->
  (calculate_match_score item u mt = Raise TypeError \/
   calculate_match_score item u mt = Raise OverflowError) /\
  (item_ok item = true ->
   calculate_match_score item u mt = Raise TypeError).
Proof.
  intros Hg Hy Hin Hn He. split.
  - unfold calculate_match_score.
    destruct (to_float_cases (rating (base item))) as [(r & ->)| ->];
      [|now right].
    rewrite Hg, Hy. cbn [bind]. rewrite Hin.
    destruct (any_within5_app_cases _ _ (VStr s :: post) Hn He) as [-> | ->];
      [now left|now right].
  - intros Hi. unfold calculate_match_score.
    destruct (item_ok_rating _ Hi) as (Hr0 & _ & Hc).
    rewrite Hr0, Hg, Hy. cbn [bind]. rewrite Hin.
    now rewrite (any_within5_app _ _ _ Hc Hn He).
Qed.

Lemma string_year_raises_witness :
  (calculate_match_score (IMovie m3) john_str_year "movie" = Raise TypeError \/
   calculate_match_score (IMovie m3) john_str_year "movie"
     = Raise OverflowError) /\
  (item_ok (IMovie m3) = true ->
   calculate_match_score (IMovie m3) john_str_year "movie"
     = Raise TypeError).
Proof.
  apply (string_year_raises (IMovie m3) john_str_year "movie"
           [VStr "Sci-Fi"; VStr "Action"] [VInt 1990] "2010" []);
    reflexivity.
Defined.

(** ** Media types the engine does not know *)

Lemma all_items_unrecognized d mt : recognized mt = false -> all_items d mt = [].
Proof.
  unfold recognized, str_in, all_items. cbn [existsb].
  intros H. repeat (apply orb_false_iff in H; destruct H as [? H]).
  repeat match goal with E : String.eqb _ _ = false |- _ =>
    rewrite E; clear E end.
  reflexivity.
Qed.

(** X11: for a media type other than the four, the engine scores nothing
    and returns the empty list, for recommendations and for trending alike,
    whatever the profile, which is not even read, and whatever the count. *)
Theorem unrecognized_kind_is_empty d u mt count current_year :
  recognized mt = false ->
  get_recommendations d u mt count = Ok [] /\
  get_trending d mt count current_year = Ok [].
Proof.
  intros H. unfold get_recommendations, get_trending.
  rewrite (all_items_unrecognized _ _ H). cbn.
  unfold slice_to. now rewrite !firstn_nil.
Qed.

Lemma unrecognized_kind_is_empty_witness :
  get_recommendations new_db (mkUser "" "" [] []) "podcast" 3 = Ok [] /\
  get_trending new_db "podcast" 3 2025 = Ok [].
Proof.
  apply (unrecognized_kind_is_empty new_db (mkUser "" "" [] []) "podcast"
           3 2025).
  reflexivity.
Defined.

(** ** Trending *)

Lemma trending_scored cy items :
  forallb (trend_ok cy) items = true ->
  exists scored,
    mapM (fun item => s <- trending_score cy item ;; Ok (item, s)) items
      = Ok scored /\
    map fst scored = items /\
    Forall (fun p => trending_score cy (fst p) = Ok (snd p)) scored /\
    no_nan snd scored.
Proof.
  induction items as [|i items IH]; intros H.
  - exists []. repeat split; constructor.
  - simpl in H. apply andb_true_iff in H. destruct H as [Hi H].
    destruct (IH H) as (scored & Es & Hm & Hf & Hn).
    unfold trend_ok in Hi.
    destruct (trending_score cy i) as [s| |] eqn:E; try discriminate.
    exists ((i, s) :: scored). cbn [mapM]. rewrite E. cbn [bind].
    rewrite Es. cbn [bind].
    split; [reflexivity|]. split; [simpl; now f_equal|].
    split; constructor; try assumption.
    simpl. now apply negb_true_iff in Hi.
Qed.

(** X12: [get_trending] ranks the items of a kind by their age in years
    times 0.1 plus their rating, computed in binary64 with the age
    converted to float: for a catalog whose items of the kind get a number
    for that score, the list is sorted in descending order of the score,
    items with equal scores staying in catalog order, and no other list is
    sorted that way; for a count that is not negative the result is made of
    the first [count] items, all of them when there are fewer.  No profile
    is read. *)
Theorem get_trending_ranked d k count cy :
  forallb (trend_ok cy) (catalog d k) = true ->
  exists scored ranked,
    map fst scored = catalog d k /\
    Forall (fun p =>
              exists age r,
                float_of_int (cy - year (base (fst p))) = Ok age /\
                to_float (rating (base (fst p))) = Ok r /\
                snd p = (age * 0.1 + r)%float) scored /\
    Permutation ranked scored /\
    StronglySorted (desc snd) ranked /\
    (forall v, filter (fun p => snd p =? v)%float ranked =
               filter (fun p => snd p =? v)%float scored) /\
    (forall l, no_nan snd l -> StronglySorted (desc snd) l ->
               (forall v, filter (fun p => snd p =? v)%float l =
                          filter (fun p => snd p =? v)%float scored) ->
               l = ranked) /\
    get_trending d (kind_name k) count cy =
      Ok (map (fun p => to_dict (fst p)) (slice_to ranked count)) /\
    (0 <= count ->
     get_trending d (kind_name k) count cy =
       Ok (map (fun p => to_dict (fst p)) (firstn (Z.to_nat count) ranked)) /\
     List.length (firstn (Z.to_nat count) ranked) =
       Nat.min (Z.to_nat count) (List.length (catalog d k))).
Proof.
  intros Hall.
  destruct (trending_scored cy _ Hall) as (scored & Es & Hm & Hf & Hn).
  assert (Hnr : no_nan snd (sort_desc snd scored)).
  { apply (no_nan_perm snd scored); [|exact Hn].
    symmetry. apply sort_desc_perm. }
  assert (Eg : forall c, get_trending d (kind_name k) c cy =
                 Ok (map (fun p => to_dict (fst p))
                       (slice_to (sort_desc snd scored) c))).
  { intros c. unfold get_trending. rewrite all_items_catalog, Es.
    reflexivity. }
  exists scored, (sort_desc snd scored).
  split; [exact Hm|]. split.
  { eapply Forall_impl; [|exact Hf]. intros [i s]. cbn [fst snd].
    unfold trending_score.
    destruct (float_of_int (cy - year (base i))) as [age| |];
      try discriminate. cbn [bind].
    destruct (to_float (rating (base i))) as [r| |]; try discriminate.
    cbn [bind]. intros [= <-]. now exists age, r. }
  split; [apply sort_desc_perm|].
  split; [now apply sort_desc_sorted|].
  split; [intros v; apply sort_desc_stable|].
  split.
  { intros l Hl Hs Hv. apply (stable_sorted_unique snd); try assumption.
    - now apply sort_desc_sorted.
    - intros v. now rewrite Hv, sort_desc_stable. }
  split; [apply Eg|].
  intros H0. split.
  - rewrite Eg. now rewrite slice_to_nonneg.
  - rewrite length_firstn, sort_desc_length, <- Hm, length_map.
    reflexivity.
Qed.

Lemma get_trending_ranked_witness :
  exists scored ranked,
    map fst scored = catalog new_db KMovie /\
    Forall (fun p =>
              exists age r,
                float_of_int (2025 - year (base (fst p))) = Ok age /\
                to_float (rating (base (fst p))) = Ok r /\
                snd p = (age * 0.1 + r)%float) scored /\
    Permutation ranked scored /\
    StronglySorted (desc snd) ranked /\
    (forall v, filter (fun p => snd p =? v)%float ranked =
               filter (fun p => snd p =? v)%float scored) /\
    (forall l, no_nan snd l -> StronglySorted (desc snd) l ->
               (forall v, filter (fun p => snd p =? v)%float l =
                          filter (fun p => snd p =? v)%float scored) ->
               l = ranked) /\
    get_trending new_db "movie" 3 2025 =
      Ok (map (fun p => to_dict (fst p)) (slice_to ranked 3)) /\
    (0 <= 3 ->
     get_trending new_db "movie" 3 2025 =
       Ok (map (fun p => to_dict (fst p)) (firstn (Z.to_nat 3) ranked)) /\
     List.length (firstn (Z.to_nat 3) ranked) =
       Nat.min (Z.to_nat 3) (List.length (catalog new_db KMovie))).
Proof.
  apply (get_trending_ranked new_db KMovie 3 2025). reflexivity.
Defined.

(** X13: the trending list depends on the year it is asked in.  Of two
    movies a year and a tenth of a rating point apart, the younger one
    comes first in 2025, when its score is one unit in the last place above
    the other's, and second in 2026, when the two scores are equal and the
    catalog order decides. *)
Theorem get_trending_depends_on_year :
  get_movies two_films = [film_1990; film_1991] /\
  get_trending two_films "movie" 2 2025
    = Ok [movie_to_dict film_1991; movie_to_dict film_1990] /\
  get_trending two_films "movie" 2 2026
    = Ok [movie_to_dict film_1990; movie_to_dict film_1991] /\
  trending_score 2025 (IMovie film_1990) = Ok 10.6%float /\
  trending_score 2025 (IMovie film_1991) = Ok 10.600000000000001%float /\
  trending_score 2026 (IMovie film_1990) = Ok 10.7%float /\
  trending_score 2026 (IMovie film_1991) = Ok 10.7%float.
Proof. repeat split; vm_compute; reflexivity. Qed.
(** ** The dicts the facade returns *)

Lemma get_recommendations_total d u k count :
  profile_ok u (kind_name k) = true ->
  catalog_ok d k = true ->
  exists r, get_recommendations d u (kind_name k) count = Ok r.
Proof.
  intros Hok Hc.
  destruct (get_recommendations_ranked d u k Hok Hc) as (scored & Es & _).
  eexists. apply (get_recommendations_unfold _ _ _ _ _ Es).
Qed.

Lemma recognized_kind mt :
  recognized mt = true -> exists k, mt = kind_name k.
Proof.
  unfold recognized, str_in. cbn [existsb]. intros H.
  repeat (apply orb_true_iff in H; destruct H as [H|H]);
    try discriminate; apply String.eqb_eq in H; subst mt;
    [now exists KMovie|now exists KMusic|now exists KBook|now exists KGame].
Qed.

Lemma db_ok_catalog d k : db_ok d = true -> catalog_ok d k = true.
Proof.
  unfold db_ok. intros H.
  apply andb_true_iff in H. destruct H as [H H4].
  apply andb_true_iff in H. destruct H as [H H3].
  apply andb_true_iff in H. destruct H as [H1 H2].
  now destruct k.
Qed.

Lemma profile_ready_kind u k :
  profile_ready u = true -> profile_ok u (kind_name k) = true.
Proof.
  unfold profile_ready. intros H.
  apply andb_true_iff in H. destruct H as [H H4].
  apply andb_true_iff in H. destruct H as [H H3].
  apply andb_true_iff in H. destruct H as [H1 H2].
  now destruct k.
Qed.

Lemma recognized_cases mt :
  recognized mt = true ->
  mt = "movie" \/ mt = "music" \/ mt = "book" \/ mt = "game".
Proof.
  unfold recognized, str_in. cbn [existsb]. intros H.
  repeat (apply orb_true_iff in H; destruct H as [H|H]);
    try discriminate; apply String.eqb_eq in H; tauto.
Qed.

(** X14: the keys of the facade's answer depend on how it is asked.  With a
    current user, asking for all media types, with no media type or with
    the empty string, gives the four groups [movies], [music], [books],
    [games] in that order; asking for one of the four media types gives one
    group under the name of the media type itself ([movie], not [movies]);
    any other media type gives the empty dict, not an error.  Each group is
    the list the engine returns, and what the engine raises the facade
    raises; the engine returns every list when the profile is readable and
    the ratings and years of the catalog are numbers the scorer can
    convert. *)
Theorem facade_recommendation_keys a k u count :
  current_user a = Some k ->
  k <> "" ->
  dict_get k (users a) = Some u ->
  Agent.get_recommendations a None count =
    (r1 <- get_recommendations (db a) u "movie" count ;;
     r2 <- get_recommendations (db a) u "music" count ;;
     r3 <- get_recommendations (db a) u "book" count ;;
     r4 <- get_recommendations (db a) u "game" count ;;
     Ok [("movies", JArr r1); ("music", JArr r2);
         ("books", JArr r3); ("games", JArr r4)]) /\
  Agent.get_recommendations a (Some "") count =
    Agent.get_recommendations a None count /\
  (forall mt, recognized mt = true ->
     Agent.get_recommendations a (Some mt) count
     = (r <- get_recommendations (db a) u mt count ;; Ok [(mt, JArr r)])) /\
  (forall mt, mt <> "" -> recognized mt = false ->
     Agent.get_recommendations a (Some mt) count = Ok []) /\
  (profile_ready u = true -> db_ok (db a) = true ->
   (exists r1 r2 r3 r4,
      get_recommendations (db a) u "movie" count = Ok r1 /\
      get_recommendations (db a) u "music" count = Ok r2 /\
      get_recommendations (db a) u "book" count = Ok r3 /\
      get_recommendations (db a) u "game" count = Ok r4 /\
      Agent.get_recommendations a None count =
        Ok [("movies", JArr r1); ("music", JArr r2);
            ("books", JArr r3); ("games", JArr r4)]) /\
   (forall mt, recognized mt = true ->
      exists r, get_recommendations (db a) u mt count = Ok r /\
                Agent.get_recommendations a (Some mt) count
                = Ok [(mt, JArr r)])).
Proof.
  intros Hc Hk Hu.
  assert (Hno : Agent.no_user a = false).
  { unfold Agent.no_user. rewrite Hc. now apply String.eqb_neq. }
  assert (Hkey : dict_index (users a) (Agent.current_key a) = Ok u).
  { unfold dict_index, Agent.current_key. now rewrite Hc, Hu. }
  assert (E0 : Agent.get_recommendations a None count =
    (r1 <- get_recommendations (db a) u "movie" count ;;
     r2 <- get_recommendations (db a) u "music" count ;;
     r3 <- get_recommendations (db a) u "book" count ;;
     r4 <- get_recommendations (db a) u "game" count ;;
     Ok [("movies", JArr r1); ("music", JArr r2);
         ("books", JArr r3); ("games", JArr r4)])).
  { unfold Agent.get_recommendations. rewrite Hno, Hkey. reflexivity. }
  assert (E1 : forall mt, recognized mt = true ->
     Agent.get_recommendations a (Some mt) count
     = (r <- get_recommendations (db a) u mt count ;; Ok [(mt, JArr r)])).
  { intros mt Hrec.
    unfold Agent.get_recommendations. rewrite Hno, Hkey. cbn [bind].
    assert (Ht : Agent.truthy (Some mt) = true).
    { destruct (recognized_kind _ Hrec) as (k0 & ->). now destruct k0. }
    rewrite Ht. unfold recognized in Hrec. now rewrite Hrec. }
  split; [exact E0|]. split.
  { unfold Agent.get_recommendations. rewrite Hno, Hkey. reflexivity. }
  split; [exact E1|]. split.
  { intros mt Hne Hrec.
    unfold Agent.get_recommendations. rewrite Hno, Hkey. cbn [bind].
    assert (Ht : Agent.truthy (Some mt) = true).
    { unfold Agent.truthy. apply String.eqb_neq in Hne. now rewrite Hne. }
    rewrite Ht. unfold recognized in Hrec. now rewrite Hrec. }
  intros Hr Hdb.
  assert (Htot : forall k0, exists r,
             get_recommendations (db a) u (kind_name k0) count = Ok r).
  { intros k0. apply get_recommendations_total;
      [now apply profile_ready_kind|now apply db_ok_catalog]. }
  split.
  - destruct (Htot KMovie) as (r1 & R1). destruct (Htot KMusic) as (r2 & R2).
    destruct (Htot KBook) as (r3 & R3). destruct (Htot KGame) as (r4 & R4).
    cbn [kind_name] in *.
    exists r1, r2, r3, r4. repeat (split; [assumption|]).
    now rewrite E0, R1, R2, R3, R4.
  - intros mt Hrec. rewrite (E1 _ Hrec).
    destruct (recognized_kind _ Hrec) as (k0 & ->).
    destruct (Htot k0) as (r & R). exists r. now rewrite R.
Qed.

Lemma facade_recommendation_keys_witness :
  Agent.get_recommendations two_users None 3 =
    (r1 <- get_recommendations (db two_users) (new_profile "user_2" "Ann")
             "movie" 3 ;;
     r2 <- get_recommendations (db two_users) (new_profile "user_2" "Ann")
             "music" 3 ;;
     r3 <- get_recommendations (db two_users) (new_profile "user_2" "Ann")
             "book" 3 ;;
     r4 <- get_recommendations (db two_users) (new_profile "user_2" "Ann")
             "game" 3 ;;
     Ok [("movies", JArr r1); ("music", JArr r2);
         ("books", JArr r3); ("games", JArr r4)]) /\
  Agent.get_recommendations two_users (Some "") 3 =
    Agent.get_recommendations two_users None 3 /\
  (forall mt, recognized mt = true ->
     Agent.get_recommendations two_users (Some mt) 3
     = (r <- get_recommendations (db two_users)
               (new_profile "user_2" "Ann") mt 3 ;;
        Ok [(mt, JArr r)])) /\
  (forall mt, mt <> "" -> recognized mt = false ->
     Agent.get_recommendations two_users (Some mt) 3 = Ok []) /\
  (profile_ready (new_profile "user_2" "Ann") = true ->
   db_ok (db two_users) = true ->
   (exists r1 r2 r3 r4,
      get_recommendations (db two_users) (new_profile "user_2" "Ann")
        "movie" 3 = Ok r1 /\
      get_recommendations (db two_users) (new_profile "user_2" "Ann")
        "music" 3 = Ok r2 /\
      get_recommendations (db two_users) (new_profile "user_2" "Ann")
        "book" 3 = Ok r3 /\
      get_recommendations (db two_users) (new_profile "user_2" "Ann")
        "game" 3 = Ok r4 /\
      Agent.get_recommendations two_users None 3 =
        Ok [("movies", JArr r1); ("music", JArr r2);
            ("books", JArr r3); ("games", JArr r4)]) /\
   (forall mt, recognized mt = true ->
      exists r, get_recommendations (db two_users)
                  (new_profile "user_2" "Ann") mt 3 = Ok r /\
                Agent.get_recommendations two_users (Some mt) 3
                = Ok [(mt, JArr r)])).
Proof.
  apply (facade_recommendation_keys two_users "user_2"
           (new_profile "user_2" "Ann") 3).
  - reflexivity.
  - discriminate.
  - reflexivity.
Defined.

(** X15: [get_trending] of the facade needs no user and follows the same
    naming: the four groups [movies], [music], [books], [games] for no media
    type or the empty string, one group under the media type's own name for
    one of the four, and the empty dict for anything else.  The groups are
    the lists the engine returns, computed in that order, and what the
    engine raises the facade raises. *)
Theorem facade_trending_keys a count cy :
  Agent.get_trending a None count cy =
    (r1 <- get_trending (db a) "movie" count cy ;;
     r2 <- get_trending (db a) "music" count cy ;;
     r3 <- get_trending (db a) "book" count cy ;;
     r4 <- get_trending (db a) "game" count cy ;;
     Ok [ ("movies", JArr r1); ("music", JArr r2);
          ("books", JArr r3); ("games", JArr r4) ]) /\
  Agent.get_trending a (Some "") count cy = Agent.get_trending a None count cy /\
  (forall mt, recognized mt = true ->
     Agent.get_trending a (Some mt) count cy
     = (r <- get_trending (db a) mt count cy ;; Ok [(mt, JArr r)])) /\
  (forall mt, mt <> "" -> recognized mt = false ->
     Agent.get_trending a (Some mt) count cy = Ok []).
Proof.
  split; [reflexivity|]. split; [reflexivity|]. split.
  - intros mt Hrec. unfold Agent.get_trending.
    assert (Ht : Agent.truthy (Some mt) = true).
    { destruct (recognized_kind _ Hrec) as (k & ->). now destruct k. }
    rewrite Ht. unfold recognized in Hrec. now rewrite Hrec.
  - intros mt Hne Hrec. unfold Agent.get_trending.
    assert (Ht : Agent.truthy (Some mt) = true).
    { unfold Agent.truthy. apply String.eqb_neq in Hne. now rewrite Hne. }
    rewrite Ht. unfold recognized in Hrec. now rewrite Hrec.
Qed.

(** ** Searching at the edges *)

Lemma contains_empty s : contains "" s = true.
Proof. now destruct s. Qed.

Lemma filter_all {T : Type} (p : T -> bool) l :
  (forall x, p x = true) -> filter p l = l.
Proof.
  intros H. induction l as [|x l IH]; simpl; [reflexivity|].
  now rewrite H, IH.
Qed.

(** X16: the empty query matches every item: each kind that is searched and
    has items comes back whole, in catalog order. *)
Theorem search_empty_query a media_type :
  let r := Agent.search a "" media_type in
  dict_get "movies" r =
    group_of (wants media_type "movie")
      (map movie_to_dict (get_movies (db a))) /\
  dict_get "music" r =
    group_of (wants media_type "music")
      (map music_to_dict (get_music (db a))) /\
  dict_get "books" r =
    group_of (wants media_type "book")
      (map book_to_dict (get_books (db a))) /\
  dict_get "games" r =
    group_of (wants media_type "game")
      (map game_to_dict (get_games (db a))).
Proof.
  destruct (search_get a "" media_type) as (H1 & H2 & H3 & H4 & _).
  cbv zeta in *.
  assert (Hall : forall e, matches_query (lower "") e = true).
  { intros e. unfold matches_query. simpl lower.
    now rewrite contains_empty. }
  rewrite filter_all in H1 by (intros; apply Hall).
  rewrite filter_all in H2 by (intros; apply Hall).
  rewrite filter_all in H3 by (intros; apply Hall).
  rewrite filter_all in H4 by (intros; apply Hall).
  tauto.
Qed.

(** X17: a search restricted to a media type other than the four finds
    nothing, whatever the query; the empty string is such a media type
    here, unlike in [get_recommendations] where it stands for all. *)
Theorem search_unrecognized_kind a query mt :
  recognized mt = false -> Agent.search a query (Some mt) = [].
Proof.
  unfold recognized, str_in. cbn [existsb]. intros H.
  repeat (apply orb_false_iff in H; destruct H as [? H]).
  unfold Agent.search, wants.
  repeat match goal with E : String.eqb _ _ = false |- _ =>
    rewrite E; clear E end.
  reflexivity.
Qed.

Lemma search_unrecognized_kind_witness :
  Agent.search new_agent "action" (Some "") = [].
Proof.
  apply (search_unrecognized_kind new_agent "action" ""). reflexivity.
Defined.

(** ** Adding to the catalog and looking up *)

Lemma dict_set_values {V : Type} k (v : V) d :
  dict_get k (dict_set k v d) = Some v /\
  (forall k', k' <> k -> dict_get k' (dict_set k v d) = dict_get k' d) /\
  (In k (dict_keys d) -> dict_keys (dict_set k v d) = dict_keys d) /\
  (~ In k (dict_keys d) -> dict_values (dict_set k v d) = dict_values d ++ [v]).
Proof.
  split; [apply dict_get_set_same|].
  split; [intros k' H; apply dict_get_set_other; congruence|].
  split; [apply dict_set_keys_present|].
  intros H. rewrite (dict_set_fresh _ _ _ H). unfold dict_values.
  now rewrite map_app.
Qed.

(** X18: an item added to the catalog is found under its id, whatever was
    stored there before (the last write wins); the lookups of the other ids
    and the other three collections are as before.  An id the collection
    already has keeps its place in the iteration order, a new id goes to the
    end.  This holds for each of the four kinds. *)
Theorem add_then_get d :
  (forall m, let k := item_id (movie_base m) in
     get_movie_by_id (add_movie d m) k = Some m /\
     (forall k', k' <> k ->
        get_movie_by_id (add_movie d m) k' = get_movie_by_id d k') /\
     (In k (dict_keys (movies d)) ->
        dict_keys (movies (add_movie d m)) = dict_keys (movies d)) /\
     (~ In k (dict_keys (movies d)) ->
        get_movies (add_movie d m) = get_movies d ++ [m]) /\
     music (add_movie d m) = music d /\ books (add_movie d m) = books d /\
     games (add_movie d m) = games d) /\
  (forall m, let k := item_id (music_base m) in
     get_music_by_id (add_music d m) k = Some m /\
     (forall k', k' <> k ->
        get_music_by_id (add_music d m) k' = get_music_by_id d k') /\
     (In k (dict_keys (music d)) ->
        dict_keys (music (add_music d m)) = dict_keys (music d)) /\
     (~ In k (dict_keys (music d)) ->
        get_music (add_music d m) = get_music d ++ [m]) /\
     movies (add_music d m) = movies d /\ books (add_music d m) = books d /\
     games (add_music d m) = games d) /\
  (forall b, let k := item_id (book_base b) in
     get_book_by_id (add_book d b) k = Some b /\
     (forall k', k' <> k ->
        get_book_by_id (add_book d b) k' = get_book_by_id d k') /\
     (In k (dict_keys (books d)) ->
        dict_keys (books (add_book d b)) = dict_keys (books d)) /\
     (~ In k (dict_keys (books d)) ->
        get_books (add_book d b) = get_books d ++ [b]) /\
     movies (add_book d b) = movies d /\ music (add_book d b) = music d /\
     games (add_book d b) = games d) /\
  (forall g, let k := item_id (game_base g) in
     get_game_by_id (add_game d g) k = Some g /\
     (forall k', k' <> k ->
        get_game_by_id (add_game d g) k' = get_game_by_id d k') /\
     (In k (dict_keys (games d)) ->
        dict_keys (games (add_game d g)) = dict_keys (games d)) /\
     (~ In k (dict_keys (games d)) ->
        get_games (add_game d g) = get_games d ++ [g]) /\
     movies (add_game d g) = movies d /\ music (add_game d g) = music d /\
     books (add_game d g) = books d).
Proof.
  repeat split; try reflexivity; apply dict_set_values.
Qed.

(** ** Loading a database file *)

Lemma load_entries_wf {T : Type} (of_json : json -> res T) add entries d :
  (forall d x, db_wf d -> db_wf (add d x)) ->
  db_wf d -> db_wf (fst (load_entries of_json add entries d)).
Proof.
  intros Hadd. revert d. induction entries as [|[k v] rest IH]; intros d Hd.
  - exact Hd.
  - cbn [load_entries]. unfold lbind, lift, modify.
    destruct (of_json v) as [x| |]; cbn [fst]; [|exact Hd|exact Hd].
    apply IH. now apply Hadd.
Qed.

Lemma load_section_wf {T : Type} data k (of_json : json -> res T) add d :
  (forall d x, db_wf d -> db_wf (add d x)) ->
  db_wf d -> db_wf (fst (load_section data k of_json add d)).
Proof.
  intros Hadd Hd. unfold load_section, lbind, lift.
  destruct (json_section data k) as [entries| |]; cbn [fst];
    [|exact Hd|exact Hd].
  now apply load_entries_wf.
Qed.

Lemma lbind_wf {A B : Type} (m : loader A) (k : A -> loader B) d :
  db_wf (fst (m d)) ->
  (forall x d', db_wf d' -> db_wf (fst (k x d'))) ->
  db_wf (fst (lbind m k d)).
Proof.
  intros Hm Hk. unfold lbind. destruct (m d) as [d' [x| |]]; cbn [fst] in *;
    [now apply Hk|exact Hm|exact Hm].
Qed.

Lemma load_body_wf data d : db_wf (fst (load_body data d)).
Proof.
  unfold load_body.
  apply lbind_wf; [exact empty_db_wf|]. intros _ d1 H1.
  apply lbind_wf; [now apply load_section_wf; [apply add_movie_wf|]|].
  intros _ d2 H2.
  apply lbind_wf; [now apply load_section_wf; [apply add_music_wf|]|].
  intros _ d3 H3.
  apply lbind_wf; [now apply load_section_wf; [apply add_book_wf|]|].
  intros _ d4 H4.
  now apply load_section_wf; [apply add_game_wf|].
Qed.

(** X19: the database that [load_from_file] builds has its items stored
    under their own ids, each id once per collection: the keys of the file
    are not used, the ids inside the records are, and a repeated id
    overwrites.  That is so at every point of the load; and for a file whose
    fields have the JSON types of the annotations (a rating may be an
    integer), where the embedding follows the load to its end, the call
    returns, whether the load succeeded or failed halfway, and leaves such a
    database, given that the database was one before, which matters when
    the file is missing. *)
Theorem load_keeps_ids_unique d filename files :
  db_wf d ->
  typed (load_from_file d filename files) ->
  (forall data d0, db_wf (fst (load_body data d0))) /\
  exists d' ok,
    load_from_file d filename files = Ok (d', ok) /\ db_wf d'.
Proof.
  intros Hd Ht. split; [exact load_body_wf|].
  unfold typed, load_from_file in *.
  destruct (dict_get filename files) as [data|].
  - pose proof (load_body_wf data d) as H.
    destruct (load_body data d) as [d1 [x| |]]; cbn [fst] in H.
    + now exists d1, true.
    + now exists d1, false.
    + now destruct Ht.
  - now exists d, false.
Qed.

Lemma load_keeps_ids_unique_witness :
  (forall data d0, db_wf (fst (load_body data d0))) /\
  exists d' ok,
    load_from_file empty_db "db.json" [("db.json", torn_file)]
      = Ok (d', ok) /\ db_wf d'.
Proof.
  apply (load_keeps_ids_unique empty_db "db.json" [("db.json", torn_file)]).
  - exact empty_db_wf.
  - discriminate.
Defined.

(** X20: a file that holds something else than a JSON object empties the
    database and reports failure: the collections are cleared before the
    document is looked at. *)
Theorem load_non_object_clears d filename files data :
  dict_get filename files = Some data ->
  is_obj data = false ->
  load_from_file d filename files = Ok (empty_db, false).
Proof.
  intros Hf Ho. unfold load_from_file. rewrite Hf.
  destruct data; try discriminate Ho; reflexivity.
Qed.

Lemma load_non_object_clears_witness :
  load_from_file new_db "db.json" [("db.json", JArr [])]
  = Ok (empty_db, false).
Proof.
  apply (load_non_object_clears new_db "db.json" [("db.json", JArr [])]
           (JArr []));
    reflexivity.
Defined.

Lemma load_entries_app {T : Type} (of_json : json -> res T) add l1 l2 d :
  load_entries of_json add (l1 ++ l2) d =
  match load_entries of_json add l1 d with
  | (d', Ok _) => load_entries of_json add l2 d'
  | (d', Raise e) => (d', Raise e)
  | (d', Untyped) => (d', Untyped)
  end.
Proof.
  revert d. induction l1 as [|[k v] l1 IH]; intros d; [reflexivity|].
  cbn [app load_entries]. unfold lbind, lift, modify.
  destruct (of_json v); [apply IH|reflexivity|reflexivity].
Qed.

(** X21: a record that cannot be read stops the load where it stands.  When
    the movies of the file are the dump of a collection followed by a record
    on which the constructor call raises, the load reports failure and
    leaves a database with exactly the movies in front of that record: what
    was in memory before is gone, and nothing behind the record, no other
    collection either, is loaded. *)
Theorem load_stops_at_bad_record d filename files o good k bad rest e :
  dict_get filename files = Some (JObj o) ->
  dict_get "movies" o
    = Some (JObj (map (fun kv => (fst kv, movie_to_dict (snd kv))) good
                  ++ (k, bad) :: rest)) ->
  movie_of_json bad = Raise e ->
  keyed_by (fun m => item_id (movie_base m)) good ->
  load_from_file d filename files = Ok (mkDb good [] [] [], false).
Proof.
  intros Hf Hm Hbad (Hn & Hk). unfold load_from_file. rewrite Hf.
  unfold load_body, load_section.
  unfold lbind at 1. unfold modify at 1.
  unfold lbind at 1. unfold lbind at 1. unfold lift at 1.
  unfold json_section, json_get. rewrite Hm. cbn [bind json_items].
  rewrite load_entries_app.
  rewrite (load_entries_dump _ _ _ _ _ movie_of_json_to_dict).
  cbn [load_entries]. unfold lbind at 1. unfold lift at 1. rewrite Hbad.
  rewrite fold_add_movie. cbn [movies music books games empty_db].
  rewrite (dict_rebuild (fun m => item_id (movie_base m)) _ [] Hk Hn).
  reflexivity.
Qed.

Lemma load_stops_at_bad_record_witness :
  load_from_file new_db "db.json" [("db.json", torn_file)]
  = Ok (mkDb [("m3", m3)] [] [] [], false).
Proof.
  apply (load_stops_at_bad_record new_db "db.json" [("db.json", torn_file)]
           [ ("movies",
              JObj [ ("m3", movie_to_dict m3);
                     ("m9", JObj [("id", JStr "m9")]);
                     ("m1", movie_to_dict (nth 0 sample_movies blank_movie)) ]);
             ("games", dump_dict game_to_dict (games new_db)) ]
           [("m3", m3)] "m9" (JObj [("id", JStr "m9")])
           [("m1", movie_to_dict (nth 0 sample_movies blank_movie))]
           KeyError).
  - reflexivity.
  - reflexivity.
  - reflexivity.
  - split; repeat constructor. simpl. tauto.
Defined.

(** ** Saving and loading a session *)

Lemma dict_rebuild_keys {V : Type} (l acc : dict V) :
  NoDup (dict_keys (acc ++ l)) ->
  fold_left (fun a kv => dict_set (fst kv) (snd kv) a) l acc = acc ++ l.
Proof.
  revert acc. induction l as [|[k v] l IH]; intros acc Hnd; simpl.
  - now rewrite app_nil_r.
  - assert (Hfresh : ~ In k (dict_keys acc)).
    { unfold dict_keys in *. rewrite map_app in Hnd. simpl in Hnd.
      apply NoDup_remove_2 in Hnd. intros H. apply Hnd.
      apply in_or_app. now left. }
    rewrite (dict_set_fresh _ _ _ Hfresh).
    rewrite IH; now rewrite <- app_assoc.
Qed.

Lemma load_users_dump (l : dict UserProfile) us :
  Agent.load_users (map (fun kv => (fst kv, profile_to_dict (snd kv))) l) us
  = (fold_left (fun a kv => dict_set (fst kv) (snd kv) a) l us, Ok tt).
Proof.
  revert us. induction l as [|[k u] l IH]; intros us; [reflexivity|].
  cbn [map Agent.load_users fst snd fold_left].
  rewrite from_dict_profile_to_dict. apply IH.
Qed.

(** X22: a session that is saved comes back in an agent without users:
    [load_data] on the two files [save_data] wrote returns true and leaves
    the saved database and the saved profiles, under their keys and in
    their order.  The current user is not part of what is saved: it stays
    what it was in the loading agent. *)
Theorem save_load_session a a0 db_filename users_filename files :
  db_wf (db a) ->
  NoDup (dict_keys (users a)) ->
  db_filename <> users_filename ->
  users a0 = [] ->
  Agent.load_data a0 db_filename users_filename
    (Agent.save_data a db_filename users_filename files)
  = Ok (mkAgent (db a) (users a) (current_user a0), true).
Proof.
  intros Hwf Hn Hne H0. unfold Agent.load_data, Agent.save_data.
  assert (Edb : load_from_file (db a0) db_filename
                  (dict_set users_filename
                     (dump_dict profile_to_dict (users a))
                     (save_to_file (db a) db_filename files))
                = Ok (db a, true)).
  { unfold load_from_file, save_to_file.
    rewrite dict_get_set_other by congruence.
    rewrite dict_get_set_same.
    now rewrite (load_body_db_to_json _ _ Hwf). }
  rewrite Edb. cbn [bind]. rewrite dict_get_set_same.
  unfold dump_dict. cbn [json_items].
  rewrite load_users_dump, H0.
  rewrite (dict_rebuild_keys (users a) [] Hn). reflexivity.
Qed.

Lemma save_load_session_witness :
  Agent.load_data new_agent "entertainment_db.json" "users.json"
    (Agent.save_data two_users "entertainment_db.json" "users.json" [])
  = Ok (mkAgent (db two_users) (users two_users) (current_user new_agent),
        true).
Proof.
  apply (save_load_session two_users new_agent "entertainment_db.json"
           "users.json" []).
  - repeat split; simpl;
      repeat (constructor; simpl; try (intuition discriminate));
      reflexivity.
  - simpl. repeat (constructor; simpl; try (intuition discriminate)).
  - discriminate.
  - reflexivity.
Defined.

Lemma dict_mem_set_mono {V : Type} k k' (v : V) d :
  dict_mem k d = true -> dict_mem k (dict_set k' v d) = true.
Proof.
  unfold dict_mem. destruct (String.eqb k' k) eqn:E.
  - apply String.eqb_eq in E. subst. now rewrite dict_get_set_same.
  - apply String.eqb_neq in E. now rewrite dict_get_set_other.
Qed.

Lemma load_users_mono entries us k :
  dict_mem k us = true ->
  dict_mem k (fst (Agent.load_users entries us)) = true.
Proof.
  revert us. induction entries as [|[uid ud] rest IH]; intros us H;
    [exact H|].
  cbn [Agent.load_users]. destruct (from_dict ud); cbn [fst]; auto.
  apply IH. now apply dict_mem_set_mono.
Qed.

Lemma load_users_res entries us us' :
  snd (Agent.load_users entries us) = snd (Agent.load_users entries us').
Proof.
  revert us us'. induction entries as [|[uid ud] rest IH]; intros us us';
    [reflexivity|].
  cbn [Agent.load_users]. destruct (from_dict ud); cbn [snd]; auto.
Qed.

Lemma load_data_keeps a db_filename users_filename files a' ok :
  Agent.load_data a db_filename users_filename files = Ok (a', ok) ->
  current_user a' = current_user a /\
  (forall k, dict_mem k (users a) = true -> dict_mem k (users a') = true) /\
  (dict_get users_filename files = None ->
   users a' = users a /\ ok = false) /\
  (dict_get db_filename files = None -> db a' = db a).
Proof.
  unfold Agent.load_data. intros H.
  assert (Hdb : dict_get db_filename files = None ->
                load_from_file (db a) db_filename files = Ok (db a, false)).
  { intros E. unfold load_from_file. now rewrite E. }
  destruct (load_from_file (db a) db_filename files) as [[d b]| |] eqn:El;
    [|discriminate|discriminate].
  cbn [bind] in H.
  assert (Hd : dict_get db_filename files = None -> d = db a).
  { intros E. specialize (Hdb E). congruence. }
  destruct (dict_get users_filename files) as [ud|].
  - destruct (json_items ud) as [entries| |].
    + pose proof (load_users_mono entries (users a)) as Hm.
      destruct (Agent.load_users entries (users a)) as [us [x| |]];
        cbn [fst] in Hm; try discriminate;
        injection H as <- <-; cbn [current_user users db];
        (split; [reflexivity|]); (split; [exact Hm|]);
        (split; [discriminate|exact Hd]).
    + injection H as <- <-. cbn [current_user users db].
      split; [reflexivity|]. split; [auto|]. split; [discriminate|exact Hd].
    + injection H as <- <-. cbn [current_user users db].
      split; [reflexivity|]. split; [auto|]. split; [discriminate|exact Hd].
  - injection H as <- <-. cbn [current_user users db].
    split; [reflexivity|]. split; [auto|]. split; [auto|exact Hd].
Qed.

(** What [load_data] returns is read off the users file alone. *)
Lemma load_data_value a a2 dbf dbf2 uf files a' ok a2' ok2 :
  Agent.load_data a dbf uf files = Ok (a', ok) ->
  Agent.load_data a2 dbf2 uf files = Ok (a2', ok2) ->
  ok2 = ok.
Proof.
  unfold Agent.load_data. intros H H2.
  destruct (load_from_file (db a) dbf files) as [[d b]| |];
    [|discriminate|discriminate].
  destruct (load_from_file (db a2) dbf2 files) as [[d2 b2]| |];
    [|discriminate|discriminate].
  cbn [bind] in H, H2.
  destruct (dict_get uf files) as [ud|]; [|congruence].
  destruct (json_items ud) as [entries| |]; [|congruence|congruence].
  pose proof (load_users_res entries (users a) (users a2)) as Hr.
  destruct (Agent.load_users entries (users a)) as [us r],
           (Agent.load_users entries (users a2)) as [us2 r2].
  cbn [snd] in Hr. subst r2. destruct r; congruence.
Qed.

Lemma load_data_returns a dbf uf files :
  typed (Agent.load_data a dbf uf files) ->
  exists a' ok, Agent.load_data a dbf uf files = Ok (a', ok).
Proof.
  unfold typed, Agent.load_data.
  destruct (load_from_file (db a) dbf files) as [[d b]|e|] eqn:El;
    cbn [bind]; [| |tauto].
  - destruct (dict_get uf files) as [ud|]; [|eauto].
    destruct (json_items ud) as [entries| |]; [|eauto|eauto].
    destruct (Agent.load_users entries (users a)) as [us [x| |]];
      [eauto|eauto|tauto].
  - exfalso. unfold load_from_file in El.
    destruct (dict_get dbf files); [|discriminate].
    destruct (load_body j (db a)) as [d1 [x| |]]; discriminate.
Qed.

(** X23: [load_data] only adds to the stored profiles or replaces them.
    For files whose fields have the JSON types of the annotations, where
    the embedding follows the load to its end, the call returns; a profile
    that is stored stays stored under its key, whether the load succeeds or
    stops halfway, the current user is not touched, and a users file that
    cannot be read leaves the profiles exactly as they were and makes the
    call return false.  The loading of the database does not count for the
    returned value, which is the same from any agent and with any database
    file: a missing database file leaves the database as it was and the call
    can still return true. *)
Theorem load_data_keeps_users a db_filename users_filename files :
  typed (Agent.load_data a db_filename users_filename files) ->
  exists a' ok,
    Agent.load_data a db_filename users_filename files = Ok (a', ok) /\
    current_user a' = current_user a /\
    (forall k, dict_mem k (users a) = true -> dict_mem k (users a') = true) /\
    (dict_get users_filename files = None ->
     users a' = users a /\ ok = false) /\
    (dict_get db_filename files = None -> db a' = db a) /\
    (forall a2 db_filename2,
       typed (Agent.load_data a2 db_filename2 users_filename files) ->
       exists a2',
         Agent.load_data a2 db_filename2 users_filename files
         = Ok (a2', ok)).
Proof.
  intros Ht. destruct (load_data_returns _ _ _ _ Ht) as (a' & ok & E).
  exists a', ok. split; [exact E|].
  destruct (load_data_keeps _ _ _ _ _ _ E) as (H1 & H2 & H3 & H4).
  repeat (split; [assumption|]).
  intros a2 dbf2 Ht2.
  destruct (load_data_returns _ _ _ _ Ht2) as (a2' & ok2 & E2).
  exists a2'. now rewrite E2, (load_data_value _ _ _ _ _ _ _ _ _ _ E E2).
Qed.

Lemma load_data_keeps_users_witness :
  exists a' ok,
    Agent.load_data two_users "entertainment_db.json" "users.json"
      [("users.json",
        JObj [("user_9", profile_to_dict (new_profile "user_9" "Zoe"))])]
      = Ok (a', ok) /\
    current_user a' = current_user two_users /\
    (forall k, dict_mem k (users two_users) = true ->
               dict_mem k (users a') = true) /\
    (dict_get "users.json"
       [("users.json",
         JObj [("user_9", profile_to_dict (new_profile "user_9" "Zoe"))])]
     = None ->
     users a' = users two_users /\ ok = false) /\
    (dict_get "entertainment_db.json"
       [("users.json",
         JObj [("user_9", profile_to_dict (new_profile "user_9" "Zoe"))])]
     = None ->
     db a' = db two_users) /\
    (forall a2 db_filename2,
       typed (Agent.load_data a2 db_filename2 "users.json"
                [("users.json",
                  JObj [("user_9",
                         profile_to_dict (new_profile "user_9" "Zoe"))])]) ->
       exists a2',
         Agent.load_data a2 db_filename2 "users.json"
           [("users.json",
             JObj [("user_9", profile_to_dict (new_profile "user_9" "Zoe"))])]
         = Ok (a2', ok)).
Proof.
  apply (load_data_keeps_users two_users "entertainment_db.json" "users.json"
           [("users.json",
             JObj [("user_9", profile_to_dict (new_profile "user_9" "Zoe"))])]).
  discriminate.
Defined.

(** ** The current user *)

Lemma current_ok_index a :
  current_ok a -> Agent.no_user a = false ->
  exists u, dict_index (users a) (Agent.current_key a) = Ok u.
Proof.
  unfold current_ok, Agent.no_user, Agent.current_key, dict_index, dict_mem.
  destruct (current_user a) as [k|]; [|discriminate].
  destruct (dict_get k (users a)) as [u|]; [|discriminate].
  intros _ _. now exists u.
Qed.

(** X24: the current user of the facade is always a stored profile.  The
    property holds for a new agent and is kept by [create_user],
    [set_current_user], [add_user_preference], [add_to_history] and
    [load_data], the last for files whose fields have the JSON types of
    the annotations, where the embedding follows the load to its end and
    the call returns; under it the two adding operations never raise: they
    return true exactly when there is a current user with a non-empty id,
    and they keep the stored keys and their order. *)
Theorem current_user_is_stored a nm uid mt c v iid :
  current_ok a ->
  current_ok new_agent /\
  current_ok (fst (Agent.create_user a nm)) /\
  current_ok (fst (Agent.set_current_user a uid)) /\
  (exists a1,
     Agent.add_user_preference a mt c v = Ok (a1, negb (Agent.no_user a)) /\
     current_ok a1 /\ dict_keys (users a1) = dict_keys (users a)) /\
  (exists a2,
     Agent.add_to_history a mt iid = Ok (a2, negb (Agent.no_user a)) /\
     current_ok a2 /\ dict_keys (users a2) = dict_keys (users a)) /\
  (forall dbf uf files,
     typed (Agent.load_data a dbf uf files) ->
     exists a3 ok,
       Agent.load_data a dbf uf files = Ok (a3, ok) /\ current_ok a3).
Proof.
  intros Hc. split; [exact I|]. split; [|split; [|split; [|split]]].
  - unfold Agent.create_user, current_ok. cbn [fst current_user users].
    unfold dict_mem. now rewrite dict_get_set_same.
  - unfold Agent.set_current_user.
    destruct (dict_mem uid (users a)) eqn:E; [exact E|exact Hc].
  - unfold Agent.add_user_preference.
    destruct (Agent.no_user a) eqn:En; [now exists a|].
    destruct (current_ok_index a Hc En) as (u & Hu). rewrite Hu. cbn [bind].
    eexists. split; [reflexivity|].
    assert (Hin : In (Agent.current_key a) (dict_keys (users a))).
    { unfold dict_index in Hu.
      destruct (dict_get (Agent.current_key a) (users a)) eqn:E;
        [|discriminate].
      apply dict_get_In in E. apply (in_map fst) in E. exact E. }
    split; [|now apply dict_set_keys_present].
    unfold current_ok in *. cbn [current_user users].
    destruct (current_user a) as [k|]; [|exact I].
    now apply dict_mem_set_mono.
  - unfold Agent.add_to_history.
    destruct (Agent.no_user a) eqn:En; [now exists a|].
    destruct (current_ok_index a Hc En) as (u & Hu). rewrite Hu. cbn [bind].
    eexists. split; [reflexivity|].
    assert (Hin : In (Agent.current_key a) (dict_keys (users a))).
    { unfold dict_index in Hu.
      destruct (dict_get (Agent.current_key a) (users a)) eqn:E;
        [|discriminate].
      apply dict_get_In in E. apply (in_map fst) in E. exact E. }
    split; [|now apply dict_set_keys_present].
    unfold current_ok in *. cbn [current_user users].
    destruct (current_user a) as [k|]; [|exact I].
    now apply dict_mem_set_mono.
  - intros dbf uf files Ht.
    destruct (load_data_returns _ _ _ _ Ht) as (a3 & ok & H).
    exists a3, ok. split; [exact H|].
    unfold Agent.load_data in H.
    destruct (load_from_file (db a) dbf files) as [[d b]| |];
      [|discriminate|discriminate].
    cbn [bind] in H. unfold current_ok in *.
    destruct (dict_get uf files) as [ud|].
    + destruct (json_items ud) as [entries| |].
      * pose proof (load_users_mono entries (users a)) as Hm.
        destruct (Agent.load_users entries (users a)) as [us [x| |]];
          cbn [fst] in Hm; try discriminate;
          injection H as <- <-; cbn [current_user users];
          destruct (current_user a); auto.
      * injection H as <- <-. exact Hc.
      * injection H as <- <-. exact Hc.
    + injection H as <- <-. exact Hc.
Qed.

Lemma current_user_is_stored_witness :
  current_ok new_agent /\
  current_ok (fst (Agent.create_user two_users "Eve")) /\
  current_ok (fst (Agent.set_current_user two_users "user_1")) /\
  (exists a1,
     Agent.add_user_preference two_users "movie" "genres" (VStr "Drama")
       = Ok (a1, negb (Agent.no_user two_users)) /\
     current_ok a1 /\ dict_keys (users a1) = dict_keys (users two_users)) /\
  (exists a2,
     Agent.add_to_history two_users "movie" "m3"
       = Ok (a2, negb (Agent.no_user two_users)) /\
     current_ok a2 /\ dict_keys (users a2) = dict_keys (users two_users)) /\
  (forall dbf uf files,
     typed (Agent.load_data two_users dbf uf files) ->
     exists a3 ok,
       Agent.load_data two_users dbf uf files = Ok (a3, ok) /\
       current_ok a3).
Proof.
  apply (current_user_is_stored two_users "Eve" "user_1" "movie" "genres"
           (VStr "Drama") "m3").
  reflexivity.
Defined.

(** ** The ids of created users *)

Lemma str_of_nat_inj a b : str_of_nat a = str_of_nat b -> a = b.
Proof.
  unfold str_of_nat. intros H.
  apply (f_equal NilEmpty.uint_of_string) in H.
  rewrite !NilEmpty.usu in H. injection H as H.
  apply (f_equal Nat.of_uint) in H.
  now rewrite !DecimalNat.Unsigned.of_to in H.
Qed.

Lemma user_key_inj a b : user_key a = user_key b -> a = b.
Proof.
  unfold user_key. intros H. apply str_of_nat_inj.
  now injection H.
Qed.

Lemma created_keys_S n :
  created_keys (S n) = created_keys n ++ [user_key (S n)].
Proof. unfold created_keys. now rewrite seq_S, map_app. Qed.

(** X25: when the stored profiles are the ones [create_user] made, under the
    ids [user_1] to [user_n], the next [create_user] returns [user_(n+1)],
    an id no stored profile has; the new profile goes behind the stored
    ones, which all stay, it becomes the current user, and the stored ids
    are again those of created users, [user_1] to [user_(n+1)]. *)
Theorem create_user_after_creates a n nm :
  dict_keys (users a) = created_keys n ->
  let a' := fst (Agent.create_user a nm) in
  let uid := snd (Agent.create_user a nm) in
  uid = user_key (S n) /\
  ~ In uid (dict_keys (users a)) /\
  users a' = users a ++ [(uid, new_profile uid nm)] /\
  dict_keys (users a') = created_keys (S n) /\
  current_user a' = Some uid.
Proof.
  intros Hk. cbv zeta.
  assert (Hlen : List.length (users a) = n).
  { rewrite <- (length_map fst (users a)). fold (dict_keys (users a)).
    rewrite Hk. unfold created_keys. now rewrite length_map, length_seq. }
  assert (Hid : snd (Agent.create_user a nm) = user_key (S n)).
  { unfold Agent.create_user, user_key. cbn [snd]. rewrite Hlen.
    now rewrite Nat.add_1_r. }
  assert (Hfresh : ~ In (user_key (S n)) (dict_keys (users a))).
  { rewrite Hk. unfold created_keys. intros H. apply in_map_iff in H.
    destruct H as (i & Hi & Hin). apply user_key_inj in Hi. subst i.
    apply in_seq in Hin. lia. }
  assert (Hus : users (fst (Agent.create_user a nm))
                = users a ++ [(user_key (S n), new_profile (user_key (S n)) nm)]).
  { unfold Agent.create_user in *. cbn [fst snd users] in *. rewrite Hid.
    now apply dict_set_fresh. }
  rewrite Hid. split; [reflexivity|]. split; [exact Hfresh|].
  split; [exact Hus|]. split.
  - rewrite Hus. unfold dict_keys in *. rewrite map_app, Hk.
    now rewrite created_keys_S.
  - unfold Agent.create_user in *. cbn [fst snd current_user] in *.
    now rewrite Hid.
Qed.

Lemma create_user_after_creates_witness :
  let a' := fst (Agent.create_user two_users "Eve") in
  let uid := snd (Agent.create_user two_users "Eve") in
  uid = user_key 3 /\
  ~ In uid (dict_keys (users two_users)) /\
  users a' = users two_users ++ [(uid, new_profile uid "Eve")] /\
  dict_keys (users a') = created_keys 3 /\
  current_user a' = Some uid.
Proof.
  apply (create_user_after_creates two_users 2 "Eve"). reflexivity.
Defined.

(** X26: a profile stored under the empty id can be selected but not used:
    [set_current_user] accepts the empty id when it is stored, and every
    operation on the current user then answers as if nobody were selected,
    the empty string counting as no user. *)
Theorem empty_id_counts_as_no_user a media_type count mt c v iid :
  dict_mem "" (users a) = true ->
  let a' := fst (Agent.set_current_user a "") in
  snd (Agent.set_current_user a "") = true /\
  current_user a' = Some "" /\
  Agent.get_recommendations a' media_type count
    = Ok [("error", JStr "No user selected")] /\
  Agent.add_user_preference a' mt c v = Ok (a', false) /\
  Agent.add_to_history a' mt iid = Ok (a', false).
Proof.
  intros H. cbv zeta. unfold Agent.set_current_user. rewrite H.
  cbn [fst snd]. repeat split.
Qed.

Lemma empty_id_counts_as_no_user_witness :
  let a' := fst (Agent.set_current_user nameless_agent "") in
  snd (Agent.set_current_user nameless_agent "") = true /\
  current_user a' = Some "" /\
  Agent.get_recommendations a' (Some "movie") 3
    = Ok [("error", JStr "No user selected")] /\
  Agent.add_user_preference a' "movie" "genres" (VStr "Drama")
    = Ok (a', false) /\
  Agent.add_to_history a' "movie" "m3" = Ok (a', false).
Proof.
  apply (empty_id_counts_as_no_user nameless_agent (Some "movie") 3
           "movie" "genres" (VStr "Drama") "m3").
  reflexivity.
Defined.

(** ** A new user *)


(** ** Media types do not mix *)

Lemma actor_loop_ext u u' acts score :
  pref u' "movie" "actors" = pref u "movie" "actors" ->
  actor_loop u' acts score = actor_loop u acts score.
Proof.
  intros H. revert score. induction acts as [|x acts IH]; intros score;
    [reflexivity|].
  cbn [actor_loop]. rewrite H.
  destruct (pref u "movie" "actors"); cbn [bind]; auto.
Qed.

Lemma platform_loop_ext u u' ps score :
  pref u' "game" "platforms" = pref u "game" "platforms" ->
  platform_loop u' ps score = platform_loop u ps score.
Proof.
  intros H. induction ps as [|x ps IH]; [reflexivity|].
  cbn [platform_loop]. rewrite H.
  destruct (pref u "game" "platforms"); cbn [bind]; auto.
  now rewrite IH.
Qed.

(** The score reads the preferences and the history of its media type
    only. *)
Lemma score_reads_own_kind item u u' mt :
  (forall c, pref u' mt c = pref u mt c) ->
  dict_get mt (history u') = dict_get mt (history u) ->
  calculate_match_score item u' mt = calculate_match_score item u mt.
Proof.
  intros Hp Hh. unfold calculate_match_score, dict_index.
  rewrite !Hp, Hh.
  destruct (String.eqb mt "movie") eqn:E1.
  { apply String.eqb_eq in E1. subst mt. rewrite !Hp.
    repeat first
      [ match goal with
        | |- bind ?X _ = bind ?X _ => destruct X; cbn [bind]; try reflexivity
        end
      | rewrite (actor_loop_ext u u') by apply Hp
      | rewrite bind_assoc ]. }
  destruct (String.eqb mt "music") eqn:E2.
  { apply String.eqb_eq in E2. subst mt. now rewrite !Hp. }
  destruct (String.eqb mt "book") eqn:E3.
  { apply String.eqb_eq in E3. subst mt. now rewrite !Hp. }
  destruct (String.eqb mt "game") eqn:E4.
  { apply String.eqb_eq in E4. subst mt. rewrite !Hp.
    repeat first
      [ match goal with
        | |- bind ?X _ = bind ?X _ => destruct X; cbn [bind]; try reflexivity
        end
      | rewrite (platform_loop_ext u u') by apply Hp
      | rewrite bind_assoc ]. }
  reflexivity.
Qed.

Lemma pref_add_preference_other_kind u mt mt' c v c' :
  mt' <> mt ->
  pref (add_preference u mt' c v) mt c' = pref u mt c'.
Proof.
  intros Hne. unfold add_preference, pref, dict_index.
  destruct (dict_get mt' (preferences u)) as [cats|]; [|reflexivity].
  destruct (dict_get c cats) as [vals|]; [|reflexivity].
  destruct (py_in v vals); [reflexivity|]. cbn [preferences].
  now rewrite dict_get_set_other.
Qed.

(** X27: what is recorded for one media type does not move the scores of
    another: after [add_preference] or [add_to_history] on another media
    type, every item scores, or fails to score, under this media type as it
    did before, and the recommendations for it are the same. *)
Theorem other_kind_leaves_score d item u mt mt' c v iid count :
  mt' <> mt ->
  calculate_match_score item (add_preference u mt' c v) mt
    = calculate_match_score item u mt /\
  calculate_match_score item (add_to_history u mt' iid) mt
    = calculate_match_score item u mt /\
  get_recommendations d (add_preference u mt' c v) mt count
    = get_recommendations d u mt count /\
  get_recommendations d (add_to_history u mt' iid) mt count
    = get_recommendations d u mt count.
Proof.
  intros Hne.
  assert (H1 : forall i, calculate_match_score i (add_preference u mt' c v) mt
                         = calculate_match_score i u mt).
  { intros i. apply score_reads_own_kind.
    - intros c'. now apply pref_add_preference_other_kind.
    - unfold add_preference.
      destruct (dict_get mt' (preferences u)) as [cats|]; [|reflexivity].
      destruct (dict_get c cats) as [vals|]; [|reflexivity].
      now destruct (py_in v vals). }
  assert (H2 : forall i, calculate_match_score i (add_to_history u mt' iid) mt
                         = calculate_match_score i u mt).
  { intros i. apply score_reads_own_kind.
    - intros c'. unfold pref. now rewrite add_to_history_preferences.
    - unfold add_to_history.
      destruct (dict_get mt' (history u)) as [seen|]; [|reflexivity].
      destruct (str_in iid seen); [reflexivity|]. cbn [history].
      now rewrite dict_get_set_other. }
  split; [apply H1|]. split; [apply H2|].
  unfold get_recommendations, score_items. split.
  - f_equal. induction (all_items d mt) as [|i l IH]; [reflexivity|].
    cbn [mapM]. now rewrite H1, IH.
  - f_equal. induction (all_items d mt) as [|i l IH]; [reflexivity|].
    cbn [mapM]. now rewrite H2, IH.
Qed.

Lemma other_kind_leaves_score_witness :
  calculate_match_score (IMovie m3)
    (add_preference john "music" "genres" (VStr "Jazz")) "movie"
    = calculate_match_score (IMovie m3) john "movie" /\
  calculate_match_score (IMovie m3) (add_to_history john "music" "mu1") "movie"
    = calculate_match_score (IMovie m3) john "movie" /\
  get_recommendations new_db
    (add_preference john "music" "genres" (VStr "Jazz")) "movie" 3
    = get_recommendations new_db john "movie" 3 /\
  get_recommendations new_db (add_to_history john "music" "mu1") "movie" 3
    = get_recommendations new_db john "movie" 3.
Proof.
  apply (other_kind_leaves_score new_db (IMovie m3) john "movie" "music"
           "genres" (VStr "Jazz") "mu1" 3).
  discriminate.
Defined.

(** ** One user at a time *)

(** X28: the facade edits the profile of the current user and nothing else:
    [add_user_preference] and [add_to_history] return true, put in the place
    of the current profile the one [add_preference], respectively
    [add_to_history], makes of it, and leave every other stored profile, the
    database and the current user as they were. *)
Theorem facade_edits_current_profile a k u mt c v iid :
  current_user a = Some k ->
  k <> "" ->
  dict_get k (users a) = Some u ->
  (exists a1,
     Agent.add_user_preference a mt c v = Ok (a1, true) /\
     dict_get k (users a1) = Some (add_preference u mt c v) /\
     (forall k', k' <> k -> dict_get k' (users a1) = dict_get k' (users a)) /\
     db a1 = db a /\ current_user a1 = Some k) /\
  (exists a2,
     Agent.add_to_history a mt iid = Ok (a2, true) /\
     dict_get k (users a2) = Some (add_to_history u mt iid) /\
     (forall k', k' <> k -> dict_get k' (users a2) = dict_get k' (users a)) /\
     db a2 = db a /\ current_user a2 = Some k).
Proof.
  intros Hc Hk Hu.
  assert (Hno : Agent.no_user a = false).
  { unfold Agent.no_user. rewrite Hc. now apply String.eqb_neq. }
  assert (Hkey : Agent.current_key a = k).
  { unfold Agent.current_key. now rewrite Hc. }
  split.
  - unfold Agent.add_user_preference. rewrite Hno, Hkey.
    unfold dict_index. rewrite Hu. cbn [bind]. eexists.
    split; [reflexivity|]. cbn [users db current_user].
    split; [apply dict_get_set_same|].
    split; [intros k' H; apply dict_get_set_other; congruence|].
    split; [reflexivity|exact Hc].
  - unfold Agent.add_to_history. rewrite Hno, Hkey.
    unfold dict_index. rewrite Hu. cbn [bind]. eexists.
    split; [reflexivity|]. cbn [users db current_user].
    split; [apply dict_get_set_same|].
    split; [intros k' H; apply dict_get_set_other; congruence|].
    split; [reflexivity|exact Hc].
Qed.

Lemma facade_edits_current_profile_witness :
  (exists a1,
     Agent.add_user_preference two_users "movie" "genres" (VStr "Drama")
       = Ok (a1, true) /\
     dict_get "user_2" (users a1)
       = Some (add_preference (new_profile "user_2" "Ann")
                 "movie" "genres" (VStr "Drama")) /\
     (forall k', k' <> "user_2" ->
        dict_get k' (users a1) = dict_get k' (users two_users)) /\
     db a1 = db two_users /\ current_user a1 = Some "user_2") /\
  (exists a2,
     Agent.add_to_history two_users "movie" "m3" = Ok (a2, true) /\
     dict_get "user_2" (users a2)
       = Some (add_to_history (new_profile "user_2" "Ann") "movie" "m3") /\
     (forall k', k' <> "user_2" ->
        dict_get k' (users a2) = dict_get k' (users two_users)) /\
     db a2 = db two_users /\ current_user a2 = Some "user_2").
Proof.
  apply (facade_edits_current_profile two_users "user_2"
           (new_profile "user_2" "Ann") "movie" "genres" (VStr "Drama") "m3").
  - reflexivity.
  - discriminate.
  - reflexivity.
Defined.

Lemma dict_set_same_value {V : Type} k (v : V) d :
  NoDup (dict_keys d) -> In (k, v) d -> dict_set k v d = d.
Proof.
  induction d as [|[k' v'] d IH]; intros Hn Hin; [destruct Hin|].
  inversion Hn as [|? ? Hk' Hn']; subst. cbn [dict_set].
  destruct (String.eqb k k') eqn:E.
  - apply String.eqb_eq in E. subst k'.
    destruct Hin as [[= ->]|Hin]; [reflexivity|].
    exfalso. apply Hk'. change k with (fst (k, v)). now apply in_map.
  - apply String.eqb_neq in E. f_equal.
    destruct Hin as [[= ? ?]|Hin]; [congruence|]. now apply IH.
Qed.

Lemma dict_set_all_same {V : Type} (l d : dict V) :
  NoDup (dict_keys d) -> incl l d ->
  fold_left (fun a kv => dict_set (fst kv) (snd kv) a) l d = d.
Proof.
  intros Hn. induction l as [|[k v] l IH]; intros Hi; [reflexivity|].
  cbn [fold_left fst snd].
  rewrite dict_set_same_value; [|exact Hn|apply Hi; now left].
  apply IH. intros x Hx. apply Hi. now right.
Qed.

(** X29: loading what was just saved changes nothing: for an agent whose
    database has its items under their ids and whose profiles have distinct
    keys, [load_data] on the files [save_data] wrote returns true and leaves
    the agent as it is, current user included. *)
Theorem reload_in_place a db_filename users_filename files :
  db_wf (db a) ->
  NoDup (dict_keys (users a)) ->
  db_filename <> users_filename ->
  Agent.load_data a db_filename users_filename
    (Agent.save_data a db_filename users_filename files)
  = Ok (a, true).
Proof.
  intros Hwf Hn Hne. unfold Agent.load_data, Agent.save_data.
  assert (Edb : load_from_file (db a) db_filename
                  (dict_set users_filename
                     (dump_dict profile_to_dict (users a))
                     (save_to_file (db a) db_filename files))
                = Ok (db a, true)).
  { unfold load_from_file, save_to_file.
    rewrite dict_get_set_other by congruence.
    rewrite dict_get_set_same.
    now rewrite (load_body_db_to_json _ _ Hwf). }
  rewrite Edb. cbn [bind]. rewrite dict_get_set_same.
  unfold dump_dict. cbn [json_items].
  rewrite load_users_dump.
  rewrite (dict_set_all_same (users a) (users a) Hn (incl_refl _)).
  now destruct a.
Qed.

Lemma reload_in_place_witness :
  Agent.load_data two_users "entertainment_db.json" "users.json"
    (Agent.save_data two_users "entertainment_db.json" "users.json" [])
  = Ok (two_users, true).
Proof.
  apply (reload_in_place two_users "entertainment_db.json" "users.json" []).
  - repeat split; simpl;
      repeat (constructor; simpl; try (intuition discriminate));
      reflexivity.
  - simpl. repeat (constructor; simpl; try (intuition discriminate)).
  - discriminate.
Defined.

